(** * Signal fusion and autonomous trading orchestrator: a shallow embedding

    The Python sources under [services/] and [data/] are rendered as Rocq
    functions.  Python [float] values are rendered as exact rationals
    ([Q]); the only place where the IEEE special value NaN matters
    (the volume profile of [analyze_liquidity_pools]) uses the explicit
    type [npfloat] below.  Dictionaries with a fixed set of keys become
    records, the lists of trade dictionaries stay lists (their order is
    observable), and calls that may raise return a sum type. *)

From Stdlib Require Import QArith Qabs Qround ZArith String List Bool Lia Lqa Arith.
Import ListNotations.
Open Scope Q_scope.

(** ** Python numerics on rationals *)

Module PyNum.

(** [a < b] and [a <= b] as Python evaluates them, to a boolean. *)
Definition Qltb (a b : Q) : bool := negb (Qle_bool b a).
Definition Qleb (a b : Q) : bool := Qle_bool a b.
Definition Qeqb (a b : Q) : bool := Qeq_bool a b.

(** Built-in [max(a, b)] and [min(a, b)]: the first argument is kept
    unless the second is strictly better. *)
Definition pymax (a b : Q) : Q := if Qltb a b then b else a.
Definition pymin (a b : Q) : Q := if Qltb b a then b else a.
Definition pymax3 (a b c : Q) : Q := pymax (pymax a b) c.

(** Built-in [sum] over a list, starting from 0. *)
Definition pysum (l : list Q) : Q := fold_left Qplus l 0.

(** The slice [l[-n:]]. *)
Definition lastn {A : Type} (n : nat) (l : list A) : list A :=
  skipn (length l - n) l.

(** [round(x, n)]: round half to even at [n] decimals. *)
Definition round_half_even (x : Q) : Z :=
  let f := Qfloor x in
  let d := x - inject_Z f in
  if Qltb d (1 # 2) then f
  else if Qltb (1 # 2) d then (f + 1)%Z
  else if Z.even f then f else (f + 1)%Z.

Definition pow10 (n : nat) : Q := inject_Z (10 ^ Z.of_nat n).

Definition pyround (x : Q) (n : nat) : Q :=
  inject_Z (round_half_even (x * pow10 n)) / pow10 n.

(** Maximum and minimum of a non-empty data-frame column. *)
Definition column_max (xs : list Q) : Q := fold_left pymax (tl xs) (hd 0 xs).
Definition column_min (xs : list Q) : Q := fold_left pymin (tl xs) (hd 0 xs).

(** [sorted(xs)], as a stable insertion sort. *)
Fixpoint insert_sorted (x : Q) (l : list Q) : list Q :=
  match l with
  | [] => [x]
  | y :: rest => if Qltb x y then x :: l else y :: insert_sorted x rest
  end.

Definition sorted (l : list Q) : list Q :=
  fold_left (fun acc x => insert_sorted x acc) l [].

End PyNum.
Import PyNum.

(** ** Candles *)

(** One OHLCV row [[timestamp, open, high, low, close, volume]]; the
    source reads it by position ([x[2]] is the high, [x[3]] the low,
    [x[4]] the close) or through the data-frame column names. *)
Record Candle : Type := mkCandle {
  timestamp : Q;
  open : Q;
  high : Q;
  low : Q;
  close : Q;
  volume : Q
}.

(** ** Risk calibrator: [TradingEngine.calculate_scalping_sl_tp] *)

Module RiskCalibrator.

Record Meta : Type := mkMeta {
  m_atr : Q;
  m_atr_pct : Q;
  m_atr_ema : Q;
  m_atr_sma : Q;
  m_volatility_ratio : Q;
  m_sl_pct : Q;
  m_tp_pct : Q;
  m_risk_reward_ratio : Q;
  m_tp_hit_rate : option Q;
  m_timeframe : string;
  m_candles_used : nat;
  m_candles_limit : Z;
  m_leverage : Z
}.

Inductive MetaInfo : Type :=
| Reason (reason : string)
| Calibrated (m : Meta).

Record Levels : Type := mkLevels {
  stop_loss : option Q;
  take_profit : option Q;
  meta : MetaInfo
}.

(** The true-range loop: [prev_close] starts at [closes[0]] and is
    updated after every candle. *)
Fixpoint true_range (prev_close : Q) (ohlcv : list Candle) : list Q :=
  match ohlcv with
  | [] => []
  | x :: rest =>
      pymax3 (high x - low x)
             (Qabs (high x - prev_close))
             (Qabs (low x - prev_close))
        :: true_range (close x) rest
  end.

Definition period : nat := 14.
Definition alpha : Q := 2 / (inject_Z (Z.of_nat period) + 1).

(** [atr_ema = tr[0]; for tr_val in tr[1:]: atr_ema = alpha * tr_val + (1 - alpha) * atr_ema] *)
Definition ema (tr : list Q) : Q :=
  fold_left (fun atr_ema tr_val => alpha * tr_val + (1 - alpha) * atr_ema)
            (tl tr) (hd 0 tr).

Definition sma (n : nat) (tr : list Q) : Q :=
  pysum (lastn n tr) / inject_Z (Z.of_nat n).

(** The unrounded percentages the function works with, from the first
    [max(min_sl_pct, ...)] to the final caps.  The result carries the
    stop and target distances and the two caps that were applied. *)
Record Pcts : Type := mkPcts {
  sl_pct : Q;
  tp_pct : Q;
  max_sl_pct : Q;
  max_tp_pct : Q;
  uncapped_sl_pct : Q;
  uncapped_tp_pct : Q
}.

Definition target_rr : Q := 3.
Definition base_min_sl_pct : Q := 30 # 100.
Definition base_min_tp_pct : Q := 55 # 100.

(** Adaptive minimum distances: scaled up for high-ATR instruments,
    down for quiet ones. *)
Definition min_pcts (atr_pct : Q) : Q * Q :=
  if Qltb (15 # 10) atr_pct then
    (base_min_sl_pct * (13 # 10), base_min_tp_pct * (13 # 10))
  else if Qltb atr_pct (5 # 10) then
    (base_min_sl_pct * (9 # 10), base_min_tp_pct * (9 # 10))
  else (base_min_sl_pct, base_min_tp_pct).

(** [if tp_pct / sl_pct < target_rr: tp_pct = sl_pct * target_rr] *)
Definition stretch_target (sl_pct tp_pct : Q) : Q :=
  if Qltb (tp_pct / sl_pct) target_rr then sl_pct * target_rr else tp_pct.

(** The block guarded by [atr_pct > 1.0 and tp_pct < 5.0]. *)
Definition widen_for_volatile (atr_pct sl_pct tp_pct : Q) : Q * Q :=
  if Qltb 1 atr_pct && Qltb tp_pct 5 then
    let max_tp_for_volatile := pymin (atr_pct * 2) 5 in
    if Qltb tp_pct max_tp_for_volatile then
      let tp_pct := max_tp_for_volatile in
      if Qltb (target_rr * (12 # 10)) (tp_pct / sl_pct)
      then (tp_pct / target_rr, tp_pct)
      else (sl_pct, tp_pct)
    else (sl_pct, tp_pct)
  else (sl_pct, tp_pct).

Definition cap_sl (atr_pct : Q) : Q := if Qltb 1 atr_pct then 25 # 10 else 2.
Definition cap_tp (atr_pct : Q) : Q := if Qltb 1 atr_pct then 5 else 4.

Definition calibrate_pcts (atr_pct volatility_ratio : Q) : Pcts :=
  let '(min_sl_pct, min_tp_pct) := min_pcts atr_pct in
  let sl_pct := pymax min_sl_pct (atr_pct * (12 # 10) * volatility_ratio) in
  let tp_pct := pymax min_tp_pct (atr_pct * (15 # 10) * volatility_ratio) in
  let tp_pct := stretch_target sl_pct tp_pct in
  let '(sl_pct, tp_pct) := widen_for_volatile atr_pct sl_pct tp_pct in
  let max_sl_pct := cap_sl atr_pct in
  let max_tp_pct := cap_tp atr_pct in
  mkPcts (pymin sl_pct max_sl_pct) (pymin tp_pct max_tp_pct)
         max_sl_pct max_tp_pct sl_pct tp_pct.

(** Stop and target prices for the requested direction.  The source
    recomputes the same two expressions when the ordering test fails, so
    the "guarantee" block leaves the values as they are. *)
Definition price_levels (is_long : bool) (entry sl_pct tp_pct : Q) : Q * Q :=
  let '(stop_loss, take_profit) :=
    if is_long
    then (entry * (1 - sl_pct / 100), entry * (1 + tp_pct / 100))
    else (entry * (1 + sl_pct / 100), entry * (1 - tp_pct / 100)) in
  let '(stop_loss, take_profit) :=
    if is_long && negb (Qltb stop_loss entry && Qltb entry take_profit)
    then (entry * (1 - sl_pct / 100), entry * (1 + tp_pct / 100))
    else (stop_loss, take_profit) in
  if negb is_long && negb (Qltb take_profit entry && Qltb entry stop_loss)
  then (entry * (1 + sl_pct / 100), entry * (1 - tp_pct / 100))
  else (stop_loss, take_profit).

(** Replay of the candles [ohlcv[len-20 .. len-2]] against the levels. *)
Fixpoint count_hits (is_long : bool) (stop_loss take_profit : Q)
         (cs : list Candle) (tp_hits sl_hits : nat) : nat * nat :=
  match cs with
  | [] => (tp_hits, sl_hits)
  | candle :: rest =>
      if is_long then
        if Qleb take_profit (high candle)
        then count_hits is_long stop_loss take_profit rest (S tp_hits) sl_hits
        else if Qleb (low candle) stop_loss
        then count_hits is_long stop_loss take_profit rest tp_hits (S sl_hits)
        else count_hits is_long stop_loss take_profit rest tp_hits sl_hits
      else
        if Qleb (low candle) take_profit
        then count_hits is_long stop_loss take_profit rest (S tp_hits) sl_hits
        else if Qleb stop_loss (high candle)
        then count_hits is_long stop_loss take_profit rest tp_hits (S sl_hits)
        else count_hits is_long stop_loss take_profit rest tp_hits sl_hits
  end.

Definition tp_hit_rate (is_long : bool) (stop_loss take_profit : Q)
           (ohlcv : list Candle) : option Q :=
  if (20 <=? length ohlcv)%nat then
    let window := firstn 19 (lastn 20 ohlcv) in
    let '(tp_hits, sl_hits) := count_hits is_long stop_loss take_profit window 0 0 in
    let total_checks := (tp_hits + sl_hits)%nat in
    if (0 <? total_checks)%nat
    then Some (inject_Z (Z.of_nat tp_hits) / inject_Z (Z.of_nat total_checks) * 100)
    else None
  else None.

Definition no_levels (reason : string) : Levels :=
  mkLevels None None (Reason reason).

(** The volatility figures computed from the true-range series. *)
Record Volatility : Type := mkVolatility {
  atr : Q;
  atr_ema : Q;
  atr_sma : Q;
  atr_pct : Q;
  volatility_ratio : Q
}.

Definition volatility (entry : Q) (tr : list Q) : Volatility :=
  let atr_ema := ema tr in
  let atr_sma := sma period tr in
  let atr := (atr_ema + atr_sma) / 2 in
  let atr_pct := if Qltb 0 entry then (atr / entry) * 100 else 0 in
  let recent_atr := if (7 <=? length tr)%nat then sma 7 tr else atr in
  let long_atr := sma period tr in
  let volatility_ratio := if Qltb 0 long_atr then recent_atr / long_atr else 1 in
  let volatility_ratio := pymax (8 # 10) (pymin (15 # 10) volatility_ratio) in
  mkVolatility atr atr_ema atr_sma atr_pct volatility_ratio.

Definition true_ranges (ohlcv : list Candle) : list Q :=
  true_range (close (hd (mkCandle 0 0 0 0 0 0) ohlcv)) ohlcv.

(** [ohlcv] is the reply of [api.get_ohlcv(symbol, timeframe, limit=safe_limit)];
    an empty list also stands for a [None] reply. *)
Definition calculate_scalping_sl_tp
           (entry : Q) (direction : string) (leverage : Z)
           (timeframe : string) (candles_limit : Z)
           (ohlcv : list Candle) : Levels :=
  if Qleb entry 0 then no_levels "entry<=0"
  else
    let safe_limit := Z.min candles_limit 1440 in
    if (length ohlcv <? 50)%nat then no_levels "not_enough_ohlcv"
    else
      let tr := true_ranges ohlcv in
      if (length tr <? period + 1)%nat then no_levels "not_enough_tr"
      else
        let v := volatility entry tr in
        let p := calibrate_pcts (atr_pct v) (volatility_ratio v) in
        let is_long := String.eqb direction "long" in
        let '(sl, tp) := price_levels is_long entry (sl_pct p) (tp_pct p) in
        let risk_reward_ratio := if Qltb 0 (sl_pct p) then tp_pct p / sl_pct p else 0 in
        mkLevels (Some sl) (Some tp)
          (Calibrated
             (mkMeta (pyround (atr v) 6) (pyround (atr_pct v) 3)
                     (pyround (atr_ema v) 6) (pyround (atr_sma v) 6)
                     (pyround (volatility_ratio v) 3)
                     (pyround (sl_pct p) 3) (pyround (tp_pct p) 3)
                     (pyround risk_reward_ratio 2)
                     (option_map (fun r => pyround r 2) (tp_hit_rate is_long sl tp ohlcv))
                     timeframe (length ohlcv) safe_limit leverage)).

(** The distances the orchestrator derives from the levels:
    [abs(entry - stop_loss)] and [abs(take_profit - entry)]. *)
Definition risk (entry stop_loss : Q) : Q := Qabs (entry - stop_loss).
Definition reward (entry take_profit : Q) : Q := Qabs (take_profit - entry).

End RiskCalibrator.


(** ** Exceptions *)

Inductive exn : Type :=
| AttributeError
| KeyError
| ValueError
| OverflowError
| ZeroDivisionError.

Inductive result (A : Type) : Type :=
| Ok (a : A)
| Raise (e : exn).
Arguments Ok {A} a.
Arguments Raise {A} e.

Definition bind {A B : Type} (r : result A) (k : A -> result B) : result B :=
  match r with
  | Ok a => k a
  | Raise e => Raise e
  end.

Notation "x <- r ;; k" := (bind r (fun x => k))
  (at level 61, r at next level, right associativity).

(** ** Strings *)

(** The test [sub in s] on strings. *)
Definition contains (sub s : string) : bool :=
  match String.index 0 sub s with
  | Some _ => true
  | None => false
  end.

(** Membership of a string in a list literal, [x in ['a', 'b']]. *)
Definition str_in (x : string) (l : list string) : bool :=
  existsb (String.eqb x) l.

(** ** Results of the sub-analyses consumed by the fusion scorer *)

Module Zones.

(** A fair-value gap as [find_fvg] emits it. *)
Record FVG : Type := mkFVG {
  fvg_type : string;
  zone_start : Q;
  zone_end : Q;
  mid_point : Q
}.

(** An imbalance zone as [find_imbalance] emits it. *)
Record Imbalance : Type := mkImbalance {
  imb_type : string;
  imb_zone_start : Q;
  imb_zone_end : Q;
  imb_strength : string;
  imb_direction : string
}.

(** A strong-to-break zone of [find_stb_zones]. *)
Record STBZone : Type := mkSTBZone {
  imb_zone : Imbalance;
  test_price : Q;
  stb_volume_ratio : Q
}.

(** A liquidity sweep of [detect_liquidity_sweeps]. *)
Record Sweep : Type := mkSweep {
  sweep_type : string;
  sweep_price : Q;
  reaction_price : Q;
  sweep_signal : string
}.

(** The dictionary returned by [analyze_order_flow] (the fields that are
    read downstream). *)
Record OrderFlow : Type := mkOrderFlow {
  of_direction : string;
  of_strength : Q;
  of_signal : string
}.

Record BOS : Type := mkBOS {
  bos_type : string;
  bos_level : Q;
  bos_direction : string
}.

Record CHOCH : Type := mkCHOCH {
  choch_type : string;
  choch_signal : string
}.

(** The dictionary returned by [detect_bos_choch]; the empty dictionary
    of the short-input case reads as two absent entries. *)
Record Structure : Type := mkStructure {
  bos : option BOS;
  choch : option CHOCH
}.

(** The two entries of the liquidity-pool dictionary that are read
    downstream. *)
Record LiquidityPools : Type := mkLiquidityPools {
  nearest_pool_below : option Q;
  nearest_pool_above : option Q
}.

(** One entry of the [signals] list of the advanced analysis. *)
Record AdvSignal : Type := mkAdvSignal {
  source : string;
  type : string;
  strength : Q
}.

Record AdvancedAnalysis : Type := mkAdvancedAnalysis {
  imbalances : list Imbalance;
  fvgs : list FVG;
  stb_zones : list STBZone;
  liquidity_pools : LiquidityPools;
  liquidity_sweeps : list Sweep;
  order_flow : OrderFlow;
  structure : Structure;
  signals : list AdvSignal
}.

End Zones.
Import Zones.

(** ** Microstructure signals: [_generate_advanced_signals] *)

Module Advanced.

(** [structure['choch']['signal'].replace('potential_reversal_', '')] *)
Definition strip_reversal (s : string) : string :=
  if String.prefix "potential_reversal_" s
  then String.substring 19 (String.length s - 19) s
  else s.

Definition fvg_signal (current_price : Q) (fvg : FVG) : list AdvSignal :=
  if String.eqb (fvg_type fvg) "bullish_fvg" then
    if Qleb current_price (zone_end fvg * (1005 # 1000))
       && Qleb (zone_start fvg * (995 # 1000)) current_price
    then [mkAdvSignal "fvg" "long" 2] else []
  else if String.eqb (fvg_type fvg) "bearish_fvg" then
    if Qleb (zone_start fvg * (995 # 1000)) current_price
       && Qleb current_price (zone_end fvg * (1005 # 1000))
    then [mkAdvSignal "fvg" "short" 2] else []
  else [].

Definition sweep_adv_signal (sweep : Sweep) : list AdvSignal :=
  if String.eqb (sweep_signal sweep) "long"
  then [mkAdvSignal "liquidity_sweep" "long" 3]
  else if String.eqb (sweep_signal sweep) "short"
  then [mkAdvSignal "liquidity_sweep" "short" 3]
  else [].

Definition _generate_advanced_signals
           (current_price : Q) (fvgs : list FVG) (liquidity_sweeps : list Sweep)
           (order_flow : OrderFlow) (structure : Structure) : list AdvSignal :=
  (if negb (String.eqb (of_signal order_flow) "neutral")
   then [mkAdvSignal "order_flow" (of_signal order_flow) (of_strength order_flow)]
   else [])
  ++ flat_map (fvg_signal current_price) (lastn 3 fvgs)
  ++ flat_map sweep_adv_signal (lastn 2 liquidity_sweeps)
  ++ match bos structure with
     | Some b => [mkAdvSignal "structure" (bos_direction b) 3]
     | None => []
     end
  ++ match choch structure with
     | Some c => [mkAdvSignal "structure" (strip_reversal (choch_signal c)) 2]
     | None => []
     end.

(** [comprehensive_analysis], from the results of the individual
    detectors on the same candles: the signal list is generated from
    the full zone lists, the report keeps the most recent zones. *)
Definition comprehensive_analysis
           (current_price : Q)
           (imbalances : list Imbalance) (fvgs : list FVG)
           (stb_zones : list STBZone) (liquidity_pools : LiquidityPools)
           (liquidity_sweeps : list Sweep) (order_flow : OrderFlow)
           (structure : Structure) : AdvancedAnalysis :=
  mkAdvancedAnalysis
    (lastn 5 imbalances) (lastn 5 fvgs) stb_zones liquidity_pools
    (lastn 3 liquidity_sweeps) order_flow structure
    (_generate_advanced_signals current_price fvgs liquidity_sweeps order_flow structure).

End Advanced.

(** ** Liquidity pools: [AdvancedMarketAnalyzer.analyze_liquidity_pools] *)

Module LiquidityPools.

(** A NumPy [float64] result: a finite value, NaN or an infinity.
    Candle fields are finite; the special values can only come out of a
    division. *)
Inductive npfloat : Type :=
| Fin (q : Q)
| NaN
| PInf
| NInf.

(** Division of two finite [float64] values: NumPy warns and returns
    NaN for 0/0 and an infinity for x/0, it does not raise. *)
Definition np_div (x y : Q) : npfloat :=
  if Qeqb y 0 then
    if Qeqb x 0 then NaN
    else if Qltb 0 x then PInf else NInf
  else Fin (x / y).

(** [int(x)]: truncation towards zero; NaN and the infinities raise. *)
Definition py_int (x : npfloat) : result Z :=
  match x with
  | Fin q => Ok (Z.quot (Qnum q) (Z.pos (Qden q)))
  | NaN => Raise ValueError
  | PInf | NInf => Raise OverflowError
  end.

(** The volume profile is a dictionary from bucket price to volume; its
    insertion order is the iteration order. *)
Definition Profile : Type := list (Q * Q).

Fixpoint add_volume (price_start v : Q) (profile : Profile) : Profile :=
  match profile with
  | [] => [(price_start, 0 + v)]
  | (k, w) :: rest =>
      if Qeqb k price_start then (k, w + v) :: rest
      else (k, w) :: add_volume price_start v rest
  end.

(** One iteration of the loop over the candles. *)
Definition bucket (low_min level_size : Q) (candle : Candle) : result Q :=
  n <- py_int (np_div (low candle - low_min) level_size) ;;
  Ok (pyround (low_min + inject_Z n * level_size) 2).

Fixpoint build_profile (low_min level_size : Q) (candles : list Candle)
         (profile : Profile) : result Profile :=
  match candles with
  | [] => Ok profile
  | candle :: rest =>
      price_start <- bucket low_min level_size candle ;;
      build_profile low_min level_size rest
                    (add_volume price_start (volume candle) profile)
  end.

(** [max(volume_profile, key=volume_profile.get)]: the first key of
    largest volume. *)
Definition poc_of (profile : Profile) : Q * Q :=
  fold_left (fun best kv => if Qltb (snd best) (snd kv) then kv else best)
            (tl profile) (hd (0, 0) profile).

Record PoolPosition : Type := mkPoolPosition {
  position : string;
  pp_nearest_pool_below : option Q;
  pp_nearest_pool_above : option Q;
  distance_to_poc : Q
}.

Definition opt_extreme (pick : list Q -> Q) (l : list Q) : option Q :=
  match l with [] => None | _ => Some (pick l) end.

Definition _analyze_pool_position (current_price poc : Q) (hvn lvn : list Q)
  : PoolPosition :=
  let all_levels := sorted ([poc] ++ hvn ++ lvn) in
  let below_levels := filter (fun l => Qltb l current_price) all_levels in
  let above_levels := filter (fun l => Qltb current_price l) all_levels in
  mkPoolPosition
    (if Qltb poc current_price then "above_poc"
     else if Qltb current_price poc then "below_poc" else "at_poc")
    (opt_extreme column_max below_levels)
    (opt_extreme column_min above_levels)
    (if Qltb 0 poc then Qabs (current_price - poc) / poc * 100 else 0).

Record PoolReport : Type := mkPoolReport {
  poc : Q;
  poc_volume : Q;
  hvn_levels : list Q;
  lvn_levels : list Q;
  volume_profile : Profile;
  pr_current_price : Q;
  analysis : PoolPosition
}.

Definition num_levels : Q := 20.

(** [Ok None] stands for the empty dictionary returned on fewer than 10
    candles. *)
Definition analyze_liquidity_pools (ohlcv : list Candle) : result (option PoolReport) :=
  if (length ohlcv <? 10)%nat then Ok None
  else
    let low_min := column_min (map low ohlcv) in
    let price_range := column_max (map high ohlcv) - low_min in
    let level_size := price_range / num_levels in
    volume_profile <- build_profile low_min level_size ohlcv [] ;;
    let '(poc_level, poc_volume) := poc_of volume_profile in
    let avg_volume :=
      pysum (map snd volume_profile) / inject_Z (Z.of_nat (length volume_profile)) in
    let hvn_levels :=
      map fst (filter (fun kv => Qltb (avg_volume * (15 # 10)) (snd kv)) volume_profile) in
    let lvn_levels :=
      map fst (filter (fun kv => Qltb (snd kv) (avg_volume * (5 # 10))) volume_profile) in
    let current_price := close (last ohlcv (mkCandle 0 0 0 0 0 0)) in
    Ok (Some (mkPoolReport poc_level poc_volume (sorted hvn_levels) (sorted lvn_levels)
                           volume_profile current_price
                           (_analyze_pool_position current_price poc_level
                                                   hvn_levels lvn_levels))).

(** The two report entries read downstream. *)
Definition pools_of (r : PoolReport) : LiquidityPools :=
  mkLiquidityPools (pp_nearest_pool_below (analysis r))
                   (pp_nearest_pool_above (analysis r)).

End LiquidityPools.

(** ** Structure breaks: [AdvancedMarketAnalyzer.detect_bos_choch] *)

Module StructureBreaks.

(** [sum([1 for i in range(1, len(xs)) if test(xs[i-1], xs[i])])] *)
Definition count_steps (test : Q -> Q -> bool) (xs : list Q) : nat :=
  list_sum
    (map (fun _ => 1%nat)
         (filter (fun i => test (nth (i - 1) xs 0) (nth i xs 0))
                 (seq 1 (length xs - 1)))).

Definition rises (a b : Q) : bool := Qltb a b.
Definition falls (a b : Q) : bool := Qltb b a.

Record Report : Type := mkReport {
  r_bos : option BOS;
  r_choch : option CHOCH;
  r_structure : string
}.

Definition choch_of (higher_highs lower_lows : nat) : option CHOCH :=
  if (3 <=? higher_highs)%nat && (2 <=? lower_lows)%nat
  then Some (mkCHOCH "choch_bearish" "potential_reversal_down")
  else if (3 <=? lower_lows)%nat && (2 <=? higher_highs)%nat
  then Some (mkCHOCH "choch_bullish" "potential_reversal_up")
  else None.

(** [None] stands for the empty dictionary returned on fewer than 20
    candles. *)
Definition detect_bos_choch (ohlcv : list Candle) : option Report :=
  if (length ohlcv <? 20)%nat then None
  else
    let recent_10 := lastn 10 ohlcv in
    let highs := map high recent_10 in
    let lows := map low recent_10 in
    let highest_high := column_max (map high ohlcv) in
    let lowest_low := column_min (map low ohlcv) in
    let current_high := last (map high ohlcv) 0 in
    let current_low := last (map low ohlcv) 0 in
    let bos :=
      if Qltb (highest_high * (99 # 100)) current_high
      then Some (mkBOS "bos_breakout_up" highest_high "bullish")
      else if Qltb current_low (lowest_low * (101 # 100))
      then Some (mkBOS "bos_breakdown_down" lowest_low "bearish")
      else None in
    let higher_highs := count_steps rises highs in
    let lower_lows := count_steps falls lows in
    Some (mkReport bos (choch_of higher_highs lower_lows)
            (if (lower_lows <? higher_highs)%nat then "uptrend"
             else if (higher_highs <? lower_lows)%nat then "downtrend"
             else "range")).

(** The pattern of the specification on a window of candles: three
    consecutive higher highs ending at candle [k + 3], immediately
    followed by two consecutive lower lows (bearish change of
    character), or the mirror image. *)
Definition step_at (test : Q -> Q -> bool) (xs : list Q) (i : nat) : bool :=
  test (nth (i - 1) xs 0) (nth i xs 0).

Definition run_then_reversal_at (window : list Candle) (k : nat) : bool :=
  let highs := map high window in
  let lows := map low window in
  (step_at rises highs (k + 1) && step_at rises highs (k + 2)
   && step_at rises highs (k + 3)
   && step_at falls lows (k + 4) && step_at falls lows (k + 5))
  || (step_at falls lows (k + 1) && step_at falls lows (k + 2)
      && step_at falls lows (k + 3)
      && step_at rises highs (k + 4) && step_at rises highs (k + 5)).

Definition run_then_reversal (window : list Candle) : bool :=
  existsb (run_then_reversal_at window) (seq 0 (length window - 5)).

Definition fires (ohlcv : list Candle) : bool :=
  match detect_bos_choch ohlcv with
  | Some r => match r_choch r with Some _ => true | None => false end
  | None => false
  end.

End StructureBreaks.

(** ** Signal fusion scorer: [MarketAnalyzer.analyze_market] *)

Module Fusion.

(** The indicator dictionary, reduced to the qualitative signals the
    scorer reads.  [None] stands for an indicator stored as [None]. *)
Record Indicators : Type := mkIndicators {
  rsi_signal : string;
  macd : option string;
  vwap : option string;
  mfi : option string;
  ichimoku : option string;
  ema_trend : string;
  volume_ratio : Q
}.

Record Divergence : Type := mkDivergence {
  has_divergence : bool;
  div_signal : string
}.

(** What [analyze_market] has in hand once the candle analyser, the
    indicator aggregator, the microstructure analyser and the
    divergence detector have run.  [divergence] is [None] when the
    oscillator series is empty and the detector is not called. *)
Record FusionInput : Type := mkFusionInput {
  current_price : option Q;
  overall_signal : string;
  indicators : Indicators;
  advanced_analysis : AdvancedAnalysis;
  divergence : option Divergence
}.

Record Confirmations : Type := mkConfirmations {
  count : nat;
  sources : list string;
  required : nat
}.

(** Why a signal was cancelled (the source stores a formatted text). *)
Inductive CancelReason : Type :=
| PoolSwept (target_pool : Q)
| FvgBrokenWithoutReaction (mid_point : Q)
| AgainstTrend4h (trend : string).

Record Analysis : Type := mkAnalysis {
  a_current_price : option Q;
  a_indicators : Indicators;
  a_advanced_analysis : AdvancedAnalysis;
  a_signals : list string;
  final_signal : string;
  probability : Q;
  confirmations : Confirmations;
  htf_fvgs : list FVG;
  cancellation_reason : option CancelReason
}.

(** One vote: the label appended to [signals] and the change of
    [signal_strength]. *)
Definition Vote : Type := (list string * Q)%type.

Definition no_vote : Vote := ([], 0).

Definition vote_pair (x : option string) (up : string) (up_label : string)
           (down : string) (down_label : string) (w : Q) : Vote :=
  match x with
  | Some v =>
      if String.eqb v up then ([up_label], w)
      else if String.eqb v down then ([down_label], - w)
      else no_vote
  | None => no_vote
  end.

Definition adv_vote (adv_signal : AdvSignal) : Vote :=
  if String.eqb (type adv_signal) "long"
  then ([(source adv_signal ++ "_long")%string], strength adv_signal * 5)
  else if String.eqb (type adv_signal) "short"
  then ([(source adv_signal ++ "_short")%string], - (strength adv_signal * 5))
  else no_vote.

Definition sweep_vote (sweep : Sweep) : Vote :=
  if String.eqb (sweep_signal sweep) "long" then ([], 20)
  else if String.eqb (sweep_signal sweep) "short" then ([], - (20))
  else no_vote.

Definition divergence_vote (d : option Divergence) : Vote :=
  match d with
  | Some dv =>
      if has_divergence dv then
        if String.eqb (div_signal dv) "long" then (["divergence_bullish"%string], 25)
        else if String.eqb (div_signal dv) "short" then (["divergence_bearish"%string], - (25))
        else no_vote
      else no_vote
  | None => no_vote
  end.

Definition ema_vote (ema_trend : string) : Vote :=
  if contains "bullish" ema_trend then (["ema_bullish"%string], 10)
  else if contains "bearish" ema_trend then (["ema_bearish"%string], - (10))
  else no_vote.

(** All votes in the order in which the source casts them. *)
Definition votes (i : FusionInput) : list Vote :=
  let ind := indicators i in
  let adv := advanced_analysis i in
  [ vote_pair (Some (overall_signal i)) "bullish" "bullish_candle" "bearish" "bearish_candle" 20;
    vote_pair (Some (rsi_signal ind)) "oversold" "rsi_oversold" "overbought" "rsi_overbought" 15;
    vote_pair (macd ind) "bullish" "macd_bullish" "bearish" "macd_bearish" 15;
    vote_pair (vwap ind) "above" "vwap_above" "below" "vwap_below" 10;
    vote_pair (mfi ind) "oversold" "mfi_oversold" "overbought" "mfi_overbought" 10;
    vote_pair (ichimoku ind) "above_cloud" "ichimoku_above_cloud"
              "below_cloud" "ichimoku_below_cloud" 12;
    ema_vote (ema_trend ind) ]
  ++ map adv_vote (signals adv)
  ++ [ vote_pair (Some (of_direction (order_flow adv)))
                 "bullish" "order_flow_bullish" "bearish" "order_flow_bearish" 15 ]
  ++ map sweep_vote (lastn 1 (liquidity_sweeps adv))
  ++ [ divergence_vote (divergence i) ].

Definition vote_labels (vs : list Vote) : list string := flat_map fst vs.
Definition signal_strength (vs : list Vote) : Q :=
  fold_left (fun acc v => acc + snd v) vs 0.

(** Truth value of [current_price] in a condition: absent and zero are
    both false. *)
Definition price_truthy (p : option Q) : bool :=
  match p with
  | Some x => negb (Qeqb x 0)
  | None => false
  end.

(** The body of the loop over [fvgs[-2:]] that sets
    [has_level_confirmation]. *)
Definition level_confirmed_by (current_price : option Q) (fvg : FVG) : bool :=
  match current_price with
  | Some cp =>
      if String.eqb (fvg_type fvg) "bullish_fvg" && price_truthy current_price then
        Qleb (zone_start fvg) cp && Qleb cp (zone_end fvg * (101 # 100))
      else if String.eqb (fvg_type fvg) "bearish_fvg" && price_truthy current_price then
        Qleb (zone_end fvg) cp && Qleb cp (zone_start fvg * (101 # 100))
      else false
  | None => false
  end.

Definition nonempty {A : Type} (l : list A) : bool :=
  match l with [] => false | _ :: _ => true end.

Definition has_level_confirmation (i : FusionInput) : bool :=
  let adv := advanced_analysis i in
  if nonempty (fvgs adv) || nonempty (imbalances adv) || nonempty (stb_zones adv)
  then existsb (level_confirmed_by (current_price i)) (lastn 2 (fvgs adv))
  else false.

(** The five tests that append to [confirmations]. *)
Definition candle_confirms (i : FusionInput) : bool :=
  str_in (overall_signal i) ["bullish"; "bearish"]%string.
Definition order_flow_confirms (i : FusionInput) : bool :=
  negb (String.eqb (of_signal (order_flow (advanced_analysis i))) "neutral").
Definition rsi_confirms (i : FusionInput) : bool :=
  str_in (rsi_signal (indicators i)) ["oversold"; "overbought"]%string.
Definition macd_confirms (signal_type : string) : bool :=
  str_in signal_type ["bullish"; "bearish"]%string.

Definition macd_source_confirms (i : FusionInput) : bool :=
  match macd (indicators i) with
  | Some signal_type => macd_confirms signal_type
  | None => false
  end.

Definition b2n (b : bool) : nat := if b then 1%nat else 0%nat.

Definition tag (b : bool) (name : string) : list string :=
  if b then [name] else [].

(** The [confirmations] list.  The last test reads
    [indicators.get('macd', {}).get('signal_type')]: the key is always
    present, so a [None] entry is returned as it is and the second [get]
    raises. *)
Definition confirmation_sources (i : FusionInput) : result (list string) :=
  let confirmations :=
    tag (candle_confirms i) "candle"
    ++ tag (has_level_confirmation i) "level"
    ++ tag (order_flow_confirms i) "order_flow"
    ++ tag (rsi_confirms i) "indicator" in
  match macd (indicators i) with
  | None => Raise AttributeError
  | Some signal_type =>
      Ok (confirmations ++ tag (macd_confirms signal_type) "indicator")
  end.

Definition min_confirmations_required : nat := 3.

Definition quality_bonus (signals : list string) : Q :=
  let quality_bonus := 0 in
  let quality_bonus :=
    if existsb (contains "divergence") signals then quality_bonus + 10 else quality_bonus in
  if existsb (contains "liquidity_sweep") signals then quality_bonus + 8 else quality_bonus.

Definition raw_probability (signal_strength quality_bonus : Q)
           (confirmation_count : nat) : Q :=
  let cc := inject_Z (Z.of_nat confirmation_count) in
  let required := inject_Z (Z.of_nat min_confirmations_required) in
  let base_probability := pymin (Qabs signal_strength * (15 # 10)) 70 in
  let confirmation_bonus := pymin (cc * 5) 20 in
  let confirmation_penalty := pymax 0 ((required - cc) * 10) in
  base_probability + confirmation_bonus + quality_bonus - confirmation_penalty.

(** The band table: final signal and probability before the
    low-confirmation adjustment. *)
Definition band (signal_strength raw_probability : Q) (confirmation_count : nat)
  : string * Q :=
  let cc := inject_Z (Z.of_nat confirmation_count) in
  let required := inject_Z (Z.of_nat min_confirmations_required) in
  let has_enough_confirmations := (min_confirmations_required <=? confirmation_count)%nat in
  let strong :=
    if has_enough_confirmations
    then pymin (60 + raw_probability * (4 # 10)) 92
    else pymax 35 (pymin (45 + raw_probability * (3 # 10)) 75) in
  let normal :=
    if has_enough_confirmations
    then pymin (45 + raw_probability * (35 # 100)) 75
    else pymax 30 (pymin (35 + raw_probability * (25 # 100)) 60) in
  if Qltb 30 signal_strength then ("strong_long"%string, strong)
  else if Qltb 15 signal_strength then ("long"%string, normal)
  else if Qltb signal_strength (- (30)) then ("strong_short"%string, strong)
  else if Qltb signal_strength (- (15)) then ("short"%string, normal)
  else if Qltb 5 (Qabs signal_strength) then
    (if Qltb 0 signal_strength then "long"%string else "short"%string,
     if has_enough_confirmations
     then pymax 30 (pymin (30 + raw_probability * (3 # 10)) 55)
     else
       let confirmation_ratio := pymax (3 # 10) (cc / required) in
       pymax 20 (pymin (25 + raw_probability * (2 # 10) * confirmation_ratio) 45))
  else ("neutral"%string, 0).

(** The adjustment applied after the band table when fewer than three
    sources confirm. *)
Definition adjust (probability : Q) (confirmation_count : nat) : Q :=
  let cc := inject_Z (Z.of_nat confirmation_count) in
  let required := inject_Z (Z.of_nat min_confirmations_required) in
  let has_enough_confirmations := (min_confirmations_required <=? confirmation_count)%nat in
  if negb has_enough_confirmations && Qltb 0 probability then
    let confirmation_ratio := pymax (4 # 10) (cc / required) in
    pymax (probability * confirmation_ratio) 20
  else probability.

(** Final signal and probability from the three figures they depend on. *)
Definition score (signal_strength quality_bonus : Q) (confirmation_count : nat)
  : string * Q :=
  let raw := raw_probability signal_strength quality_bonus confirmation_count in
  let '(final_signal, probability) := band signal_strength raw confirmation_count in
  (final_signal, adjust probability confirmation_count).

Definition analyze_market (i : FusionInput) : result Analysis :=
  let vs := votes i in
  let signals := vote_labels vs in
  let strength := signal_strength vs in
  confirmations <- confirmation_sources i ;;
  let confirmation_count := length confirmations in
  let '(final_signal, probability) :=
    score strength (quality_bonus signals) confirmation_count in
  Ok (mkAnalysis (current_price i) (indicators i) (advanced_analysis i)
                 signals final_signal probability
                 (mkConfirmations confirmation_count confirmations
                                  min_confirmations_required)
                 [] None).

End Fusion.

(** ** Cancellation rules, trend filter and decision engine
       ([TradingEngine] in [services/trading.py]) *)

Module Engine.
Import Fusion.

Record OrderBook : Type := mkOrderBook {
  bids : list (Q * Q);
  asks : list (Q * Q)
}.

Definition set_signal (a : Analysis) (fs : string) (p : Q)
           (r : option CancelReason) : Analysis :=
  mkAnalysis (a_current_price a) (a_indicators a) (a_advanced_analysis a)
             (a_signals a) fs p (confirmations a) (htf_fvgs a) r.

Definition set_htf_fvgs (a : Analysis) (z : list FVG) : Analysis :=
  mkAnalysis (a_current_price a) (a_indicators a) (a_advanced_analysis a)
             (a_signals a) (final_signal a) (probability a) (confirmations a)
             z (cancellation_reason a).

Definition is_long_signal (fs : string) : bool := str_in fs ["long"; "strong_long"]%string.
Definition is_short_signal (fs : string) : bool := str_in fs ["short"; "strong_short"]%string.

(** Truth value of an optional number: absent and zero are false. *)
Definition truthy (x : option Q) : option Q :=
  match x with
  | Some v => if Qeqb v 0 then None else Some v
  | None => None
  end.

(** Rule 1 for one side of the book: the pool within 0.5% of the price
    has no resting order of size above 0.1 within 0.2% of its level among
    the first twenty levels. *)
Definition pool_swept (target_pool : option Q) (current_price : Q)
           (levels : list (Q * Q)) : option Q :=
  match truthy target_pool with
  | Some pool =>
      if Qltb 0 current_price then
        let distance_to_pool := Qabs (pool - current_price) / current_price * 100 in
        if Qltb distance_to_pool (5 # 10) then
          let pool_has_liquidity :=
            existsb (fun lv => Qltb (Qabs (fst lv - pool)) (pool * (2 # 1000))
                               && Qltb (1 # 10) (snd lv))
                    (firstn 20 levels) in
          if negb pool_has_liquidity then Some pool else None
        else None
      else None
  | None => None
  end.

(** Rule 2 for one candle and one zone. *)
Definition broken_without_reaction (fs : string) (candle : Candle) (fvg : FVG) : bool :=
  if String.eqb (fvg_type fvg) "bullish_fvg" then
    if is_long_signal fs && Qltb (low candle) (zone_start fvg) then
      let has_reaction := Qltb ((open candle - close candle) * 2) (open candle - low candle) in
      negb has_reaction
    else false
  else if String.eqb (fvg_type fvg) "bearish_fvg" then
    if is_short_signal fs && Qltb (zone_end fvg) (high candle) then
      let has_reaction := Qltb ((open candle - close candle) * 2) (high candle - open candle) in
      negb has_reaction
    else false
  else false.

(** Candle-major order of the two nested loops. *)
Definition candle_zone_pairs (candles : list Candle) (zones : list FVG)
  : list (Candle * FVG) :=
  flat_map (fun c => map (fun z => (c, z)) zones) candles.

Definition _check_signal_cancellation (analysis : Analysis)
           (ohlcv : list Candle) (orderbook : OrderBook) : Analysis :=
  let fs := final_signal analysis in
  if String.eqb fs "neutral" then analysis
  else
    let pools := liquidity_pools (a_advanced_analysis analysis) in
    let current_price :=
      match ohlcv with [] => 0 | _ => close (last ohlcv (mkCandle 0 0 0 0 0 0)) end in
    let cancel r := set_signal analysis "neutral" 0 (Some r) in
    match (if is_long_signal fs
           then pool_swept (nearest_pool_above pools) current_price (asks orderbook)
           else None) with
    | Some pool => cancel (PoolSwept pool)
    | None =>
        match (if is_short_signal fs
               then pool_swept (nearest_pool_below pools) current_price (bids orderbook)
               else None) with
        | Some pool => cancel (PoolSwept pool)
        | None =>
            if (3 <=? length ohlcv)%nat then
              match find (fun cz => broken_without_reaction fs (fst cz) (snd cz))
                         (candle_zone_pairs (lastn 3 ohlcv) (lastn 2 (htf_fvgs analysis))) with
              | Some cz => cancel (FvgBrokenWithoutReaction (mid_point (snd cz)))
              | None => analysis
              end
            else analysis
        end
    end.

(** [_check_trend_4h]; a zero first close or a zero average makes the
    division raise, which the function turns into [None]. *)
Definition _check_trend_4h (ohlcv_4h : list Candle) : option string :=
  if (length ohlcv_4h <? 20)%nat then None
  else
    let closes := map close (lastn 20 ohlcv_4h) in
    let first_price := hd 0 closes in
    let last_price := last closes 0 in
    let ema_period := 9%nat in
    let ema := pysum (lastn ema_period closes) / inject_Z (Z.of_nat ema_period) in
    if Qeqb first_price 0 || Qeqb ema 0 then None
    else
      let price_change := (last_price - first_price) / first_price * 100 in
      let ema_position := (last_price - ema) / ema * 100 in
      if Qltb 2 price_change && Qltb 1 ema_position then Some "bullish"%string
      else if Qltb price_change (- (2)) && Qltb ema_position (- (1)) then Some "bearish"%string
      else None.

(** The higher-timeframe trend filter of [analyze_and_trade]. *)
Definition trend_filter (trend_4h : option string) (analysis : Analysis) : Analysis :=
  match trend_4h with
  | Some trend =>
      let against :=
        (is_long_signal (final_signal analysis) && String.eqb trend "bearish")
        || (is_short_signal (final_signal analysis) && String.eqb trend "bullish") in
      if against then
        let p := pymax 0 (probability analysis - 15) in
        if Qltb p 50
        then set_signal analysis "neutral" p (Some (AgainstTrend4h trend))
        else set_signal analysis (final_signal analysis) p (cancellation_reason analysis)
      else analysis
  | None => analysis
  end.

(** Why a decision was taken (the source stores a formatted text). *)
Inductive DecisionReason : Type :=
| SignalCancelled (r : CancelReason)
| TooFewConfirmations
| StrongBullish
| StrongBearish
| NormalSignal (conflict : bool)
| StrongOrderFlowLong
| StrongOrderFlowShort
| HighQuality
| InsufficientProbability
| AnalysisFailed (e : exn).

Record Decision : Type := mkDecision {
  action : string;
  reason : DecisionReason;
  quality_score : option Z;
  d_signal_strength : option Q
}.

Definition skip (r : DecisionReason) : Decision := mkDecision "skip" r None None.

Definition count_type (t : string) (signals : list AdvSignal) : nat :=
  length (filter (fun s => String.eqb (type s) t) signals).

Definition strength_of_type (t : string) (signals : list AdvSignal) : Q :=
  pysum (map strength (filter (fun s => String.eqb (type s) t) signals)).

Definition b2z (b : bool) (n : Z) : Z := if b then n else 0%Z.

Definition _make_decision (analysis : Analysis) : Decision :=
  let final_signal := final_signal analysis in
  let probability := probability analysis in
  let confirmation_count := Z.of_nat (count (confirmations analysis)) in
  let min_confirmations := Z.of_nat (required (confirmations analysis)) in
  let base_min_probability_strong := 55%Z in
  let base_min_probability_normal := 60%Z in
  let advanced_analysis := a_advanced_analysis analysis in
  let signals := signals advanced_analysis in
  let long_signals_count := count_type "long" signals in
  let short_signals_count := count_type "short" signals in
  let long_signals_strength := strength_of_type "long" signals in
  let short_signals_strength := strength_of_type "short" signals in
  let of_signal := of_signal (order_flow advanced_analysis) in
  let of_strength := of_strength (order_flow advanced_analysis) in
  let has_liquidity_sweep := nonempty (liquidity_sweeps advanced_analysis) in
  let has_divergence := existsb (contains "divergence") (a_signals analysis) in
  let has_bos := match bos (structure advanced_analysis) with Some _ => true | None => false end in
  let has_choch := match choch (structure advanced_analysis) with Some _ => true | None => false end in
  let total_signals := (long_signals_count + short_signals_count)%nat in
  let quality_bonus :=
    (b2z has_liquidity_sweep 8 + b2z has_divergence 10 + b2z has_bos 6
     + b2z has_choch 5 + b2z (Qltb 2 of_strength) 5
     + (if (3 <=? total_signals)%nat then 7
        else if (2 <=? total_signals)%nat then 4 else 0))%Z in
  let confirmation_penalty :=
    Z.max 0 ((min_confirmations - confirmation_count) * 8) in
  let min_probability_strong :=
    Z.max 35 (base_min_probability_strong - quality_bonus + confirmation_penalty) in
  let min_probability_normal :=
    Z.max 40 (base_min_probability_normal - quality_bonus + confirmation_penalty) in
  if (confirmation_count <? min_confirmations)%Z
     && Qltb probability (inject_Z min_probability_normal)
  then skip TooFewConfirmations
  else
    let indicators := a_indicators analysis in
    let rsi_signal := rsi_signal indicators in
    let macd_signal := match macd indicators with Some t => t | None => "neutral"%string end in
    let '(signal_conflict, probability) :=
      if is_long_signal final_signal then
        if String.eqb rsi_signal "overbought" || String.eqb macd_signal "bearish"
        then (true, pymax (probability * (7 # 10)) 30)
        else (false, probability)
      else if is_short_signal final_signal then
        if String.eqb rsi_signal "oversold" || String.eqb macd_signal "bullish"
        then (true, pymax (probability * (7 # 10)) 30)
        else (false, probability)
      else (false, probability) in
    let probability :=
      if Qltb (volume_ratio indicators) (7 # 10)
      then pymax (probability * (85 # 100)) 25
      else probability in
    if String.eqb final_signal "strong_long"
       && Qleb (inject_Z min_probability_strong) probability
    then mkDecision "open_long" StrongBullish (Some quality_bonus) (Some long_signals_strength)
    else if String.eqb final_signal "strong_short"
            && Qleb (inject_Z min_probability_strong) probability
    then mkDecision "open_short" StrongBearish (Some quality_bonus) (Some short_signals_strength)
    else if str_in final_signal ["long"; "short"]%string
            && Qleb (inject_Z min_probability_normal) probability
    then mkDecision ("open_" ++ final_signal) (NormalSignal signal_conflict)
                    (Some quality_bonus)
                    (Some (if String.eqb final_signal "long"
                           then long_signals_strength else short_signals_strength))
    else if String.eqb of_signal "long" && Qleb (25 # 10) of_strength && Qleb 40 probability
    then mkDecision "open_long" StrongOrderFlowLong (Some quality_bonus) None
    else if String.eqb of_signal "short" && Qleb (25 # 10) of_strength && Qleb 40 probability
    then mkDecision "open_short" StrongOrderFlowShort (Some quality_bonus) None
    else if (has_divergence && has_liquidity_sweep) && Qleb 45 probability
    then mkDecision (if negb (String.eqb final_signal "neutral")
                     then "open_" ++ final_signal else "skip")
                    HighQuality (Some quality_bonus) None
    else skip InsufficientProbability.

(** What [analyze_and_trade] returns: the [error] dictionary of the
    [except] branch, or the analysis with the decision. *)
Inductive Outcome : Type :=
| Failed (e : exn) (decision : Decision)
| Analysed (analysis : Analysis) (decision : Decision) (current_price : Q).

(** [analyze_and_trade], from the replies of the exchange
    ([ohlcv_ltf], [orderbook], the ticker's [last], [ohlcv_4h]) and the
    sub-analyses of the working and the higher timeframe. *)
Definition analyze_and_trade
           (ohlcv_ltf : list Candle) (orderbook : OrderBook) (ticker_last : Q)
           (ltf : FusionInput) (analysis_htf : AdvancedAnalysis)
           (ohlcv_4h : list Candle) : Outcome :=
  match analyze_market ltf with
  | Raise e => Failed e (skip (AnalysisFailed e))
  | Ok analysis_ltf =>
      let trend_4h :=
        if nonempty ohlcv_4h && (20 <=? length ohlcv_4h)%nat
        then _check_trend_4h ohlcv_4h else None in
      let analysis := set_htf_fvgs analysis_ltf (fvgs analysis_htf) in
      let analysis := _check_signal_cancellation analysis ohlcv_ltf orderbook in
      match cancellation_reason analysis with
      | Some r => Analysed analysis (skip (SignalCancelled r)) ticker_last
      | None =>
          let analysis := trend_filter trend_4h analysis in
          Analysed analysis (_make_decision analysis) ticker_last
      end
  end.

End Engine.

(** ** Account data and the demo position store
       ([data/user_data.py], [services/statistics.py]) *)

Module Store.

(** The [entry_time] entry of a demo position: a time the monitor can
    parse (seconds), or a value on which parsing raises. *)
Inductive EntryTime : Type :=
| ParsedTime (seconds : Q)
| BadTime.

(** Why the monitor closed a position (the source stores a formatted
    text; the cooldown test looks for "Stop Loss" in it). *)
Inductive CloseReason : Type :=
| StopLossHit (level : Q)
| TakeProfitHit (level : Q)
| ForcedByTime (held limit : Q)
| RecommendedByTime (held limit : Q).

(** A demo position dictionary. *)
Record Trade : Type := mkTrade {
  symbol : string;
  direction : string;
  amount : Q;
  entry : Q;
  stop_loss : option Q;
  take_profit : option Q;
  pnl : Q;
  status : string;
  entry_time : option EntryTime;
  close_price : option Q;
  close_reason : option CloseReason;
  leverage : Z;
  order_id : option string
}.

(** The user dictionary of one account.  Every operation below reads and
    writes the dictionary of its own [user_id] only. *)
Record UserData : Type := mkUserData {
  api_key : option string;
  secret_key : option string;
  is_demo_mode : bool;
  auto_trading_enabled : bool;
  demo_balance : Q;
  demo_positions : list Trade;
  max_drawdown_percent : Q;
  max_open_positions : nat;
  max_holding_minutes : Q;
  force_close_minutes : Q;
  sl_cooldown_minutes : Q;
  atr_min_percent : Q;
  user_leverage : Z
}.


Definition set_positions (d : UserData) (l : list Trade) : UserData :=
  mkUserData (api_key d) (secret_key d) (is_demo_mode d) (auto_trading_enabled d)
             (demo_balance d) l (max_drawdown_percent d) (max_open_positions d)
             (max_holding_minutes d) (force_close_minutes d)
             (sl_cooldown_minutes d) (atr_min_percent d) (user_leverage d).

Definition set_balance (d : UserData) (b : Q) : UserData :=
  mkUserData (api_key d) (secret_key d) (is_demo_mode d) (auto_trading_enabled d)
             b (demo_positions d) (max_drawdown_percent d) (max_open_positions d)
             (max_holding_minutes d) (force_close_minutes d)
             (sl_cooldown_minutes d) (atr_min_percent d) (user_leverage d).

Definition is_open_on (sym : string) (t : Trade) : bool :=
  String.eqb (symbol t) sym && String.eqb (status t) "open".

(** [UserDataManager.save_demo_position], list part: the first open
    position on the same symbol is updated with every entry of the new
    dictionary, otherwise the new position is appended as open. *)
Fixpoint save_demo_position (positions : list Trade) (position : Trade) : list Trade :=
  match positions with
  | [] => [position]
  | pos :: rest =>
      if is_open_on (symbol position) pos
      then position :: rest
      else pos :: save_demo_position rest position
  end.

Definition mark_open (t : Trade) : Trade :=
  mkTrade (symbol t) (direction t) (amount t) (entry t) (stop_loss t)
          (take_profit t) (pnl t) "open" (entry_time t) None (close_reason t)
          (leverage t) (order_id t).

(** [StatisticsManager.add_demo_trade] *)
Definition add_demo_trade (d : UserData) (trade : Trade) : UserData :=
  set_positions d (save_demo_position (demo_positions d) (mark_open trade)).

(** A row of the [trades] table as [Database.get_open_trades] returns
    it, reduced to the columns that [get_demo_positions] copies. *)
Record TradeRow : Type := mkTradeRow {
  row_symbol : string;
  row_direction : string;
  row_amount : Q;
  row_entry_price : Q;
  row_stop_loss : option Q;
  row_take_profit : option Q;
  row_pnl : Q;
  row_status : string;
  row_entry_time : Q;
  row_close_price : option Q;
  row_close_reason : option CloseReason;
  row_is_demo : bool
}.

(** The database branch of [UserDataManager.get_demo_positions]: the
    row's [entry_time] is copied under the key [timestamp], and the
    dictionary it builds has no [entry_time] key (nor leverage or order
    id, which read as their defaults). *)
Definition position_of_row (row : TradeRow) : Trade :=
  mkTrade (row_symbol row) (row_direction row) (row_amount row)
          (row_entry_price row) (row_stop_loss row) (row_take_profit row)
          (row_pnl row) (row_status row) None (row_close_price row)
          (row_close_reason row) 5 None.

Definition get_demo_positions_from_rows (rows : list TradeRow) : list Trade :=
  map position_of_row (filter row_is_demo rows).

(** [StatisticsManager.get_demo_trades(status='open')] *)
Definition get_open_demo_trades (d : UserData) : list Trade :=
  filter (fun t => String.eqb (status t) "open") (demo_positions d).

Definition close_with (t : Trade) (price pnl : Q) (r : CloseReason) : Trade :=
  mkTrade (symbol t) (direction t) (amount t) (entry t) (stop_loss t)
          (take_profit t) pnl "closed" (entry_time t) (Some price) (Some r)
          (leverage t) (order_id t).

(** [UserDataManager.update_demo_position] with the close updates. *)
Fixpoint update_demo_position (positions : list Trade) (sym : string)
         (price pnl : Q) (r : CloseReason) : list Trade :=
  match positions with
  | [] => []
  | pos :: rest =>
      if is_open_on sym pos
      then close_with pos price pnl r :: rest
      else pos :: update_demo_position rest sym price pnl r
  end.

(** The search of [close_demo_trade]: the last open position on the
    symbol. *)
Definition trade_to_close (positions : list Trade) (sym : string) : option Trade :=
  find (is_open_on sym) (rev positions).

(** [StatisticsManager.close_demo_trade] *)
Definition close_demo_trade (d : UserData) (sym : string) (price : Q)
           (r : CloseReason) : UserData :=
  match trade_to_close (demo_positions d) sym with
  | None => d
  | Some t =>
      let entry := if Qeqb (entry t) 0 then price else entry t in
      let pnl :=
        if String.eqb (direction t) "long"
        then (price - entry) * amount t
        else (entry - price) * amount t in
      let d := set_positions d (update_demo_position (demo_positions d) sym price pnl r) in
      set_balance d (demo_balance d + pnl)
  end.

End Store.

(** ** Position monitor: [AutoTradingManager._monitor_positions] *)

Module Monitor.
Import Store.

(** A ticker reply; an absent entry reads as 0. *)
Record Ticker : Type := mkTicker {
  last : Q;
  bid : Q;
  ask : Q
}.

(** The per-account cooldown dictionary: symbol and time of the last
    stop-loss close, most recent first. *)
Definition Cooldowns : Type := list (string * Q).

Definition last_stop_loss (c : Cooldowns) (sym : string) : option Q :=
  option_map snd (find (fun kv => String.eqb (fst kv) sym) c).

Inductive Verdict : Type :=
| Skipped
| Kept
| Closed (price : Q) (r : CloseReason).

(** Truth value of an optional level: absent and zero are false. *)
Definition level (x : option Q) : option Q :=
  match x with
  | Some v => if Qeqb v 0 then None else Some v
  | None => None
  end.

(** The holding-time block: minutes held and the time-based close
    reason, if any.  No [entry_time], or one that does not parse, leaves
    both at their initial values. *)
Definition holding_time (d : UserData) (now : Q) (t : Trade) : Q * option CloseReason :=
  match entry_time t with
  | Some (ParsedTime entry_dt) =>
      let holding_time_minutes := (now - entry_dt) / 60 in
      if Qleb (force_close_minutes d) holding_time_minutes
      then (holding_time_minutes,
            Some (ForcedByTime holding_time_minutes (force_close_minutes d)))
      else if Qleb (max_holding_minutes d) holding_time_minutes
      then (holding_time_minutes,
            Some (RecommendedByTime holding_time_minutes (max_holding_minutes d)))
      else (holding_time_minutes, None)
  | Some BadTime => (0, None)
  | None => (0, None)
  end.

(** The direction-aware stop/target test. *)
Definition price_hit (t : Trade) (current_price : Q) : option CloseReason :=
  if String.eqb (direction t) "long" then
    match level (stop_loss t) with
    | Some sl =>
        if Qleb current_price sl then Some (StopLossHit sl)
        else match level (take_profit t) with
             | Some tp => if Qleb tp current_price then Some (TakeProfitHit tp) else None
             | None => None
             end
    | None =>
        match level (take_profit t) with
        | Some tp => if Qleb tp current_price then Some (TakeProfitHit tp) else None
        | None => None
        end
    end
  else
    match level (stop_loss t) with
    | Some sl =>
        if Qleb sl current_price then Some (StopLossHit sl)
        else match level (take_profit t) with
             | Some tp => if Qleb current_price tp then Some (TakeProfitHit tp) else None
             | None => None
             end
    | None =>
        match level (take_profit t) with
        | Some tp => if Qleb current_price tp then Some (TakeProfitHit tp) else None
        | None => None
        end
    end.

(** The body of the loop for one open trade; [ticker] is the reply of
    [api.get_ticker(symbol)]. *)
Definition check_trade (d : UserData) (now : Q) (t : Trade)
           (ticker : result Ticker) : Verdict :=
  if String.eqb (status t) "open"
     && match close_price t with None => true | Some _ => false end
  then
    if Qeqb (entry t) 0
       || (match level (stop_loss t) with None => true | Some _ => false end
           && match level (take_profit t) with None => true | Some _ => false end)
    then Skipped
    else
      let '(holding_time_minutes, time_close) := holding_time d now t in
      match ticker with
      | Raise _ => Skipped
      | Ok tk =>
          let current_price := last tk in
          if Qeqb current_price 0 then Skipped
          else
            let hit := price_hit t current_price in
            match time_close with
            | Some time_close_reason =>
                if Qleb (force_close_minutes d) holding_time_minutes
                then Closed current_price time_close_reason
                else match hit with
                     | Some r => Closed current_price r
                     | None => Closed current_price time_close_reason
                     end
            | None =>
                match hit with
                | Some r => Closed current_price r
                | None => Kept
                end
            end
      end
  else Skipped.

Definition is_stop_loss (r : CloseReason) : bool :=
  match r with StopLossHit _ => true | _ => false end.

(** One iteration of the monitor loop.  The data dictionary is read
    once, before the loop: the thresholds are those of the tick's
    start. *)
Definition monitor_trade_with (data : UserData) (now : Q)
           (api_get_ticker : string -> result Ticker)
           (st : UserData * Cooldowns) (t : Trade) : UserData * Cooldowns :=
  let '(d, cooldowns) := st in
  match check_trade data now t (api_get_ticker (symbol t)) with
  | Closed price r =>
      (close_demo_trade d (symbol t) price r,
       if is_stop_loss r then (symbol t, now) :: cooldowns else cooldowns)
  | Kept | Skipped => st
  end.

Definition _monitor_positions (data : UserData) (now : Q)
           (api_get_ticker : string -> result Ticker)
           (cooldowns : Cooldowns) : UserData * Cooldowns :=
  if is_demo_mode data then
    fold_left (monitor_trade_with data now api_get_ticker)
              (get_open_demo_trades data) (data, cooldowns)
  else (data, cooldowns).

End Monitor.

(** ** Account orchestrator: [AutoTradingManager] *)

Module Orchestrator.
Import Store Monitor.




Definition initial_balance : Q := 10000.

Definition drawdown (d : UserData) : Q :=
  let current_balance := demo_balance d in
  if Qltb 0 initial_balance
  then (initial_balance - current_balance) / initial_balance * 100
  else 0.




(** *** Opening a position: [_analyze_and_trade] *)

(** An exchange-side position as [api.get_positions] lists it. *)
Record ExPosition : Type := mkExPosition {
  ex_symbol : string;
  contracts : Q
}.

(** The recommendation carried by the analysis.  Its three keys are
    always present; [None] is a stored [None]. *)
Record Recommendation : Type := mkRecommendation {
  rec_entry : option Q;
  rec_stop_loss : option Q;
  rec_take_profit : option Q
}.

(** The reply of [api.create_market_order]: fill price and order id. *)
Record OrderReply : Type := mkOrderReply {
  fill_price : option Q;
  reply_id : option string
}.

(** Everything the call receives from outside: the clock, the result of
    the analysis engine with the recommendation it carries, and the
    replies of the exchange. *)
Record Replies : Type := mkReplies {
  now : Q;
  outcome : Engine.Outcome;
  recommendation : option Recommendation;
  positions : result (list ExPosition);
  balance : result Q;
  ticker : result Ticker;
  ohlcv : result (list Candle);
  market_order : result OrderReply
}.

(** How the call ended. [EngineFailed] is re-raised to the scan loop;
    [Swallowed] is an exception caught by the handler around the
    opening block. *)
Inductive StepExit : Type :=
| InCooldown
| EngineFailed
| NoOpenAction
| LimitReached
| AlreadyOpen
| LowVolatility
| NoEntryPrice
| Swallowed
| TooSmall
| OrderRejected
| NoFillPrice
| Opened (t : Trade).

(** The ticker fallback used when a price is missing. *)
Definition price_from_ticker (tk : result Ticker) : Q :=
  match tk with
  | Raise _ => 0
  | Ok t =>
      if Qeqb (last t) 0 then
        if Qltb 0 (bid t) && Qltb 0 (ask t) then (bid t + ask t) / 2
        else if Qltb 0 (bid t) then bid t
        else if Qltb 0 (ask t) then ask t
        else 0
      else last t
  end.

(** [TradingEngine.execute_trade]: the fill price on success, [None] on
    failure.  The demo engine always succeeds, at the ticker price. *)
Definition execute_trade (is_demo : bool) (r : Replies) : option (option Q * option string) :=
  if is_demo then Some (Some (price_from_ticker (ticker r)), None)
  else
    match market_order r with
    | Ok o => Some (fill_price o, reply_id o)
    | Raise _ => None
    end.

(** The live-mode guard: [Some] exit when the open must be dropped. *)
Definition position_guard (data : UserData) (sym : string)
           (positions : result (list ExPosition)) : option StepExit :=
  match positions with
  | Ok l =>
      let open_positions := filter (fun p => negb (Qeqb (contracts p) 0)) l in
      if (max_open_positions data <=? length open_positions)%nat then Some LimitReached
      else if existsb (fun p => String.eqb (ex_symbol p) sym) open_positions
      then Some AlreadyOpen
      else None
  | Raise _ => None
  end.

Definition opt_truthy (x : option Q) : bool :=
  match x with Some v => negb (Qeqb v 0) | None => false end.

(** The calibration block.  It is skipped as a whole when it raises:
    an absent entry makes the comparison [entry <= 0] raise, and the
    candle request itself may fail.  [inl] is the early return of the
    volatility filter, [inr] the stop and target to go on with. *)
Definition calibrate (data : UserData) (r : Replies) (entry : option Q)
           (direction : string) (stop_loss take_profit : option Q)
  : StepExit + (option Q * option Q) :=
  let atr_min_percent :=
    if Qeqb (atr_min_percent data) 0 then 25 # 100 else atr_min_percent data in
  match entry, ohlcv r with
  | Some e, Ok candles =>
      let levels :=
        RiskCalibrator.calculate_scalping_sl_tp e direction (user_leverage data)
                                                "5m" 1440 candles in
      let atr_pct :=
        match RiskCalibrator.meta levels with
        | RiskCalibrator.Calibrated m => RiskCalibrator.m_atr_pct m
        | RiskCalibrator.Reason _ => 0
        end in
      if Qltb atr_pct atr_min_percent then inl LowVolatility
      else if opt_truthy (RiskCalibrator.stop_loss levels)
              && opt_truthy (RiskCalibrator.take_profit levels)
      then inr (RiskCalibrator.stop_loss levels, RiskCalibrator.take_profit levels)
      else inr (stop_loss, take_profit)
  | _, _ => inr (stop_loss, take_profit)
  end.

(** The opening block, from the balance request to the bookkeeping. *)
Definition open_position (sym : string) (data : UserData) (r : Replies)
           (analysis : Fusion.Analysis) (action : string) (result_price : Q)
  : StepExit * UserData :=
  let is_demo := is_demo_mode data in
  match (if is_demo then Ok (demo_balance data) else balance r) with
  | Raise _ => (Swallowed, data)
  | Ok balance =>
      let current_price :=
        match Fusion.a_current_price analysis with
        | Some p => if Qeqb p 0 then result_price else p
        | None => result_price
        end in
      let current_price :=
        if Qeqb current_price 0 then price_from_ticker (ticker r) else current_price in
      let '(entry, stop_loss, take_profit) :=
        match recommendation r with
        | Some rc => (rec_entry rc, rec_stop_loss rc, rec_take_profit rc)
        | None => (Some current_price, None, None)
        end in
      let direction := if contains "long" action then "long"%string else "short"%string in
      match calibrate data r entry direction stop_loss take_profit with
      | inl e => (e, data)
      | inr (stop_loss, take_profit) =>
          let entry :=
            match entry with
            | Some e => if Qeqb e 0 then current_price else e
            | None => current_price
            end in
          if negb (Qltb 0 entry) then (NoEntryPrice, data)
          else
            let amount := 100 / entry in
            match stop_loss, take_profit with
            | Some sl, Some tp =>
                if Qltb amount (1 # 1000) then (TooSmall, data)
                else
                  match execute_trade is_demo r with
                  | None => (OrderRejected, data)
                  | Some (price, oid) =>
                      let entry_price_actual :=
                        match price with
                        | Some p => if Qeqb p 0 then entry else p
                        | None => entry
                        end in
                      if Qeqb entry_price_actual 0 then (NoFillPrice, data)
                      else
                        let trade :=
                          mkTrade sym direction amount entry_price_actual
                                  (Some sl) (Some tp) 0 "open"
                                  (Some (ParsedTime (now r))) None None
                                  (user_leverage data) oid in
                        (Opened trade,
                         if is_demo then add_demo_trade data trade else data)
                  end
            | _, _ => (Swallowed, data)
            end
      end
  end.

Definition in_cooldown (cooldowns : Cooldowns) (sym : string) (data : UserData)
           (now : Q) : bool :=
  let sl_cooldown_minutes :=
    if Qeqb (sl_cooldown_minutes data) 0 then 15 else sl_cooldown_minutes data in
  match last_stop_loss cooldowns sym with
  | Some last_sl_time => Qltb ((now - last_sl_time) / 60) sl_cooldown_minutes
  | None => false
  end.

(** [_analyze_and_trade] for one symbol of one account: how the call
    ended and the account data afterwards. *)
Definition _analyze_and_trade (cooldowns : Cooldowns) (sym : string)
           (data : UserData) (r : Replies) : StepExit * UserData :=
  if in_cooldown cooldowns sym data (now r) then (InCooldown, data)
  else
    match outcome r with
    | Engine.Failed _ _ => (EngineFailed, data)
    | Engine.Analysed analysis decision result_price =>
        let action := Engine.action decision in
        if String.prefix "open_" action then
          match (if is_demo_mode data then None
                 else position_guard data sym (positions r)) with
          | Some e => (e, data)
          | None => open_position sym data r analysis action result_price
          end
        else (NoOpenAction, data)
    end.


(** Number of open positions on a symbol. *)
Definition count_open (sym : string) (l : list Trade) : nat :=
  length (filter (is_open_on sym) l).

(** At most one open position per symbol of the account. *)
Definition one_open_per_symbol (l : list Trade) : Prop :=
  forall s, (count_open s l <= 1)%nat.

End Orchestrator.

(** ** Sample candle series *)

Module Samples.

(** Fifty identical candles with a range of two around 100. *)
Definition wide_candles : list Candle :=
  repeat (mkCandle 0 100 101 99 100 1) 50.

(** Fifty identical candles with a range of one around 100. *)
Definition calm_candles : list Candle :=
  repeat (mkCandle 0 100 (1005 # 10) (995 # 10) 100 1) 50.

Import Fusion Engine.

Definition no_structure : Structure := mkStructure None None.
Definition no_pools : LiquidityPools := mkLiquidityPools None None.
Definition empty_book : OrderBook := mkOrderBook [] [].

(** Buy-side order flow of strength 2.5 and nothing else from the
    microstructure detectors. *)
Definition buy_flow : AdvancedAnalysis :=
  Advanced.comprehensive_analysis 100 [] [] [] no_pools []
    (mkOrderFlow "bullish" (25 # 10) "long") no_structure.

Definition sell_flow : AdvancedAnalysis :=
  Advanced.comprehensive_analysis 100 [] [] [] no_pools []
    (mkOrderFlow "bearish" (25 # 10) "short") no_structure.

Definition quiet : AdvancedAnalysis :=
  Advanced.comprehensive_analysis 100 [] [] [] no_pools []
    (mkOrderFlow "neutral" 1 "neutral") no_structure.

(** Bullish candle and buy-side flow against an overbought oscillator
    and a bearish MACD: a [long] of strength 17.5 with four
    confirmations. *)
Definition long_input : FusionInput :=
  mkFusionInput (Some 100) "bullish"
    (mkIndicators "overbought" (Some "bearish"%string) None None None "neutral" 1)
    buy_flow None.

(** The mirror image: a [short] of strength -17.5. *)
Definition short_input : FusionInput :=
  mkFusionInput (Some 100) "bearish"
    (mkIndicators "oversold" (Some "bullish"%string) None None None "neutral" 1)
    sell_flow None.

(** Buy-side flow under a bearish candle, bearish averages and a bullish
    MACD: a [short] of strength -24.5 with four confirmations. *)
Definition mixed_input : FusionInput :=
  mkFusionInput (Some 100) "bearish"
    (mkIndicators "overbought" (Some "bullish"%string) (Some "below"%string) None
                  (Some "below_cloud"%string) "strong_bearish" 1)
    buy_flow None.

(** Twenty four-hour candles: flat at 100, then a last close of 90
    (respectively 110). *)
Definition falling_4h : list Candle :=
  repeat (mkCandle 0 100 100 100 100 1) 19 ++ [mkCandle 0 100 100 90 90 1].
Definition rising_4h : list Candle :=
  repeat (mkCandle 0 100 100 100 100 1) 19 ++ [mkCandle 0 100 110 100 110 1].

(** A bullish candle and a bullish MACD: strength 35, two confirming
    sources. *)
Definition two_source_input : FusionInput :=
  mkFusionInput (Some 100) "bullish"
    (mkIndicators "neutral" (Some "bullish"%string) None None None "neutral" 1)
    quiet None.

(** The same with a bullish fair-value gap [98, 99.2] under the price:
    close enough to confirm the level (within 1% of the zone end), too
    far to add an entry signal (more than 0.5% above it). *)
Definition three_source_input : FusionInput :=
  mkFusionInput (Some 100) "bullish"
    (mkIndicators "neutral" (Some "bullish"%string) None None None "neutral" 1)
    (Advanced.comprehensive_analysis 100 []
       [mkFVG "bullish_fvg" 98 (992 # 10) (986 # 10)] [] no_pools []
       (mkOrderFlow "neutral" 1 "neutral") no_structure)
    None.

(** Twenty candles whose highs and lows zigzag: in the last ten, five
    higher highs and four lower lows, never two of either in a row. *)
Definition zigzag_candle (n : nat) : Candle :=
  if Nat.even n
  then mkCandle (inject_Z (Z.of_nat n)) 100 101 99 100 1
  else mkCandle (inject_Z (Z.of_nat n)) 100 102 100 101 1.

Definition zigzag_candles : list Candle := map zigzag_candle (seq 0 20).

(** Twenty candles ending in three higher highs followed by two lower
    lows. *)
Definition reversal_candles : list Candle :=
  repeat (mkCandle 0 100 101 99 100 1) 15
  ++ [mkCandle 0 100 102 99 101 1; mkCandle 0 101 103 99 102 1;
      mkCandle 0 102 104 99 103 1; mkCandle 0 103 104 98 99 1;
      mkCandle 0 99 104 97 98 1].

(** Twelve candles without any price range: every high and every low
    is 100. *)
Definition flat_candles : list Candle :=
  repeat (mkCandle 0 100 100 100 100 5) 12.

Import Store Monitor Orchestrator.

(** A demo account with the default settings and the given balance and
    positions. *)
Definition demo_account (balance : Q) (positions : list Trade) : UserData :=
  mkUserData (Some "key"%string) (Some "secret"%string) true true balance positions
             20 5 7 10 15 (25 # 100) 5.


(** An open long on ZEC entered at 90 at time 0 (seconds). *)
Definition zec : string := "ZEC/USDT:USDT".
Definition zec_long : Trade :=
  mkTrade zec "long" 1 90 (Some 89) (Some 93) 0 "open"
          (Some (ParsedTime 0)) None None 5 None.


(** The engine's verdict on [three_source_input]: a strong long, opened
    without any higher-timeframe objection. *)
Definition strong_long_outcome : Engine.Outcome :=
  Engine.analyze_and_trade calm_candles empty_book 100 three_source_input quiet [].

Definition open_replies (t : Q) : Replies :=
  mkReplies t strong_long_outcome None
            (Ok [mkExPosition zec 1]) (Ok 10000) (Ok (mkTicker 100 0 0))
            (Ok calm_candles) (Ok (mkOrderReply (Some 100) (Some "1"%string))).


End Samples.

From Stdlib Require Import Sorted.

(** ** Price-gap detectors: [AdvancedMarketAnalyzer.find_imbalance] and
       [AdvancedMarketAnalyzer.find_fvg] *)

Module Gaps.

(** The dictionary appended by [find_imbalance]. *)
Record ImbZone : Type := mkImbZone {
  iz_type : string;
  iz_zone_start : Q;
  iz_zone_end : Q;
  iz_timestamp : Q;
  iz_strength : string;
  iz_direction : string
}.

(** The dictionary appended by [find_fvg]. *)
Record FvgZone : Type := mkFvgZone {
  fz_type : string;
  fz_zone_start : Q;
  fz_zone_end : Q;
  fz_timestamp : Q;
  fz_mid_point : Q;
  fz_direction : string;
  fz_expectation : string
}.

(** The entries that the scorer and the cancellation rules read. *)
Definition as_imbalance (z : ImbZone) : Imbalance :=
  mkImbalance (iz_type z) (iz_zone_start z) (iz_zone_end z) (iz_strength z)
              (iz_direction z).

Definition as_fvg (z : FvgZone) : FVG :=
  mkFVG (fz_type z) (fz_zone_start z) (fz_zone_end z) (fz_mid_point z).

(** The body of the loop of [find_imbalance] for one pair of
    neighbouring candles. *)
Definition imbalance_at (prev_candle curr_candle : Candle) : list ImbZone :=
  if Qltb (high prev_candle) (low curr_candle) then
    [mkImbZone "bullish_imb" (high prev_candle) (low curr_candle)
               (timestamp curr_candle)
               (if Qltb (high prev_candle * (2 # 1000))
                        (low curr_candle - high prev_candle)
                then "strong" else "weak")
               "long"]
  else if Qltb (high curr_candle) (low prev_candle) then
    [mkImbZone "bearish_imb" (high curr_candle) (low prev_candle)
               (timestamp curr_candle)
               (if Qltb (low prev_candle * (2 # 1000))
                        (low prev_candle - high curr_candle)
                then "strong" else "weak")
               "short"]
  else [].

(** [for i in range(1, len(df))], with [prev_candle = df.iloc[i-1]]. *)
Fixpoint imbalance_loop (prev_candle : Candle) (rest : list Candle) : list ImbZone :=
  match rest with
  | [] => []
  | curr_candle :: rest' =>
      imbalance_at prev_candle curr_candle ++ imbalance_loop curr_candle rest'
  end.

Definition find_imbalance (ohlcv : list Candle) : list ImbZone :=
  if (length ohlcv <? 3)%nat then []
  else match ohlcv with
       | [] => []
       | first :: rest => imbalance_loop first rest
       end.

(** The body of the loop of [find_fvg] for three consecutive candles. *)
Definition fvg_at (prev_candle curr_candle next_candle : Candle) : list FvgZone :=
  if Qltb (high prev_candle) (low curr_candle)
     && Qltb (high prev_candle) (low next_candle) then
    [mkFvgZone "bullish_fvg" (high prev_candle)
               (pymin (low curr_candle) (low next_candle))
               (timestamp curr_candle)
               ((high prev_candle + pymin (low curr_candle) (low next_candle)) / 2)
               "long" "pullback_test"]
  else if Qltb (high curr_candle) (low prev_candle)
          && Qltb (high next_candle) (low prev_candle) then
    [mkFvgZone "bearish_fvg" (pymax (high curr_candle) (high next_candle))
               (low prev_candle)
               (timestamp curr_candle)
               ((pymax (high curr_candle) (high next_candle) + low prev_candle) / 2)
               "short" "pullback_test"]
  else [].

(** [for i in range(1, len(df) - 1)]. *)
Fixpoint fvg_loop (prev_candle curr_candle : Candle) (rest : list Candle)
  : list FvgZone :=
  match rest with
  | [] => []
  | next_candle :: rest' =>
      fvg_at prev_candle curr_candle next_candle
      ++ fvg_loop curr_candle next_candle rest'
  end.

Definition find_fvg (ohlcv : list Candle) : list FvgZone :=
  if (length ohlcv <? 3)%nat then []
  else match ohlcv with
       | first :: second :: rest => fvg_loop first second rest
       | _ => []
       end.

End Gaps.

(** ** Candle patterns: [CandleAnalyzer] *)

Module Candles.

Definition body (candle : Candle) : Q := Qabs (close candle - open candle).
Definition upper_shadow (candle : Candle) : Q :=
  high candle - pymax (open candle) (close candle).
Definition lower_shadow (candle : Candle) : Q :=
  pymin (open candle) (close candle) - low candle.
Definition total_range (candle : Candle) : Q := high candle - low candle.

Definition _is_hammer (candle : Candle) : bool :=
  Qltb (body candle * 2) (lower_shadow candle)
  && Qltb (upper_shadow candle) (body candle * (3 # 10))
  && Qltb (open candle * (99 # 100)) (close candle).

Definition _is_hanging_man (candle : Candle) : bool :=
  Qltb (body candle * 2) (lower_shadow candle)
  && Qltb (upper_shadow candle) (body candle * (3 # 10)).

Definition _is_engulfing (prev curr : Candle) : bool :=
  Qltb (body prev * (11 # 10)) (body curr)
  && Qltb (open curr) (close prev)
  && Qltb (open prev) (close curr).

Definition _is_doji (candle : Candle) : bool :=
  Qltb (body candle) (total_range candle * (1 # 10)).

Definition _is_shooting_star (candle : Candle) : bool :=
  Qltb (body candle * 2) (upper_shadow candle)
  && Qltb (lower_shadow candle) (body candle * (3 # 10)).

Definition _is_pin_bar (candle : Candle) : option string :=
  if Qltb (total_range candle * (6 # 10)) (upper_shadow candle)
     && Qltb (lower_shadow candle) (total_range candle * (2 # 10))
  then Some "bearish"%string
  else if Qltb (total_range candle * (6 # 10)) (lower_shadow candle)
          && Qltb (upper_shadow candle) (total_range candle * (2 # 10))
  then Some "bullish"%string
  else None.

(** The patterns the analyser names (the source stores a display text
    for each). *)
Inductive Pattern : Type :=
| Hammer
| HangingMan
| BullishEngulfing
| BearishEngulfing
| Doji
| ShootingStar
| PinBar (side : string).

Record ShadowAnalysis : Type := mkShadowAnalysis {
  sa_upper_shadow : Q;
  sa_lower_shadow : Q;
  sa_body : Q;
  long_lower_shadow : bool;
  long_upper_shadow : bool
}.

Record LastCandle : Type := mkLastCandle {
  lc_open : Q;
  lc_high : Q;
  lc_low : Q;
  lc_close : Q;
  lc_volume : Q;
  is_bullish : bool
}.

Record CandleReport : Type := mkCandleReport {
  patterns : list Pattern;
  signals : list string;
  overall_signal : string;
  signal_strength : Z;
  shadow_analysis : ShadowAnalysis;
  last_candle : LastCandle
}.

(** The pattern tests in the order of the source, each with the signal
    it appends. *)
Definition detect (prev_candle last_candle : Candle) : list (Pattern * string) :=
  (if _is_hammer last_candle then [(Hammer, "bullish"%string)] else [])
  ++ (if _is_hanging_man last_candle then [(HangingMan, "bearish"%string)] else [])
  ++ (if _is_engulfing prev_candle last_candle then
        if Qltb (open last_candle) (close last_candle)
           && Qltb (close prev_candle) (open prev_candle)
        then [(BullishEngulfing, "bullish"%string)]
        else if Qltb (close last_candle) (open last_candle)
                && Qltb (open prev_candle) (close prev_candle)
        then [(BearishEngulfing, "bearish"%string)]
        else []
      else [])
  ++ (if _is_doji last_candle then [(Doji, "neutral"%string)] else [])
  ++ (if _is_shooting_star last_candle then [(ShootingStar, "bearish"%string)] else [])
  ++ match _is_pin_bar last_candle with
     | Some pin_bar => [(PinBar pin_bar, pin_bar)]
     | None => []
     end.

(** [signals.count(x)] *)
Definition count_signal (x : string) (signals : list string) : nat :=
  length (filter (String.eqb x) signals).

(** [analyze_candles]; [None] stands for the [error] dictionary returned
    on fewer than three candles.  The [signals] entry is a set turned
    into a list: its members are given without repetition, in the order
    of first appearance. *)
Definition analyze_candles (ohlcv : list Candle) : option CandleReport :=
  if (length ohlcv <? 3)%nat then None
  else
    let blank := mkCandle 0 0 0 0 0 0 in
    let last_candle := last ohlcv blank in
    let prev_candle := last (removelast ohlcv) blank in
    let found := detect prev_candle last_candle in
    let signals := map snd found in
    let bullish_count := count_signal "bullish" signals in
    let bearish_count := count_signal "bearish" signals in
    let '(overall_signal, signal_strength) :=
      if (bearish_count <? bullish_count)%nat
      then ("bullish"%string, Z.min (Z.of_nat bullish_count * 25) 100)
      else if (bullish_count <? bearish_count)%nat
      then ("bearish"%string, Z.min (Z.of_nat bearish_count * 25) 100)
      else ("neutral"%string, 0%Z) in
    Some (mkCandleReport
            (map fst found)
            (nodup string_dec signals)
            overall_signal signal_strength
            (mkShadowAnalysis (upper_shadow last_candle) (lower_shadow last_candle)
                              (body last_candle)
                              (Qltb (body last_candle * 2) (lower_shadow last_candle))
                              (Qltb (body last_candle * 2) (upper_shadow last_candle)))
            (mkLastCandle (open last_candle) (high last_candle) (low last_candle)
                          (close last_candle) (volume last_candle)
                          (Qltb (open last_candle) (close last_candle)))).

End Candles.

(** ** Indicator classifiers, order-book summary and fallback
       recommendation ([MarketAnalyzer] in [services/market_analysis.py]) *)

Module Classifiers.
Import Engine.

(** [_get_rsi_signal]; [None] is the [None] passed when the oscillator
    series is empty. *)
Definition _get_rsi_signal (rsi_value : option Q) : string :=
  match rsi_value with
  | None => "neutral"
  | Some v =>
      if Qltb v 30 then "oversold"
      else if Qltb 70 v then "overbought"
      else "neutral"
  end.

(** The [signal_type] entry of the MACD dictionary, from the last
    histogram value. *)
Definition macd_signal_type (histogram : Q) : string :=
  if Qltb 0 histogram then "bullish" else "bearish".

(** [_get_stoch_signal] *)
Definition _get_stoch_signal (k_value : Q) : string :=
  if Qltb k_value 20 then "oversold"
  else if Qltb 80 k_value then "overbought"
  else "neutral".

(** [_get_ema_trend] on series of finite values; [iloc[-1]] is the last
    value.  The two slow averages are passed and not read. *)
Definition _get_ema_trend (ema_9 ema_21 ema_50 ema_200 : list Q) (current_price : Q)
  : string :=
  if negb (Fusion.nonempty ema_9) || negb (Fusion.nonempty ema_21) then "neutral"
  else
    let ema9_val := last ema_9 0 in
    let ema21_val := last ema_21 0 in
    if Qltb ema9_val current_price && Qltb ema21_val ema9_val then "strong_bullish"
    else if Qltb ema9_val current_price && Qltb ema9_val ema21_val then "weak_bullish"
    else if Qltb current_price ema9_val && Qltb ema9_val ema21_val then "strong_bearish"
    else if Qltb current_price ema9_val && Qltb ema21_val ema9_val then "weak_bearish"
    else "neutral".

Record Wall : Type := mkWall {
  wall_type : string;
  wall_price : Q;
  wall_volume : Q
}.

Record BookSummary : Type := mkBookSummary {
  total_bid_volume : Q;
  total_ask_volume : Q;
  imbalance : Q;
  bids_asks_ratio : Q;
  walls : list Wall;
  book_signal : string
}.

Definition walls_of (side : string) (avg_volume : Q) (levels : list (Q * Q)) : list Wall :=
  map (fun lv => mkWall side (fst lv) (snd lv))
      (filter (fun lv => Qltb (avg_volume * (25 # 10)) (snd lv)) (firstn 20 levels)).

(** [_analyze_orderbook]: [Ok None] when a side of the book is empty;
    the imbalance is a plain division, which raises when the two volumes
    add up to zero. *)
Definition _analyze_orderbook (orderbook : OrderBook) : result (option BookSummary) :=
  let bids := bids orderbook in
  let asks := asks orderbook in
  if negb (Fusion.nonempty bids) || negb (Fusion.nonempty asks) then Ok None
  else
    let total_bid_volume := pysum (map snd (firstn 50 bids)) in
    let total_ask_volume := pysum (map snd (firstn 50 asks)) in
    if Qeqb (total_bid_volume + total_ask_volume) 0 then Raise ZeroDivisionError
    else
      let imbalance :=
        (total_bid_volume - total_ask_volume) / (total_bid_volume + total_ask_volume) * 100 in
      let bids_asks_ratio :=
        if Qltb 0 total_ask_volume then total_bid_volume / total_ask_volume else 1 in
      let avg_bid_volume :=
        total_bid_volume / inject_Z (Z.of_nat (length (firstn 50 bids))) in
      let avg_ask_volume :=
        total_ask_volume / inject_Z (Z.of_nat (length (firstn 50 asks))) in
      let walls := walls_of "bid" avg_bid_volume bids ++ walls_of "ask" avg_ask_volume asks in
      let signal :=
        if Qltb (12 # 10) bids_asks_ratio then "bullish"%string
        else if Qltb bids_asks_ratio (83 # 100) then "bearish"%string
        else "neutral"%string in
      Ok (Some (mkBookSummary total_bid_volume total_ask_volume imbalance
                              bids_asks_ratio walls signal)).

Record EntryPlan : Type := mkEntryPlan {
  plan_direction : string;
  plan_entry : Q;
  plan_stop_loss : Q;
  plan_take_profit : Q
}.

(** [_generate_recommendation] *)
Definition _generate_recommendation (signal : string) (current_price : option Q)
  : option EntryPlan :=
  match current_price with
  | None => None
  | Some current_price =>
      if String.eqb signal "neutral" then None
      else
        let is_long := contains "long" signal in
        if is_long then
          Some (mkEntryPlan "LONG" (current_price * (999 # 1000))
                            (current_price * (985 # 1000)) (current_price * (103 # 100)))
        else
          Some (mkEntryPlan "SHORT" (current_price * (1001 # 1000))
                            (current_price * (1015 # 1000)) (current_price * (97 # 100)))
  end.

(** The three entries of the plan that the orchestrator reads. *)
Definition as_recommendation (p : EntryPlan) : Orchestrator.Recommendation :=
  Orchestrator.mkRecommendation (Some (plan_entry p)) (Some (plan_stop_loss p))
                                (Some (plan_take_profit p)).

End Classifiers.

(** ** Market scanner: [TradingEngine.scan_market] *)

Module Scanner.
Import Fusion Engine.

Record ScanResult : Type := mkScanResult {
  sr_symbol : string;
  sr_final_signal : string;
  sr_probability : Q;
  sr_confirmations : nat;
  sr_current_price : option Q
}.

(** The body of the loop for one pair, from what [analyze_and_trade]
    returned for it.  A failed analysis carries no [analysis] entry and
    reads as neutral. *)
Definition scan_one (run : string * Outcome) : list ScanResult :=
  match snd run with
  | Failed _ _ => []
  | Analysed analysis _ _ =>
      if negb (String.eqb (final_signal analysis) "neutral")
         && Qltb 0 (probability analysis)
      then [mkScanResult (fst run) (final_signal analysis) (probability analysis)
                         (count (confirmations analysis)) (a_current_price analysis)]
      else []
  end.

(** Order of the sort keys [(probability, confirmations)]. *)
Definition key_lt (a b : ScanResult) : bool :=
  Qltb (sr_probability a) (sr_probability b)
  || (Qeqb (sr_probability a) (sr_probability b)
      && (sr_confirmations a <? sr_confirmations b)%nat).

(** [results.sort(key=..., reverse=True)]: descending, results with equal
    keys keep their order. *)
Fixpoint insert_desc (x : ScanResult) (l : list ScanResult) : list ScanResult :=
  match l with
  | [] => [x]
  | y :: rest => if key_lt y x then x :: l else y :: insert_desc x rest
  end.

Definition sort_desc (l : list ScanResult) : list ScanResult :=
  fold_left (fun acc x => insert_desc x acc) l [].

(** [a] is listed before [b]: a higher probability, or the same
    probability and at least as many confirmations. *)
Definition ranks_before (a b : ScanResult) : Prop :=
  sr_probability b < sr_probability a
  \/ (sr_probability b == sr_probability a
      /\ (sr_confirmations b <= sr_confirmations a)%nat).

(** [runs] pairs every scanned symbol with the reply of its
    [analyze_and_trade] call. *)
Definition scan_market (runs : list (string * Outcome)) (top_n : Z) : list ScanResult :=
  firstn (Z.to_nat (Z.max 1 top_n)) (sort_desc (flat_map scan_one runs)).

End Scanner.

(** ** Pair selection ([AutoTradingManager._auto_trading_loop] and
       [_refresh_scalping_pairs], [config/settings.py]) *)

Module Pairs.

Definition DEFAULT_PAIRS : list string :=
  ["ZEC/USDT:USDT"; "WIF/USDT:USDT"]%string.

Definition SCALPING_BLOCKED_PAIRS : list string :=
  ["DOGE/USDT:USDT"; "ETH/USDT:USDT"; "SUI/USDT:USDT"; "DOT/USDT:USDT";
   "AVAX/USDT:USDT"; "LTC/USDT:USDT"; "SKR/USDT:USDT"]%string.

(** The pairs of one scan cycle, from the stored [trading_pairs] (an
    absent entry reads as the empty list): the list that is scanned and
    the stored list afterwards. *)
Definition cycle_pairs (user_pairs : list string) : list string * list string :=
  let '(pairs, stored) :=
    if Fusion.nonempty user_pairs && (length DEFAULT_PAIRS <=? length user_pairs)%nat
    then (user_pairs, user_pairs)
    else (DEFAULT_PAIRS, DEFAULT_PAIRS) in
  (filter (fun p => negb (str_in p SCALPING_BLOCKED_PAIRS)) pairs, stored).

(** The check of one stored pair in [_refresh_scalping_pairs]: [probe]
    gives the 24h volume of the ticker reply (0 when absent), or raises
    when the ticker or the candle request fails. *)
Definition keeps (probe : string -> result Q) (sym : string) : bool :=
  if str_in sym SCALPING_BLOCKED_PAIRS then false
  else match probe sym with
       | Ok vol => negb (Qltb 0 vol && Qltb vol 1000000)
       | Raise _ => false
       end.

(** The loop that tops the list up from the volume ranking. *)
Fixpoint top_up (desired : nat) (valid_pairs top : list string) : list string :=
  match top with
  | [] => valid_pairs
  | sym :: rest =>
      if str_in sym valid_pairs then top_up desired valid_pairs rest
      else
        let valid_pairs := valid_pairs ++ [sym] in
        if (desired <=? length valid_pairs)%nat then valid_pairs
        else top_up desired valid_pairs rest
  end.

(** [_refresh_scalping_pairs]: the stored [trading_pairs] afterwards.
    [top] is the reply of the volume ranking. *)
Definition _refresh_scalping_pairs (stored : list string) (desired : option nat)
           (probe : string -> result Q) (top : result (list string)) : list string :=
  let desired := match desired with Some n => n | None => length DEFAULT_PAIRS end in
  let current_pairs :=
    if negb (Fusion.nonempty stored) || (length stored <? desired)%nat
    then DEFAULT_PAIRS else stored in
  let valid_pairs := filter (keeps probe) current_pairs in
  let valid_pairs :=
    if (length valid_pairs <? desired)%nat
    then top_up desired valid_pairs (match top with Ok l => l | Raise _ => [] end)
    else valid_pairs in
  firstn desired valid_pairs.

End Pairs.

(** ** Trade statistics ([StatisticsManager] in [services/statistics.py]) *)

Module Statistics.
Import Store.

(** One iteration of the loop of [_calculate_max_drawdown] on the state
    [(cumulative, peak, max_dd)]. *)
Definition drawdown_step (st : Q * Q * Q) (trade : Trade) : Q * Q * Q :=
  let '(cumulative, peak, max_dd) := st in
  let cumulative := cumulative + pnl trade in
  let peak := if Qltb peak cumulative then cumulative else peak in
  let drawdown := peak - cumulative in
  let max_dd := if Qltb max_dd drawdown then drawdown else max_dd in
  (cumulative, peak, max_dd).

Definition _calculate_max_drawdown (trades : list Trade) : Q :=
  match trades with
  | [] => 0
  | _ => snd (fold_left drawdown_step trades (0, 0, 0))
  end.

(** The trade lists and sums of [get_statistics]. *)
Definition winning_trades (trades : list Trade) : list Trade :=
  filter (fun t => Qltb 0 (pnl t)) trades.
Definition losing_trades (trades : list Trade) : list Trade :=
  filter (fun t => Qltb (pnl t) 0) trades.
Definition total_profit (trades : list Trade) : Q :=
  pysum (map pnl (winning_trades trades)).
Definition total_loss (trades : list Trade) : Q :=
  Qabs (pysum (map pnl (losing_trades trades))).

End Statistics.

(** ** Order flow: [AdvancedMarketAnalyzer.analyze_order_flow] *)

Module OrderFlowAnalysis.
Import Engine.

Record FlowReport : Type := mkFlowReport {
  fr_direction : string;
  fr_strength : Q;
  fr_bullish_volume : Q;
  fr_bearish_volume : Q;
  fr_volume_ratio : Q;
  fr_recent_trend : string;
  fr_delta : Q;
  fr_delta_percent : Q;
  fr_bids_asks_ratio : Q;
  fr_signal : string
}.

(** The order-book block: [(delta, delta_percent, bids_asks_ratio)].
    [None] is an absent or empty order book. *)
Definition book_delta (orderbook : option OrderBook) : Q * Q * Q :=
  match orderbook with
  | Some ob =>
      let bid_volume := pysum (map snd (firstn 50 (bids ob))) in
      let ask_volume := pysum (map snd (firstn 50 (asks ob))) in
      let delta := bid_volume - ask_volume in
      (delta,
       if Qltb 0 (bid_volume + ask_volume)
       then delta / (bid_volume + ask_volume) * 100 else 0,
       if Qltb 0 ask_volume then bid_volume / ask_volume else 1)
  | None => (0, 0, 1)
  end.

(** Direction and strength before the delta bonus. *)
Definition flow_direction (bullish_volume bearish_volume bids_asks_ratio : Q)
  : string * Q :=
  if Qltb (bearish_volume * (12 # 10)) bullish_volume || Qltb (12 # 10) bids_asks_ratio then
    let base_strength :=
      if Qltb 0 bearish_volume then pymin (bullish_volume / bearish_volume) 5 else 5 in
    ("bullish"%string,
     if Qltb (12 # 10) bids_asks_ratio
     then base_strength * (1 + (bids_asks_ratio - (12 # 10)) * (5 # 10))
     else base_strength)
  else if Qltb (bullish_volume * (12 # 10)) bearish_volume
          || Qltb bids_asks_ratio (83 # 100) then
    let base_strength :=
      if Qltb 0 bullish_volume then pymin (bearish_volume / bullish_volume) 5 else 5 in
    ("bearish"%string,
     if Qltb bids_asks_ratio (83 # 100)
     then base_strength * (1 + ((83 # 100) - bids_asks_ratio) * (5 # 10))
     else base_strength)
  else ("neutral"%string, 1).

(** [None] stands for the empty dictionary returned on fewer than ten
    candles. *)
Definition analyze_order_flow (ohlcv : list Candle) (orderbook : option OrderBook)
  : option FlowReport :=
  if (length ohlcv <? 10)%nat then None
  else
    let bullish_volume :=
      pysum (map volume (filter (fun c => Qltb (open c) (close c)) ohlcv)) in
    let bearish_volume :=
      pysum (map volume (filter (fun c => Qltb (close c) (open c)) ohlcv)) in
    let '(delta, delta_percent, bids_asks_ratio) := book_delta orderbook in
    let '(of_direction, of_strength) :=
      flow_direction bullish_volume bearish_volume bids_asks_ratio in
    let of_strength :=
      if Qltb 0 delta && String.eqb of_direction "bullish" then of_strength * (12 # 10)
      else if Qltb delta 0 && String.eqb of_direction "bearish"
      then of_strength * (12 # 10)
      else of_strength in
    let recent_3 := map close (lastn 3 ohlcv) in
    let recent_trend :=
      if Qltb (hd 0 recent_3) (last recent_3 0) then "up"%string else "down"%string in
    Some (mkFlowReport
            of_direction (pyround of_strength 2) bullish_volume bearish_volume
            (if Qltb 0 bearish_volume
             then pyround (bullish_volume / bearish_volume) 2 else 0)
            recent_trend delta (pyround delta_percent 2) (pyround bids_asks_ratio 3)
            (if String.eqb of_direction "bullish" && String.eqb recent_trend "up"
             then "long"%string
             else if String.eqb of_direction "bearish" && String.eqb recent_trend "down"
             then "short"%string
             else "neutral"%string)).

(** The three entries read by the scorer and the decision engine. *)
Definition as_order_flow (r : FlowReport) : OrderFlow :=
  mkOrderFlow (fr_direction r) (fr_strength r) (fr_signal r).

End OrderFlowAnalysis.

(** ** Liquidity sweeps and the signals of [comprehensive_analysis] *)

Module Pipeline.
Import Engine Gaps OrderFlowAnalysis.

(** The dictionary appended by [detect_liquidity_sweeps]. *)
Record SweepHit : Type := mkSweepHit {
  sh_type : string;
  sh_sweep_price : Q;
  sh_reaction_price : Q;
  sh_timestamp : Q;
  sh_direction : string;
  sh_signal : string
}.

Definition as_sweep (h : SweepHit) : Sweep :=
  mkSweep (sh_type h) (sh_sweep_price h) (sh_reaction_price h) (sh_signal h).

Definition sweep_at (prev_candle curr_candle : Candle) : list SweepHit :=
  if Qltb (low curr_candle) (low prev_candle)
     && Qltb (close prev_candle) (close curr_candle)
     && Qltb (open curr_candle) (close curr_candle) then
    [mkSweepHit "liquidity_sweep_lows" (low curr_candle) (close curr_candle)
                (timestamp curr_candle) "bullish_reversal" "long"]
  else if Qltb (high prev_candle) (high curr_candle)
          && Qltb (close curr_candle) (close prev_candle)
          && Qltb (close curr_candle) (open curr_candle) then
    [mkSweepHit "liquidity_sweep_highs" (high curr_candle) (close curr_candle)
                (timestamp curr_candle) "bearish_reversal" "short"]
  else [].

Fixpoint sweep_loop (prev_candle : Candle) (rest : list Candle) : list SweepHit :=
  match rest with
  | [] => []
  | curr_candle :: rest' =>
      sweep_at prev_candle curr_candle ++ sweep_loop curr_candle rest'
  end.

(** [detect_liquidity_sweeps]: the loop runs over the last ten candles. *)
Definition detect_liquidity_sweeps (ohlcv : list Candle) : list SweepHit :=
  if (length ohlcv <? 5)%nat then []
  else match lastn 10 ohlcv with
       | [] => []
       | first :: rest => sweep_loop first rest
       end.

(** [comprehensive_analysis] up to its [signals] entry.  The detectors
    run in the order of the source; the liquidity pools come before the
    order flow, so their exception, if any, is the one raised.  On the
    empty dictionary that [analyze_order_flow] returns for fewer than ten
    candles, the signal generator finds no [signal] entry: its test
    [order_flow.get('signal') != 'neutral'] holds and the subscript
    [order_flow['signal']] raises. *)
Definition comprehensive_signals (ohlcv : list Candle) (orderbook : option OrderBook)
  : result (list AdvSignal) :=
  let current_price :=
    match ohlcv with [] => 0 | _ => close (last ohlcv (mkCandle 0 0 0 0 0 0)) end in
  let fvgs := map as_fvg (find_fvg ohlcv) in
  _ <- LiquidityPools.analyze_liquidity_pools ohlcv ;;
  let liquidity_sweeps := map as_sweep (detect_liquidity_sweeps ohlcv) in
  let order_flow := analyze_order_flow ohlcv orderbook in
  let structure :=
    match StructureBreaks.detect_bos_choch ohlcv with
    | Some r => mkStructure (StructureBreaks.r_bos r) (StructureBreaks.r_choch r)
    | None => mkStructure None None
    end in
  match order_flow with
  | None => Raise KeyError
  | Some flow =>
      Ok (Advanced._generate_advanced_signals current_price fvgs liquidity_sweeps
                                              (as_order_flow flow) structure)
  end.

End Pipeline.

(** ** Further sample data *)

Module MoreSamples.
Import Fusion Engine Store Monitor Orchestrator Samples.

(** [three_source_input] with a liquidity pool at 100.2, 0.2% above the
    price. *)
Definition swept_input : FusionInput :=
  mkFusionInput (Some 100) "bullish"
    (mkIndicators "neutral" (Some "bullish"%string) None None None "neutral" 1)
    (Advanced.comprehensive_analysis 100 []
       [mkFVG "bullish_fvg" 98 (992 # 10) (986 # 10)] []
       (mkLiquidityPools None (Some (1002 # 10))) []
       (mkOrderFlow "neutral" 1 "neutral") no_structure)
    None.

(** Three candles falling away from the first one: a bearish gap
    between 95 and 99. *)
Definition gap_down_candles : list Candle :=
  [mkCandle 1 100 101 99 100 1; mkCandle 2 95 95 93 94 1; mkCandle 3 94 94 92 93 1].

(** A falling candle swallowed by a rising one. *)
Definition engulfing_candles : list Candle :=
  [mkCandle 1 100 101 99 100 1;
   mkCandle 2 100 (1002 # 10) (988 # 10) 99 1;
   mkCandle 3 (985 # 10) (1011 # 10) (984 # 10) 101 1].

(** Twelve rising candles of volume 3 after eight falling ones of
    volume 1. *)
Definition buying_candles : list Candle :=
  repeat (mkCandle 0 100 101 98 99 1) 8 ++
  map (fun n => mkCandle 0 (99 + inject_Z (Z.of_nat n)) (101 + inject_Z (Z.of_nat n))
                         (98 + inject_Z (Z.of_nat n)) (100 + inject_Z (Z.of_nat n)) 3)
      (seq 0 12).

(** Rising averages and nothing else: strength 10, no confirming
    source. *)
Definition weak_input : FusionInput :=
  mkFusionInput (Some 100) "neutral"
    (mkIndicators "neutral" (Some "neutral"%string) None None None "bullish" 1)
    quiet None.

(** A ticker that quotes 88 for every symbol: below the stop of
    [zec_long]. *)
Definition ticker_88 (_ : string) : result Ticker := Ok (mkTicker 88 0 0).

End MoreSamples.
(** * Properties *)

(** ** Facts about the Python numerics *)

Module PyNumFacts.

Lemma Qltb_lt (a b : Q) : Qltb a b = true <-> a < b.
Proof.
  unfold Qltb. rewrite negb_true_iff.
  split; intro H.
  - apply Qnot_le_lt. intro Hle. apply Qle_bool_iff in Hle. congruence.
  - destruct (Qle_bool b a) eqn:E; [|reflexivity].
    apply Qle_bool_iff in E. exfalso. exact (Qlt_not_le _ _ H E).
Qed.

Lemma Qltb_ge (a b : Q) : Qltb a b = false <-> b <= a.
Proof.
  unfold Qltb. rewrite negb_false_iff. apply Qle_bool_iff.
Qed.

Lemma Qleb_le (a b : Q) : Qleb a b = true <-> a <= b.
Proof. apply Qle_bool_iff. Qed.

Lemma Qleb_gt (a b : Q) : Qleb a b = false <-> b < a.
Proof.
  unfold Qleb. split; intro H.
  - apply Qnot_le_lt. intro Hle. apply Qle_bool_iff in Hle. congruence.
  - destruct (Qle_bool a b) eqn:E; [|reflexivity].
    apply Qle_bool_iff in E. exfalso. exact (Qlt_not_le _ _ H E).
Qed.

(** Case analysis on a comparison, leaving the order fact in the context. *)
Ltac cmp a b :=
  let E := fresh "E" in
  destruct (Qltb a b) eqn:E;
  [apply Qltb_lt in E | apply Qltb_ge in E].

Ltac cmple a b :=
  let E := fresh "E" in
  destruct (Qleb a b) eqn:E;
  [apply Qleb_le in E | apply Qleb_gt in E].

Lemma pymax_cases (a b : Q) :
  (a < b /\ pymax a b = b) \/ (b <= a /\ pymax a b = a).
Proof. unfold pymax. cmp a b; auto. Qed.

Lemma pymin_cases (a b : Q) :
  (b < a /\ pymin a b = b) \/ (a <= b /\ pymin a b = a).
Proof. unfold pymin. cmp b a; auto. Qed.

Lemma pymax_lub (a b : Q) : a <= pymax a b /\ b <= pymax a b.
Proof. destruct (pymax_cases a b) as [[H ->]|[H ->]]; split; lra. Qed.

Lemma pymin_glb (a b : Q) : pymin a b <= a /\ pymin a b <= b.
Proof. destruct (pymin_cases a b) as [[H ->]|[H ->]]; split; lra. Qed.

Lemma pymax_mono (a b a' b' : Q) :
  a <= a' -> b <= b' -> pymax a b <= pymax a' b'.
Proof.
  intros Ha Hb.
  destruct (pymax_cases a b) as [[H ->]|[H ->]];
  destruct (pymax_cases a' b') as [[H' ->]|[H' ->]]; lra.
Qed.

Lemma pymin_mono (a b a' b' : Q) :
  a <= a' -> b <= b' -> pymin a b <= pymin a' b'.
Proof.
  intros Ha Hb.
  destruct (pymin_cases a b) as [[H ->]|[H ->]];
  destruct (pymin_cases a' b') as [[H' ->]|[H' ->]]; lra.
Qed.

End PyNumFacts.
Import PyNumFacts.

(** ** Properties of the risk calibrator *)

Module RiskCalibratorProofs.
Import RiskCalibrator.

Lemma Qdiv_lt_iff (a b c : Q) : 0 < b -> (a / b < c <-> a < c * b).
Proof.
  intro Hb. split; intro H.
  - assert (Ha : a == (a / b) * b) by (field; lra).
    rewrite Ha. apply Qmult_lt_compat_r; assumption.
  - apply Qlt_shift_div_r; assumption.
Qed.

Lemma Qdiv_pos (a b : Q) : 0 < a -> 0 < b -> 0 < a / b.
Proof. intros Ha Hb. apply Qlt_shift_div_l; lra. Qed.

Lemma min_pcts_pos (atr_pct : Q) :
  0 < fst (min_pcts atr_pct) /\ 0 < snd (min_pcts atr_pct).
Proof.
  unfold min_pcts, base_min_sl_pct, base_min_tp_pct.
  cmp (15 # 10) atr_pct; [|cmp atr_pct (5 # 10)]; simpl; split; lra.
Qed.

Lemma stretch_target_spec (sl tp : Q) :
  0 < sl -> 0 < tp ->
  0 < stretch_target sl tp /\ target_rr * sl <= stretch_target sl tp.
Proof.
  intros Hsl Htp. unfold stretch_target, target_rr.
  cmp (tp / sl) 3.
  - split; lra.
  - split; [assumption|].
    destruct (Qlt_le_dec tp (3 * sl)) as [Hlt|Hge]; [|assumption].
    apply (Qdiv_lt_iff tp sl 3 Hsl) in Hlt. lra.
Qed.

Lemma widen_for_volatile_spec (atr_pct sl tp : Q) :
  0 < sl -> 0 < tp -> target_rr * sl <= tp ->
  let r := widen_for_volatile atr_pct sl tp in
  0 < fst r /\ 0 < snd r /\ target_rr * fst r <= snd r.
Proof.
  intros Hsl Htp Hrr. unfold widen_for_volatile, target_rr in *.
  cmp 1 atr_pct; simpl; [|repeat split; assumption].
  cmp tp 5; simpl; [|repeat split; assumption].
  set (m := pymin (atr_pct * 2) 5).
  cmp tp m; [|repeat split; assumption].
  cmp (3 * (12 # 10)) (m / sl); simpl.
  - repeat split; try lra.
    + apply Qdiv_pos; lra.
    + assert (Hm : 3 * (m / 3) == m) by (field). lra.
  - repeat split; lra.
Qed.

(** What the percentages returned by [calibrate_pcts] satisfy, whatever
    the volatility inputs are. *)
Lemma calibrate_pcts_spec (atr_pct vr : Q) :
  let p := calibrate_pcts atr_pct vr in
  0 < sl_pct p /\ 0 < tp_pct p /\
  sl_pct p <= max_sl_pct p /\ tp_pct p <= max_tp_pct p /\
  max_tp_pct p == 2 * max_sl_pct p /\
  tp_pct p == pymin (uncapped_tp_pct p) (max_tp_pct p) /\
  target_rr * uncapped_sl_pct p <= uncapped_tp_pct p /\
  sl_pct p <= uncapped_sl_pct p.
Proof.
  unfold calibrate_pcts.
  destruct (min_pcts atr_pct) as [msl mtp] eqn:Emin.
  pose proof (min_pcts_pos atr_pct) as [Hmsl Hmtp]. rewrite Emin in Hmsl, Hmtp.
  simpl in Hmsl, Hmtp.
  set (sl0 := pymax msl _). set (tp0 := pymax mtp _).
  assert (Hsl0 : 0 < sl0) by (pose proof (pymax_lub msl (atr_pct * (12 # 10) * vr)); subst sl0; lra).
  assert (Htp0 : 0 < tp0) by (pose proof (pymax_lub mtp (atr_pct * (15 # 10) * vr)); subst tp0; lra).
  destruct (stretch_target_spec sl0 tp0 Hsl0 Htp0) as [Htp1 Hrr1].
  pose proof (widen_for_volatile_spec atr_pct sl0 _ Hsl0 Htp1 Hrr1) as Hw.
  destruct (widen_for_volatile atr_pct sl0 (stretch_target sl0 tp0)) as [sl2 tp2].
  simpl in Hw. destruct Hw as (Hsl2 & Htp2 & Hrr2). simpl.
  pose proof (pymin_glb sl2 (cap_sl atr_pct)) as [Hs1 Hs2].
  pose proof (pymin_glb tp2 (cap_tp atr_pct)) as [Ht1 Ht2].
  assert (Hcaps : 0 < cap_sl atr_pct /\ cap_tp atr_pct == 2 * cap_sl atr_pct).
  { unfold cap_sl, cap_tp. cmp 1 atr_pct; split; lra. }
  destruct Hcaps as [Hcs Hct].
  repeat split; try assumption; try reflexivity.
  - destruct (pymin_cases sl2 (cap_sl atr_pct)) as [[_ ->]|[_ ->]]; lra.
  - destruct (pymin_cases tp2 (cap_tp atr_pct)) as [[_ ->]|[_ ->]]; lra.
Qed.

Lemma true_range_length (pc : Q) (ohlcv : list Candle) :
  length (true_range pc ohlcv) = length ohlcv.
Proof.
  revert pc. induction ohlcv as [|x rest IH]; intro pc; simpl; [reflexivity|].
  now rewrite IH.
Qed.

Lemma price_levels_values (is_long : bool) (entry sl tp : Q) :
  price_levels is_long entry sl tp =
  if is_long
  then (entry * (1 - sl / 100), entry * (1 + tp / 100))
  else (entry * (1 + sl / 100), entry * (1 - tp / 100)).
Proof.
  unfold price_levels. destruct is_long; simpl.
  - destruct (negb _); reflexivity.
  - destruct (negb _); reflexivity.
Qed.

Lemma price_levels_spec (is_long : bool) (entry sl tp : Q) :
  0 < entry -> 0 < sl -> 0 < tp ->
  let r := price_levels is_long entry sl tp in
  (is_long = true -> fst r < entry /\ entry < snd r) /\
  (is_long = false -> snd r < entry /\ entry < fst r) /\
  risk entry (fst r) == entry * sl / 100 /\
  reward entry (snd r) == entry * tp / 100.
Proof.
  intros He Hsl Htp. rewrite price_levels_values. unfold risk, reward.
  assert (Hks : 0 < entry * sl) by (apply Qmult_lt_0_compat; assumption).
  assert (Hkt : 0 < entry * tp) by (apply Qmult_lt_0_compat; assumption).
  assert (E1 : entry * (1 - sl / 100) == entry - entry * sl * (1 # 100)) by field.
  assert (E2 : entry * (1 + tp / 100) == entry + entry * tp * (1 # 100)) by field.
  assert (E3 : entry * (1 + sl / 100) == entry + entry * sl * (1 # 100)) by field.
  assert (E4 : entry * (1 - tp / 100) == entry - entry * tp * (1 # 100)) by field.
  assert (E5 : entry * sl / 100 == entry * sl * (1 # 100)) by field.
  assert (E6 : entry * tp / 100 == entry * tp * (1 # 100)) by field.
  destruct is_long; cbn [fst snd].
  - split; [intros _; split; lra|].
    split; [discriminate|].
    split; (etransitivity; [apply Qabs_pos; lra | lra]).
  - split; [discriminate|].
    split; [intros _; split; lra|].
    split; (etransitivity; [apply Qabs_neg; lra | lra]).
Qed.

(** Unfolding of the function on the path that returns levels. *)
Lemma calculate_scalping_sl_tp_levels
      (entry : Q) (direction : string) (leverage : Z)
      (timeframe : string) (candles_limit : Z) (ohlcv : list Candle) :
  0 < entry -> (50 <= length ohlcv)%nat ->
  let v := volatility entry (true_ranges ohlcv) in
  let p := calibrate_pcts (atr_pct v) (volatility_ratio v) in
  let r := price_levels (String.eqb direction "long") entry (sl_pct p) (tp_pct p) in
  let out := calculate_scalping_sl_tp entry direction leverage timeframe candles_limit ohlcv in
  stop_loss out = Some (fst r) /\ take_profit out = Some (snd r).
Proof.
  intros He Hlen. unfold calculate_scalping_sl_tp.
  assert (H1 : Qleb entry 0 = false) by (apply Qleb_gt; assumption).
  rewrite H1.
  assert (H2 : (length ohlcv <? 50)%nat = false) by (apply Nat.ltb_ge; assumption).
  rewrite H2.
  assert (H3 : (length (true_ranges ohlcv) <? period + 1)%nat = false).
  { unfold true_ranges. rewrite true_range_length. apply Nat.ltb_ge.
    unfold period. lia. }
  rewrite H3.
  destruct (price_levels _ _ _ _) as [sl tp]. simpl. split; reflexivity.
Qed.

Lemma calibrate_pcts_cap (a v : Q) :
  max_tp_pct (calibrate_pcts a v) = cap_tp a.
Proof.
  unfold calibrate_pcts.
  destruct (min_pcts a) as [msl mtp].
  destruct (widen_for_volatile a _ _) as [sl2 tp2]. reflexivity.
Qed.

Lemma scale_le (entry a b : Q) :
  0 < entry -> a <= b -> entry * a / 100 <= entry * b / 100.
Proof.
  intros He Hab.
  assert (H : entry * a <= entry * b).
  { rewrite (Qmult_comm entry a), (Qmult_comm entry b).
    apply Qmult_le_compat_r; lra. }
  assert (Ea : entry * a / 100 == entry * a * (1 # 100)) by field.
  assert (Eb : entry * b / 100 == entry * b * (1 # 100)) by field.
  lra.
Qed.

Lemma scale_lt_inv (entry a b : Q) :
  0 < entry -> entry * a / 100 < entry * b / 100 -> a < b.
Proof.
  intros He H.
  destruct (Qlt_le_dec a b) as [Hlt|Hge]; [assumption|].
  pose proof (scale_le entry b a He Hge). lra.
Qed.

(** C2: with a positive entry and at least 50 candles the calibrator
    returns levels, and they are ordered around the entry: stop below and
    target above for a long, target below and stop above for a short. *)
Theorem calibrator_levels_ordered
        (entry : Q) (direction : string) (leverage : Z)
        (timeframe : string) (candles_limit : Z) (ohlcv : list Candle) :
  0 < entry -> (50 <= length ohlcv)%nat ->
  let out := calculate_scalping_sl_tp entry direction leverage timeframe candles_limit ohlcv in
  exists sl tp,
    stop_loss out = Some sl /\ take_profit out = Some tp /\
    (direction = "long"%string -> sl < entry /\ entry < tp) /\
    (direction = "short"%string -> tp < entry /\ entry < sl).
Proof.
  intros He Hlen out.
  destruct (calculate_scalping_sl_tp_levels entry direction leverage timeframe
              candles_limit ohlcv He Hlen) as [Hsl Htp].
  set (v := volatility entry (true_ranges ohlcv)) in *.
  destruct (calibrate_pcts_spec (atr_pct v) (volatility_ratio v)) as (Hs & Ht & _).
  set (p := calibrate_pcts (atr_pct v) (volatility_ratio v)) in *.
  destruct (price_levels_spec (String.eqb direction "long") entry (sl_pct p) (tp_pct p)
              He Hs Ht) as (Hlong & Hshort & _).
  exists (fst (price_levels (String.eqb direction "long") entry (sl_pct p) (tp_pct p))).
  exists (snd (price_levels (String.eqb direction "long") entry (sl_pct p) (tp_pct p))).
  split; [exact Hsl|]. split; [exact Htp|]. split.
  - intros ->. apply Hlong. reflexivity.
  - intros ->. apply Hshort. reflexivity.
Qed.

Lemma calibrator_levels_ordered_witness :
  exists sl tp,
    stop_loss (calculate_scalping_sl_tp 100 "long" 5 "5m" 1440 Samples.calm_candles) = Some sl /\
    take_profit (calculate_scalping_sl_tp 100 "long" 5 "5m" 1440 Samples.calm_candles) = Some tp /\
    ("long"%string = "long"%string -> sl < 100 /\ 100 < tp) /\
    ("long"%string = "short"%string -> tp < 100 /\ 100 < sl).
Proof.
  apply (calibrator_levels_ordered 100 "long" 5 "5m" 1440 Samples.calm_candles).
  - reflexivity.
  - vm_compute. lia.
Defined.

(** C3, as stated, fails: on fifty candles of range 2 around an entry of
    100 the stop distance is 2.4% and the target is clipped to the 5% cap,
    a reward:risk ratio of about 2.08. *)
Lemma reward_risk_below_target_at_cap :
  exists sl tp m,
    stop_loss (calculate_scalping_sl_tp 100 "long" 5 "5m" 1440 Samples.wide_candles) = Some sl /\
    take_profit (calculate_scalping_sl_tp 100 "long" 5 "5m" 1440 Samples.wide_candles) = Some tp /\
    meta (calculate_scalping_sl_tp 100 "long" 5 "5m" 1440 Samples.wide_candles) = Calibrated m /\
    sl == 976 # 10 /\ tp == 105 /\
    m_sl_pct m == 24 # 10 /\ m_tp_pct m == 5 /\
    m_risk_reward_ratio m == 208 # 100 /\
    reward 100 tp / risk 100 sl < 21 # 10.
Proof.
  remember (calculate_scalping_sl_tp 100 "long" 5 "5m" 1440 Samples.wide_candles) as out eqn:E.
  vm_compute in E. subst out. cbn [stop_loss take_profit meta].
  do 3 eexists. split; [reflexivity|]. split; [reflexivity|]. split; [reflexivity|].
  cbn [m_sl_pct m_tp_pct m_risk_reward_ratio].
  repeat (split; [reflexivity|]).
  vm_compute. reflexivity.
Qed.

(** C3, amended: the target is never less than twice the stop distance,
    and it is at least [target_rr] (3.0) times the stop distance whenever
    the target stays strictly below its hard cap ([cap_tp]: 4% of entry,
    5% when [atr_pct > 1]). *)
Theorem reward_risk_at_least_target_below_cap
        (entry : Q) (direction : string) (leverage : Z)
        (timeframe : string) (candles_limit : Z) (ohlcv : list Candle) :
  0 < entry -> (50 <= length ohlcv)%nat ->
  let out := calculate_scalping_sl_tp entry direction leverage timeframe candles_limit ohlcv in
  let v := volatility entry (true_ranges ohlcv) in
  exists sl tp,
    stop_loss out = Some sl /\ take_profit out = Some tp /\
    0 < risk entry sl /\
    2 * risk entry sl <= reward entry tp /\
    (reward entry tp < entry * cap_tp (atr_pct v) / 100 ->
     target_rr * risk entry sl <= reward entry tp).
Proof.
  intros He Hlen out v.
  destruct (calculate_scalping_sl_tp_levels entry direction leverage timeframe
              candles_limit ohlcv He Hlen) as [Hsl Htp].
  fold v in Hsl, Htp.
  destruct (calibrate_pcts_spec (atr_pct v) (volatility_ratio v))
    as (Hs & Ht & Hsmax & Htmax & Hcaps & Htmin & Hrr & Hsu).
  pose proof (calibrate_pcts_cap (atr_pct v) (volatility_ratio v)) as Hcap.
  set (p := calibrate_pcts (atr_pct v) (volatility_ratio v)) in *.
  destruct (price_levels_spec (String.eqb direction "long") entry (sl_pct p) (tp_pct p)
              He Hs Ht) as (_ & _ & Hrisk & Hreward).
  set (r := price_levels (String.eqb direction "long") entry (sl_pct p) (tp_pct p)) in *.
  exists (fst r), (snd r).
  split; [exact Hsl|]. split; [exact Htp|].
  unfold target_rr in *.
  assert (H2 : 2 * sl_pct p <= tp_pct p).
  { destruct (pymin_cases (uncapped_tp_pct p) (max_tp_pct p)) as [[_ Hm]|[_ Hm]];
      rewrite Hm in Htmin; lra. }
  pose proof (scale_le entry (2 * sl_pct p) (tp_pct p) He H2) as H2'.
  assert (E2 : entry * (2 * sl_pct p) / 100 == 2 * (entry * sl_pct p / 100)) by field.
  assert (Hpos : 0 < entry * sl_pct p / 100).
  { assert (0 < entry * sl_pct p) by (apply Qmult_lt_0_compat; assumption).
    assert (Ex : entry * sl_pct p / 100 == entry * sl_pct p * (1 # 100)) by field.
    lra. }
  split; [lra|]. split; [lra|].
  intro Hbelow. rewrite Hreward, <- Hcap in Hbelow.
  apply (scale_lt_inv entry _ _ He) in Hbelow.
  assert (H3 : 3 * sl_pct p <= tp_pct p).
  { destruct (pymin_cases (uncapped_tp_pct p) (max_tp_pct p)) as [[_ Hm]|[_ Hm]];
      rewrite Hm in Htmin; lra. }
  pose proof (scale_le entry (3 * sl_pct p) (tp_pct p) He H3) as H3'.
  assert (E3 : entry * (3 * sl_pct p) / 100 == 3 * (entry * sl_pct p / 100)) by field.
  lra.
Qed.

Lemma reward_risk_at_least_target_below_cap_witness :
  exists sl tp,
    stop_loss (calculate_scalping_sl_tp 100 "short" 5 "5m" 1440 Samples.calm_candles) = Some sl /\
    take_profit (calculate_scalping_sl_tp 100 "short" 5 "5m" 1440 Samples.calm_candles) = Some tp /\
    0 < risk 100 sl /\
    2 * risk 100 sl <= reward 100 tp /\
    (reward 100 tp
       < 100 * cap_tp (atr_pct (volatility 100 (true_ranges Samples.calm_candles))) / 100 ->
     target_rr * risk 100 sl <= reward 100 tp).
Proof.
  apply (reward_risk_at_least_target_below_cap 100 "short" 5 "5m" 1440 Samples.calm_candles).
  - reflexivity.
  - vm_compute. lia.
Defined.

End RiskCalibratorProofs.

(** ** Properties of the fusion scorer, the filters and the decision engine *)

Module FusionProofs.
Import Fusion Engine Samples.

(** The band table gives probability 0 to a neutral signal, and the
    low-confirmation adjustment leaves 0 alone. *)
Lemma score_neutral_zero (s q : Q) (c : nat) :
  fst (score s q c) = "neutral"%string -> snd (score s q c) = 0.
Proof.
  unfold score, band.
  destruct (Qltb 30 s); [discriminate|].
  destruct (Qltb 15 s); [discriminate|].
  destruct (Qltb s (- (30))); [discriminate|].
  destruct (Qltb s (- (15))); [discriminate|].
  destruct (Qltb 5 (Qabs s)).
  - destruct (Qltb 0 s); discriminate.
  - intros _. cbn [snd]. unfold adjust.
    replace (Qltb 0 0) with false by reflexivity.
    now rewrite andb_false_r.
Qed.

Lemma analyze_market_neutral_zero (i : FusionInput) (a : Analysis) :
  analyze_market i = Ok a ->
  final_signal a = "neutral"%string -> probability a = 0.
Proof.
  unfold analyze_market. destruct (confirmation_sources i) as [cs|e]; [|discriminate].
  cbn [bind].
  pose proof (score_neutral_zero (signal_strength (votes i))
                (quality_bonus (vote_labels (votes i))) (length cs)) as H.
  destruct (score _ _ _) as [fs pr]. intro E. injection E as <-. exact H.
Qed.

(** Both cancellation rules set the probability to 0 together with the
    neutral signal. *)
Lemma cancellation_neutral_zero (a : Analysis) (ohlcv : list Candle) (ob : OrderBook) :
  (final_signal a = "neutral"%string -> probability a = 0) ->
  final_signal (_check_signal_cancellation a ohlcv ob) = "neutral"%string ->
  probability (_check_signal_cancellation a ohlcv ob) = 0.
Proof.
  intro Inv. unfold _check_signal_cancellation.
  destruct (String.eqb (final_signal a) "neutral") eqn:En.
  - intros _. apply Inv. now apply String.eqb_eq.
  - assert (Hn : final_signal a <> "neutral"%string) by (now apply String.eqb_neq).
    repeat match goal with
           | |- context [match ?x with _ => _ end] => destruct x
           end; cbn; intros; try reflexivity; contradiction.
Qed.

(** C6 fails on the code: the trend filter forces the signal to neutral
    and keeps the penalised probability.  The long signal of
    [long_input] (probability 61.1875) meets a bearish four-hour trend
    and comes out neutral with probability 46.1875. *)
Theorem trend_filter_neutral_keeps_probability :
  exists a d p,
    analyze_and_trade calm_candles empty_book 100 long_input quiet falling_4h
      = Analysed a d p /\
    final_signal a = "neutral"%string /\
    cancellation_reason a = Some (AgainstTrend4h "bearish") /\
    probability a == 461875 # 10000 /\
    ~ probability a == 0.
Proof.
  remember (analyze_and_trade calm_candles empty_book 100 long_input quiet falling_4h)
    as o eqn:E.
  vm_compute in E. subst o.
  do 3 eexists. split; [reflexivity|].
  cbn [final_signal cancellation_reason probability].
  split; [reflexivity|]. split; [reflexivity|]. split; [reflexivity|].
  intro H. discriminate H.
Qed.

(** C9: the strong-order-flow escape hatch opens in the direction of the
    order flow whatever the fused signal says.  A long forced to neutral
    by a bearish four-hour trend still opens long, its mirror image opens
    short, and a fused [short] weakened by an indicator conflict opens
    long. *)
Theorem order_flow_escape_hatch_ignores_fused_signal :
  (exists ohlcv ob last ltf htf ohlcv_4h a d p,
      analyze_and_trade ohlcv ob last ltf htf ohlcv_4h = Analysed a d p /\
      final_signal a = "neutral"%string /\
      cancellation_reason a = Some (AgainstTrend4h "bearish") /\
      25 # 10 <= of_strength (order_flow (a_advanced_analysis a)) /\
      40 <= probability a /\
      action d = "open_long"%string /\ reason d = StrongOrderFlowLong) /\
  (exists ohlcv ob last ltf htf ohlcv_4h a d p,
      analyze_and_trade ohlcv ob last ltf htf ohlcv_4h = Analysed a d p /\
      final_signal a = "neutral"%string /\
      cancellation_reason a = Some (AgainstTrend4h "bullish") /\
      25 # 10 <= of_strength (order_flow (a_advanced_analysis a)) /\
      40 <= probability a /\
      action d = "open_short"%string /\ reason d = StrongOrderFlowShort) /\
  (exists ohlcv ob last ltf htf ohlcv_4h a d p,
      analyze_and_trade ohlcv ob last ltf htf ohlcv_4h = Analysed a d p /\
      final_signal a = "short"%string /\
      cancellation_reason a = None /\
      25 # 10 <= of_strength (order_flow (a_advanced_analysis a)) /\
      action d = "open_long"%string /\ reason d = StrongOrderFlowLong).
Proof.
  split; [|split].
  - exists calm_candles, empty_book, 100, long_input, quiet, falling_4h.
    remember (analyze_and_trade calm_candles empty_book 100 long_input quiet falling_4h)
      as o eqn:E.
    vm_compute in E. subst o.
    do 3 eexists. split; [reflexivity|]. cbn.
    repeat split; try reflexivity; unfold Qle; cbn; lia.
  - exists calm_candles, empty_book, 100, short_input, quiet, rising_4h.
    remember (analyze_and_trade calm_candles empty_book 100 short_input quiet rising_4h)
      as o eqn:E.
    vm_compute in E. subst o.
    do 3 eexists. split; [reflexivity|]. cbn.
    repeat split; try reflexivity; unfold Qle; cbn; lia.
  - exists calm_candles, empty_book, 100, mixed_input, quiet, (@nil Candle).
    remember (analyze_and_trade calm_candles empty_book 100 mixed_input quiet [])
      as o eqn:E.
    vm_compute in E. subst o.
    do 3 eexists. split; [reflexivity|]. cbn.
    repeat split; try reflexivity; unfold Qle; cbn; lia.
Qed.

(** *** Monotonicity of the probability in the confirmation count *)

Lemma score_fst (s q q' : Q) (c c' : nat) :
  fst (score s q c) = fst (score s q' c').
Proof.
  unfold score, band.
  destruct (Qltb 30 s); [reflexivity|].
  destruct (Qltb 15 s); [reflexivity|].
  destruct (Qltb s (- (30))); [reflexivity|].
  destruct (Qltb s (- (15))); [reflexivity|].
  destruct (Qltb 5 (Qabs s)); reflexivity.
Qed.

Lemma score_snd (s q : Q) (c : nat) :
  snd (score s q c) = adjust (snd (band s (raw_probability s q c) c)) c.
Proof. unfold score. destruct (band _ _ _). reflexivity. Qed.

Lemma inject_nat_le (c c' : nat) :
  (c <= c')%nat -> inject_Z (Z.of_nat c) <= inject_Z (Z.of_nat c').
Proof. intro H. rewrite <- Zle_Qle. lia. Qed.

Lemma raw_probability_mono (s q : Q) (c c' : nat) :
  (c <= c')%nat -> raw_probability s q c <= raw_probability s q c'.
Proof.
  intro H. apply inject_nat_le in H. unfold raw_probability.
  set (x := inject_Z (Z.of_nat c)) in *. set (x' := inject_Z (Z.of_nat c')) in *.
  assert (Hb : pymin (x * 5) 20 <= pymin (x' * 5) 20) by (apply pymin_mono; lra).
  assert (Hp : pymax 0 ((inject_Z (Z.of_nat min_confirmations_required) - x') * 10)
               <= pymax 0 ((inject_Z (Z.of_nat min_confirmations_required) - x) * 10))
    by (apply pymax_mono; lra).
  lra.
Qed.

Lemma band_enough_mono (s r r' : Q) (c c' : nat) :
  (3 <= c)%nat -> (3 <= c')%nat -> r <= r' ->
  snd (band s r c) <= snd (band s r' c').
Proof.
  intros Hc Hc' Hr. unfold band, min_confirmations_required.
  apply Nat.leb_le in Hc, Hc'. rewrite Hc, Hc'.
  destruct (Qltb 30 s); [cbn [snd]; apply pymin_mono; lra|].
  destruct (Qltb 15 s); [cbn [snd]; apply pymin_mono; lra|].
  destruct (Qltb s (- (30))); [cbn [snd]; apply pymin_mono; lra|].
  destruct (Qltb s (- (15))); [cbn [snd]; apply pymin_mono; lra|].
  destruct (Qltb 5 (Qabs s)); cbn [snd]; [|lra].
  apply pymax_mono; [lra|]. apply pymin_mono; lra.
Qed.

Lemma adjust_enough (p : Q) (c : nat) : (3 <= c)%nat -> adjust p c = p.
Proof.
  intro H. unfold adjust, min_confirmations_required.
  apply Nat.leb_le in H. rewrite H. reflexivity.
Qed.

Lemma score_step_high (s q : Q) (c : nat) :
  (3 <= c)%nat -> snd (score s q c) <= snd (score s q (S c)).
Proof.
  intro H. rewrite !score_snd, !adjust_enough by lia.
  apply band_enough_mono; try lia. apply raw_probability_mono. lia.
Qed.

(** Destruct the innermost comparison of the goal. *)
Ltac innermost_cmp :=
  match goal with
  | |- context [Qltb ?a ?b] =>
      lazymatch a with
      | context [Qltb _ _] => fail
      | _ => lazymatch b with
             | context [Qltb _ _] => fail
             | _ => cmp a b
             end
      end
  end.

Ltac by_cases := cbn [fst snd]; repeat innermost_cmp; try lra.

(** Replace the closed numerals that depend on the count only. *)
Ltac count_consts c :=
  let cc := constr:(inject_Z (Z.of_nat c)) in
  let rq := constr:(inject_Z (Z.of_nat min_confirmations_required)) in
  let v1 := eval vm_compute in (pymin (cc * 5) 20) in
  change (pymin (cc * 5) 20) with v1;
  let v2 := eval vm_compute in (pymax 0 ((rq - cc) * 10)) in
  change (pymax 0 ((rq - cc) * 10)) with v2;
  let v3 := eval vm_compute in (pymax (3 # 10) (cc / rq)) in
  change (pymax (3 # 10) (cc / rq)) with v3;
  let v4 := eval vm_compute in (pymax (4 # 10) (cc / rq)) in
  change (pymax (4 # 10) (cc / rq)) with v4;
  let v5 := eval vm_compute in (min_confirmations_required <=? c)%nat in
  change (min_confirmations_required <=? c)%nat with v5.

Lemma score_step_low (s q : Q) (c : nat) :
  0 <= q -> (c < 3)%nat -> snd (score s q c) <= snd (score s q (S c)).
Proof.
  intros Hq Hc. rewrite !score_snd.
  assert (Hb : 0 <= pymin (Qabs s * (15 # 10)) 70).
  { pose proof (Qabs_nonneg s).
    destruct (pymin_cases (Qabs s * (15 # 10)) 70) as [[_ ->]|[_ ->]]; lra. }
  destruct c as [|[|[|c]]]; [| | |lia];
    unfold adjust, band, raw_probability.
  - count_consts 0%nat. count_consts 1%nat.
    set (b := pymin (Qabs s * (15 # 10)) 70) in *. clearbody b.
    cbn [negb andb]. unfold pymax, pymin.
    destruct (Qltb 30 s); [by_cases|].
    destruct (Qltb 15 s); [by_cases|].
    destruct (Qltb s (- (30))); [by_cases|].
    destruct (Qltb s (- (15))); [by_cases|].
    destruct (Qltb 5 (Qabs s)); by_cases.
  - count_consts 1%nat. count_consts 2%nat.
    set (b := pymin (Qabs s * (15 # 10)) 70) in *. clearbody b.
    cbn [negb andb]. unfold pymax, pymin.
    destruct (Qltb 30 s); [by_cases|].
    destruct (Qltb 15 s); [by_cases|].
    destruct (Qltb s (- (30))); [by_cases|].
    destruct (Qltb s (- (15))); [by_cases|].
    destruct (Qltb 5 (Qabs s)); by_cases.
  - count_consts 2%nat. count_consts 3%nat.
    set (b := pymin (Qabs s * (15 # 10)) 70) in *. clearbody b.
    cbn [negb andb]. unfold pymax, pymin.
    destruct (Qltb 30 s); [by_cases|].
    destruct (Qltb 15 s); [by_cases|].
    destruct (Qltb s (- (30))); [by_cases|].
    destruct (Qltb s (- (15))); [by_cases|].
    destruct (Qltb 5 (Qabs s)); by_cases.
Qed.

Lemma score_mono (s q : Q) (c c' : nat) :
  0 <= q -> (c <= c')%nat -> snd (score s q c) <= snd (score s q c').
Proof.
  intros Hq H. induction H as [|m H IH]; [lra|].
  apply Qle_trans with (snd (score s q m)); [exact IH|].
  destruct (lt_dec m 3) as [Hlt|Hge].
  - apply score_step_low; assumption.
  - apply score_step_high. lia.
Qed.

Lemma quality_bonus_nonneg (labels : list string) : 0 <= quality_bonus labels.
Proof.
  unfold quality_bonus.
  destruct (existsb (contains "divergence") labels);
    destruct (existsb (contains "liquidity_sweep") labels); lra.
Qed.

Lemma tag_length (b : bool) (name : string) : length (tag b name) = b2n b.
Proof. destruct b; reflexivity. Qed.

Lemma confirmation_sources_length (i : FusionInput) (cs : list string) :
  confirmation_sources i = Ok cs ->
  length cs = (b2n (candle_confirms i) + b2n (has_level_confirmation i)
               + b2n (order_flow_confirms i) + b2n (rsi_confirms i)
               + b2n (macd_source_confirms i))%nat.
Proof.
  unfold confirmation_sources, macd_source_confirms.
  destruct (macd (indicators i)) as [st|]; [|discriminate].
  intro E. injection E as <-.
  rewrite !length_app, !tag_length. lia.
Qed.

(** What [analyze_market] reports, in terms of the scoring functions. *)
Lemma analyze_market_report (i : FusionInput) (a : Analysis) :
  analyze_market i = Ok a ->
  exists cs,
    confirmation_sources i = Ok cs /\
    count (confirmations a) = length cs /\
    sources (confirmations a) = cs /\
    final_signal a
      = fst (score (signal_strength (votes i)) (quality_bonus (vote_labels (votes i)))
                   (length cs)) /\
    probability a
      = snd (score (signal_strength (votes i)) (quality_bonus (vote_labels (votes i)))
                   (length cs)).
Proof.
  unfold analyze_market. destruct (confirmation_sources i) as [cs|e]; [|discriminate].
  cbn [bind]. destruct (score _ _ _) as [fs pr] eqn:Es.
  intro E. injection E as <-. exists cs. rewrite Es. cbn. repeat split.
Qed.

Lemma b2n_le (b b' : bool) : (b = true -> b' = true) -> (b2n b <= b2n b')%nat.
Proof.
  destruct b, b'; cbn; intro H; try lia;
    try (specialize (H eq_refl); discriminate H).
Qed.

(** C7: when every source that confirms for [i] also confirms for [i'],
    the confirmation count of [i'] is at least that of [i]; and with the
    signal strength and the quality bonus fixed, the band is the same and
    the probability does not decrease when the count grows, across the
    three-confirmation boundary too. *)
Theorem confirmation_counting_monotone (i i' : FusionInput) (a a' : Analysis) :
  analyze_market i = Ok a -> analyze_market i' = Ok a' ->
  ((candle_confirms i = true -> candle_confirms i' = true) ->
   (has_level_confirmation i = true -> has_level_confirmation i' = true) ->
   (order_flow_confirms i = true -> order_flow_confirms i' = true) ->
   (rsi_confirms i = true -> rsi_confirms i' = true) ->
   (macd_source_confirms i = true -> macd_source_confirms i' = true) ->
   (count (confirmations a) <= count (confirmations a'))%nat) /\
  (signal_strength (votes i) = signal_strength (votes i') ->
   quality_bonus (vote_labels (votes i)) = quality_bonus (vote_labels (votes i')) ->
   (count (confirmations a) <= count (confirmations a'))%nat ->
   final_signal a = final_signal a' /\ probability a <= probability a').
Proof.
  intros Ha Ha'.
  destruct (analyze_market_report i a Ha) as (cs & Hcs & Hn & _ & Hf & Hp).
  destruct (analyze_market_report i' a' Ha') as (cs' & Hcs' & Hn' & _ & Hf' & Hp').
  split.
  - intros H1 H2 H3 H4 H5.
    rewrite Hn, Hn', (confirmation_sources_length i cs Hcs),
      (confirmation_sources_length i' cs' Hcs').
    pose proof (b2n_le _ _ H1). pose proof (b2n_le _ _ H2).
    pose proof (b2n_le _ _ H3). pose proof (b2n_le _ _ H4).
    pose proof (b2n_le _ _ H5). lia.
  - intros Hs Hq Hle. rewrite Hn, Hn' in Hle.
    rewrite Hf, Hf', Hp, Hp', <- Hs, <- Hq. split.
    + apply score_fst.
    + apply score_mono; [apply quality_bonus_nonneg | exact Hle].
Qed.

Lemma confirmation_counting_monotone_witness :
  exists a a',
    analyze_market two_source_input = Ok a /\
    analyze_market three_source_input = Ok a' /\
    count (confirmations a) = 2%nat /\ count (confirmations a') = 3%nat /\
    final_signal a = final_signal a' /\ probability a <= probability a'.
Proof.
  destruct (analyze_market two_source_input) as [a|e] eqn:E;
    [|vm_compute in E; discriminate E].
  destruct (analyze_market three_source_input) as [a'|e'] eqn:E';
    [|vm_compute in E'; discriminate E'].
  exists a, a'. split; [reflexivity|]. split; [reflexivity|].
  destruct (confirmation_counting_monotone two_source_input three_source_input a a' E E')
    as [Hcount Hprob].
  assert (Hle : (count (confirmations a) <= count (confirmations a'))%nat).
  { apply Hcount; vm_compute; intro H; first [reflexivity | discriminate H]. }
  assert (H2 : count (confirmations a) = 2%nat).
  { vm_compute in E. injection E as <-. reflexivity. }
  assert (H3 : count (confirmations a') = 3%nat).
  { vm_compute in E'. injection E' as <-. reflexivity. }
  split; [exact H2|]. split; [exact H3|].
  apply Hprob; [vm_compute; reflexivity | vm_compute; reflexivity | exact Hle].
Defined.

End FusionProofs.

(** ** Properties of the change-of-character detector *)

Module StructureBreaksProofs.
Import StructureBreaks Samples.

Lemma list_sum_ones {A : Type} (l : list A) :
  list_sum (map (fun _ => 1%nat) l) = length l.
Proof.
  unfold list_sum. induction l as [|x l IH]; cbn; [reflexivity|].
  now rewrite IH.
Qed.

Lemma count_steps_filter (test : Q -> Q -> bool) (xs : list Q) :
  count_steps test xs
  = length (filter (step_at test xs) (seq 1 (length xs - 1))).
Proof. unfold count_steps. apply list_sum_ones. Qed.

(** Distinct positions that all pass the test are all counted. *)
Lemma count_steps_ge (test : Q -> Q -> bool) (xs : list Q) (l : list nat) :
  NoDup l ->
  (forall i, In i l -> (1 <= i < length xs)%nat /\ step_at test xs i = true) ->
  (length l <= count_steps test xs)%nat.
Proof.
  intros Hnd Hall. rewrite count_steps_filter.
  apply NoDup_incl_length; [exact Hnd|].
  intros i Hi. destruct (Hall i Hi) as [Hr Ht].
  apply filter_In. split; [|exact Ht].
  apply in_seq. lia.
Qed.

Lemma three_distinct (k : nat) : NoDup [k + 1; k + 2; k + 3]%nat.
Proof.
  repeat constructor; cbn; intuition lia.
Qed.

Lemma two_distinct (k : nat) : NoDup [k + 4; k + 5]%nat.
Proof.
  repeat constructor; cbn; intuition lia.
Qed.

Lemma run_counts (test : Q -> Q -> bool) (xs : list Q) (k : nat) :
  (k + 5 < length xs)%nat ->
  step_at test xs (k + 1) = true -> step_at test xs (k + 2) = true ->
  step_at test xs (k + 3) = true ->
  (3 <= count_steps test xs)%nat.
Proof.
  intros Hk H1 H2 H3.
  apply (count_steps_ge test xs [k + 1; k + 2; k + 3]%nat (three_distinct k)).
  intros i [<-|[<-|[<-|[]]]]; (split; [lia|assumption]).
Qed.

Lemma reversal_counts (test : Q -> Q -> bool) (xs : list Q) (k : nat) :
  (k + 5 < length xs)%nat ->
  step_at test xs (k + 4) = true -> step_at test xs (k + 5) = true ->
  (2 <= count_steps test xs)%nat.
Proof.
  intros Hk H1 H2.
  apply (count_steps_ge test xs [k + 4; k + 5]%nat (two_distinct k)).
  intros i [<-|[<-|[]]]; (split; [lia|assumption]).
Qed.

Lemma choch_of_fires (hh ll : nat) :
  choch_of hh ll <> None <->
  ((3 <= hh)%nat /\ (2 <= ll)%nat) \/ ((3 <= ll)%nat /\ (2 <= hh)%nat).
Proof.
  unfold choch_of.
  destruct (3 <=? hh)%nat eqn:E1; destruct (2 <=? ll)%nat eqn:E2;
    destruct (3 <=? ll)%nat eqn:E3; destruct (2 <=? hh)%nat eqn:E4; cbn;
    repeat match goal with
           | H : (_ <=? _)%nat = true |- _ => apply Nat.leb_le in H
           | H : (_ <=? _)%nat = false |- _ => apply Nat.leb_gt in H
           end;
    (split; [intro H; try (exfalso; apply H; reflexivity); lia
            | intro H; try discriminate; lia]).
Qed.

Lemma fires_iff (ohlcv : list Candle) :
  (20 <= length ohlcv)%nat ->
  fires ohlcv = true <->
  choch_of (count_steps rises (map high (lastn 10 ohlcv)))
           (count_steps falls (map low (lastn 10 ohlcv))) <> None.
Proof.
  intro Hlen. unfold fires, detect_bos_choch.
  assert (E : (length ohlcv <? 20)%nat = false) by (apply Nat.ltb_ge; exact Hlen).
  rewrite E. cbn [r_choch].
  destruct (choch_of _ _); split; intro H; try reflexivity; try discriminate.
  exfalso. apply H. reflexivity.
Qed.

(** C8, as stated, fails: on a zigzag of highs and lows the detector
    reports a change of character although no run of three higher highs
    (or three lower lows) exists in the window. *)
Lemma choch_fires_without_run :
  fires zigzag_candles = true /\
  run_then_reversal (lastn 10 zigzag_candles) = false.
Proof. split; vm_compute; reflexivity. Qed.

(** C8, amended: on at least 20 candles the detector fires exactly when,
    among the nine candle-to-candle steps of the last ten candles, at
    least three are higher highs and at least two are lower lows, or at
    least three are lower lows and at least two are higher highs, in any
    order; a run of three higher highs immediately followed by two lower
    lows (or the mirror image) is one way to meet the counts. *)
Theorem choch_fires_on_step_counts (ohlcv : list Candle) :
  (20 <= length ohlcv)%nat ->
  let window := lastn 10 ohlcv in
  let higher_highs := count_steps rises (map high window) in
  let lower_lows := count_steps falls (map low window) in
  (fires ohlcv = true <->
   ((3 <= higher_highs)%nat /\ (2 <= lower_lows)%nat)
   \/ ((3 <= lower_lows)%nat /\ (2 <= higher_highs)%nat)) /\
  (run_then_reversal window = true -> fires ohlcv = true).
Proof.
  intros Hlen window hh ll.
  assert (Hiff : fires ohlcv = true <->
                 ((3 <= hh)%nat /\ (2 <= ll)%nat) \/ ((3 <= ll)%nat /\ (2 <= hh)%nat)).
  { rewrite (fires_iff ohlcv Hlen). apply choch_of_fires. }
  split; [exact Hiff|].
  intro Hrun. apply Hiff.
  unfold run_then_reversal in Hrun. apply existsb_exists in Hrun.
  destruct Hrun as (k & Hk & Hpat). apply in_seq in Hk.
  assert (Hh : (k + 5 < length (map high window))%nat) by (rewrite length_map; lia).
  assert (Hl : (k + 5 < length (map low window))%nat) by (rewrite length_map; lia).
  unfold run_then_reversal_at in Hpat.
  apply orb_true_iff in Hpat. destruct Hpat as [Hp|Hp];
    repeat (apply andb_true_iff in Hp; destruct Hp as [Hp ?]).
  - left. split.
    + apply (run_counts rises _ k); assumption.
    + apply (reversal_counts falls _ k); assumption.
  - right. split.
    + apply (run_counts falls _ k); assumption.
    + apply (reversal_counts rises _ k); assumption.
Qed.

Lemma choch_fires_on_step_counts_witness :
  (fires reversal_candles = true <->
   ((3 <= count_steps rises (map high (lastn 10 reversal_candles)))%nat
    /\ (2 <= count_steps falls (map low (lastn 10 reversal_candles)))%nat)
   \/ ((3 <= count_steps falls (map low (lastn 10 reversal_candles)))%nat
       /\ (2 <= count_steps rises (map high (lastn 10 reversal_candles)))%nat)) /\
  (run_then_reversal (lastn 10 reversal_candles) = true ->
   fires reversal_candles = true).
Proof.
  apply (choch_fires_on_step_counts reversal_candles).
  vm_compute. lia.
Defined.

End StructureBreaksProofs.

(** ** The volume profile on candles without a price range *)

Module LiquidityPoolsProofs.
Import LiquidityPools Samples.

Lemma pymin_either (a b : Q) : pymin a b = a \/ pymin a b = b.
Proof. unfold pymin. destruct (Qltb b a); auto. Qed.

Lemma pymax_either (a b : Q) : pymax a b = a \/ pymax a b = b.
Proof. unfold pymax. destruct (Qltb a b); auto. Qed.

Lemma fold_either_all_eq (f : Q -> Q -> Q) (p : Q) :
  (forall a b, f a b = a \/ f a b = b) ->
  forall (l : list Q) (init : Q),
    init == p -> (forall x, In x l -> x == p) -> fold_left f l init == p.
Proof.
  intros Hf l. induction l as [|x l IH]; intros init Hi Hall; cbn; [exact Hi|].
  apply IH.
  - destruct (Hf init x) as [-> | ->]; [exact Hi|]. apply Hall. now left.
  - intros y Hy. apply Hall. now right.
Qed.

Lemma column_all_eq (f : Q -> Q -> Q) (p : Q) (xs : list Q) :
  (forall a b, f a b = a \/ f a b = b) ->
  xs <> [] -> (forall x, In x xs -> x == p) ->
  fold_left f (tl xs) (hd 0 xs) == p.
Proof.
  intros Hf Hne Hall. destruct xs as [|x xs]; [contradiction|]. cbn [hd tl].
  apply fold_either_all_eq; [exact Hf | apply Hall; now left |].
  intros y Hy. apply Hall. now right.
Qed.

Lemma Qeqb_true (a b : Q) : a == b -> Qeqb a b = true.
Proof. intro H. apply Qeq_bool_iff. exact H. Qed.

(** Whenever all highs and lows of at least ten candles coincide, the
    bucket size is zero, the first bucket index is 0/0 and the analysis
    raises. *)
Lemma zero_range_raises (ohlcv : list Candle) (p : Q) :
  (10 <= length ohlcv)%nat ->
  (forall c, In c ohlcv -> high c == p /\ low c == p) ->
  analyze_liquidity_pools ohlcv = Raise ValueError.
Proof.
  intros Hlen Hflat. unfold analyze_liquidity_pools.
  assert (E : (length ohlcv <? 10)%nat = false) by (apply Nat.ltb_ge; exact Hlen).
  rewrite E.
  destruct ohlcv as [|c0 rest] eqn:Eo; [cbn in Hlen; lia|]. rewrite <- Eo in *.
  assert (Hne_l : map low ohlcv <> []) by (rewrite Eo; discriminate).
  assert (Hne_h : map high ohlcv <> []) by (rewrite Eo; discriminate).
  assert (Hmin : column_min (map low ohlcv) == p).
  { apply column_all_eq; [apply pymin_either | exact Hne_l |].
    intros x Hx. apply in_map_iff in Hx. destruct Hx as (c & <- & Hc).
    apply (Hflat c Hc). }
  assert (Hmax : column_max (map high ohlcv) == p).
  { apply column_all_eq; [apply pymax_either | exact Hne_h |].
    intros x Hx. apply in_map_iff in Hx. destruct Hx as (c & <- & Hc).
    apply (Hflat c Hc). }
  set (low_min := column_min (map low ohlcv)) in *.
  set (level_size := (column_max (map high ohlcv) - low_min) / num_levels).
  assert (Hls : level_size == 0).
  { unfold level_size, num_levels.
    assert (H0 : column_max (map high ohlcv) - low_min == 0) by lra.
    rewrite H0. reflexivity. }
  assert (Hc0 : low c0 - low_min == 0).
  { destruct (Hflat c0) as [_ Hl]; [rewrite Eo; now left|]. lra. }
  rewrite Eo at 1. cbn [build_profile]. unfold bucket, np_div.
  rewrite (Qeqb_true _ _ Hls), (Qeqb_true _ _ Hc0). reflexivity.
Qed.

(** C10: on twelve candles whose highs and lows are all 100 the bucket
    size is zero, the bucket index of every candle is the NaN of 0/0,
    its conversion to an integer raises, and [analyze_liquidity_pools]
    raises instead of returning a report or the empty result. *)
Theorem liquidity_pools_raise_on_zero_range :
  exists ohlcv : list Candle,
    (10 <= length ohlcv)%nat /\
    (forall c c', In c ohlcv -> In c' ohlcv -> high c == low c') /\
    (let low_min := column_min (map low ohlcv) in
     let level_size := (column_max (map high ohlcv) - low_min) / num_levels in
     level_size == 0 /\
     (forall c, In c ohlcv -> np_div (low c - low_min) level_size = NaN)) /\
    py_int NaN = Raise ValueError /\
    analyze_liquidity_pools ohlcv = Raise ValueError.
Proof.
  exists flat_candles.
  assert (Hall : forall c, In c flat_candles -> c = mkCandle 0 100 100 100 100 5).
  { intros c Hc. unfold flat_candles in Hc. now apply repeat_spec in Hc. }
  split; [vm_compute; lia|].
  split.
  { intros c c' Hc Hc'. rewrite (Hall c Hc), (Hall c' Hc'). reflexivity. }
  split.
  { split; [vm_compute; reflexivity|].
    intros c Hc. rewrite (Hall c Hc). vm_compute. reflexivity. }
  split; [reflexivity|].
  apply (zero_range_raises flat_candles 100).
  - vm_compute. lia.
  - intros c Hc. rewrite (Hall c Hc). split; reflexivity.
Qed.

End LiquidityPoolsProofs.

(** ** The demo position store *)

Module StoreProofs.
Import Store Monitor Orchestrator.

Lemma count_open_cons (s : string) (t : Trade) (l : list Trade) :
  count_open s (t :: l)
  = if is_open_on s t then S (count_open s l) else count_open s l.
Proof. unfold count_open. cbn [filter]. destruct (is_open_on s t); reflexivity. Qed.

Lemma closed_not_open (s : string) (t : Trade) (price pnl : Q) (r : CloseReason) :
  is_open_on s (close_with t price pnl r) = false.
Proof. unfold is_open_on. cbn. apply andb_false_r. Qed.

(** Two symbols on which the same trade is open are equal. *)
Lemma open_on_same (s s' : string) (t : Trade) :
  is_open_on s t = true -> is_open_on s' t = true -> s = s'.
Proof.
  unfold is_open_on. intros H H'.
  apply andb_true_iff in H, H'. destruct H as [H _], H' as [H' _].
  apply String.eqb_eq in H, H'. congruence.
Qed.

Lemma open_on_other (s s' : string) (t : Trade) :
  s <> s' -> is_open_on s' t = true -> is_open_on s t = false.
Proof.
  intros Hne H'. destruct (is_open_on s t) eqn:E; [|reflexivity].
  exfalso. apply Hne. exact (open_on_same s s' t E H').
Qed.

(** Closing on [s'] removes one open position on [s'], if there is one,
    and leaves the other symbols alone. *)
Lemma update_demo_position_count (l : list Trade) (s s' : string)
      (price pnl : Q) (r : CloseReason) :
  count_open s (update_demo_position l s' price pnl r)
  = if String.eqb s s' then Nat.pred (count_open s l) else count_open s l.
Proof.
  induction l as [|pos rest IH]; cbn [update_demo_position].
  - destruct (String.eqb s s'); reflexivity.
  - destruct (is_open_on s' pos) eqn:E.
    + rewrite !count_open_cons, closed_not_open.
      destruct (String.eqb s s') eqn:Es.
      * apply String.eqb_eq in Es. subst s'. rewrite E. reflexivity.
      * apply String.eqb_neq in Es. now rewrite (open_on_other s s' pos Es E).
    + rewrite !count_open_cons, IH.
      destruct (String.eqb s s') eqn:Es.
      * apply String.eqb_eq in Es. subst s'. rewrite E. reflexivity.
      * destruct (is_open_on s pos); reflexivity.
Qed.



Lemma close_demo_trade_count (d : UserData) (s s' : string) (price : Q)
      (r : CloseReason) :
  count_open s (demo_positions (close_demo_trade d s' price r))
  = if String.eqb s s' then Nat.pred (count_open s (demo_positions d))
    else count_open s (demo_positions d).
Proof.
  unfold close_demo_trade.
  destruct (trade_to_close (demo_positions d) s') as [t|] eqn:E.
  - cbn [demo_positions set_positions set_balance].
    apply update_demo_position_count.
  - destruct (String.eqb s s') eqn:Es; [|reflexivity].
    apply String.eqb_eq in Es. subst s'.
    assert (H0 : count_open s (demo_positions d) = 0%nat).
    { unfold count_open, trade_to_close in *.
      destruct (filter (is_open_on s) (demo_positions d)) as [|x xs] eqn:Ef;
        [reflexivity|].
      assert (Hx : In x (filter (is_open_on s) (demo_positions d)))
        by (rewrite Ef; now left).
      apply filter_In in Hx. destruct Hx as [Hin Hox].
      apply in_rev in Hin.
      pose proof (find_none _ _ E x Hin) as Hf. congruence. }
    rewrite H0. reflexivity.
Qed.

End StoreProofs.

(** ** The position monitor *)

Module MonitorProofs.
Import Store Monitor Orchestrator Samples StoreProofs.

Lemma Qeqb_false (a b : Q) : ~ a == b -> Qeqb a b = false.
Proof.
  intro H. unfold Qeqb. destruct (Qeq_bool a b) eqn:E; [|reflexivity].
  apply Qeq_bool_iff in E. contradiction.
Qed.

Section Tick.

Variable data : UserData.
Variable now : Q.
Variable api : string -> result Ticker.




End Tick.


(** Positions loaded through the database branch carry no [entry_time]:
    the monitor never closes them for a time reason, however long they
    have been held. *)
Lemma row_positions_never_time_closed (data : UserData) (now : Q)
      (row : TradeRow) (tk : result Ticker) (price : Q) (r : CloseReason) :
  check_trade data now (position_of_row row) tk = Closed price r ->
  exists lv, r = StopLossHit lv \/ r = TakeProfitHit lv.
Proof.
  unfold check_trade, holding_time. cbn [entry_time position_of_row].
  destruct (_ && _); [|discriminate].
  destruct (_ || _); [discriminate|].
  destruct tk as [tk|e]; [|discriminate].
  destruct (Qeqb (last tk) 0); [discriminate|].
  destruct (price_hit (position_of_row row) (last tk)) as [h|] eqn:Eh; [|discriminate].
  intro H. injection H as _ <-.
  unfold price_hit in Eh.
  repeat match type of Eh with
         | context [match ?x with _ => _ end] => destruct x
         | context [if ?x then _ else _] => destruct x
         end;
    try discriminate; injection Eh as <-; eexists; eauto.
Qed.


Lemma level_none (x : option Q) :
  level x = None -> match level x with None => true | Some _ => false end = true.
Proof. intros ->. reflexivity. Qed.




End MonitorProofs.

(** ** Opening positions *)

Module OrchestratorProofs.
Import Store Monitor Orchestrator Samples StoreProofs MonitorProofs.

Lemma calibrate_exit (data : UserData) (r : Replies) (entry : option Q)
      (direction : string) (sl tp : option Q) (e : StepExit) :
  calibrate data r entry direction sl tp = inl e -> e = LowVolatility.
Proof.
  unfold calibrate. destruct entry; [|discriminate].
  destruct (ohlcv r); [|discriminate].
  destruct (Qltb _ _); [intro H; injection H as <-; reflexivity|].
  destruct (_ && _); discriminate.
Qed.











End OrchestratorProofs.

(** ** The drawdown circuit breaker *)

Module CircuitBreakerProofs.
Import Store Monitor Orchestrator Samples.




End CircuitBreakerProofs.

(** ** Cooldown after a stop loss *)

Module CooldownProofs.
Import Store Monitor Orchestrator Samples MoreSamples.

Section Stamps.

Variable data : UserData.
Variable t0 : Q.
Variable api : string -> result Ticker.

Lemma monitor_step_cooldowns (st : UserData * Cooldowns) (t : Trade) :
  snd (monitor_trade_with data t0 api st t)
  = match check_trade data t0 t (api (symbol t)) with
    | Closed _ r => if is_stop_loss r then (symbol t, t0) :: snd st else snd st
    | _ => snd st
    end.
Proof.
  destruct st as [d c]. unfold monitor_trade_with.
  destruct (check_trade data t0 t (api (symbol t))); reflexivity.
Qed.

Lemma last_stop_loss_cons (s s' : string) (x : Q) (c : Cooldowns) :
  last_stop_loss ((s', x) :: c) s
  = if String.eqb s' s then Some x else last_stop_loss c s.
Proof. unfold last_stop_loss. cbn. destruct (String.eqb s' s); reflexivity. Qed.

(** The stamp of a symbol after the loop is the one it had before, or
    the time of this tick for a trade of the snapshot that hit its
    stop. *)
Lemma monitor_fold_stamp (ts : list Trade) (st : UserData * Cooldowns) (s : string) :
  last_stop_loss (snd (fold_left (monitor_trade_with data t0 api) ts st)) s
  = last_stop_loss (snd st) s
  \/ (last_stop_loss (snd (fold_left (monitor_trade_with data t0 api) ts st)) s = Some t0
      /\ exists t price lv,
           In t ts /\ symbol t = s
           /\ check_trade data t0 t (api (symbol t)) = Closed price (StopLossHit lv)).
Proof.
  revert st. induction ts as [|x ts IH]; intro st; cbn [fold_left]; [now left|].
  destruct (IH (monitor_trade_with data t0 api st x)) as [H|(H & t & p & lv & Hin & Hs & Hc)].
  - rewrite H, monitor_step_cooldowns.
    destruct (check_trade data t0 x (api (symbol x))) as [| |price r] eqn:Ec;
      try (now left).
    destruct r as [lv|lv|h l|h l]; cbn [is_stop_loss]; try (now left).
    rewrite last_stop_loss_cons.
    destruct (String.eqb (symbol x) s) eqn:Es; [|now left].
    right. split; [reflexivity|].
    exists x, price, lv. apply String.eqb_eq in Es.
    split; [now left|]. split; assumption.
  - right. split; [exact H|]. exists t, p, lv. split; [now right|]. split; assumption.
Qed.

Lemma monitor_fold_stamps (ts : list Trade) (st : UserData * Cooldowns)
      (t : Trade) (price lv : Q) :
  In t ts ->
  check_trade data t0 t (api (symbol t)) = Closed price (StopLossHit lv) ->
  last_stop_loss (snd (fold_left (monitor_trade_with data t0 api) ts st)) (symbol t)
  = Some t0.
Proof.
  intros Hin Hc. revert st.
  induction ts as [|x ts IH]; intro st; [contradiction|]. cbn [fold_left].
  destruct Hin as [->|Hin]; [|apply IH; exact Hin].
  destruct (monitor_fold_stamp ts (monitor_trade_with data t0 api st t) (symbol t))
    as [H|[H _]]; [|exact H].
  rewrite H, monitor_step_cooldowns, Hc. cbn [is_stop_loss].
  rewrite last_stop_loss_cons, String.eqb_refl. reflexivity.
Qed.

End Stamps.

Lemma open_position_not_cooldown (sym : string) (data : UserData) (r : Replies)
      (analysis : Fusion.Analysis) (action : string) (result_price : Q) :
  fst (open_position sym data r analysis action result_price) <> InCooldown.
Proof.
  unfold open_position.
  repeat match goal with
         | |- context [match calibrate ?a ?b ?c ?d ?e ?f with _ => _ end] =>
             let x := fresh "x" in
             let Ec := fresh "Ec" in
             destruct (calibrate a b c d e f) as [x|[? ?]] eqn:Ec;
             [apply OrchestratorProofs.calibrate_exit in Ec; subst x|]
         | |- context [match ?x with _ => _ end] => destruct x
         | |- context [if ?x then _ else _] => destruct x
         end;
    cbn [fst]; discriminate.
Qed.

(** The call ends on the cooldown exit only through the cooldown test. *)
Lemma cooldown_exit (cooldowns : Cooldowns) (sym : string) (data : UserData)
      (r : Replies) :
  fst (_analyze_and_trade cooldowns sym data r) = InCooldown ->
  in_cooldown cooldowns sym data (now r) = true.
Proof.
  unfold _analyze_and_trade.
  destruct (in_cooldown cooldowns sym data (now r)); [reflexivity|].
  destruct (outcome r) as [e dcs|analysis decision result_price]; [discriminate|].
  destruct (String.prefix "open_" (Engine.action decision)); [|discriminate].
  destruct (if is_demo_mode data then None else position_guard data sym (positions r))
    as [e|] eqn:Eg.
  - cbn [fst]. intros ->. destruct (is_demo_mode data); [discriminate|].
    unfold position_guard in Eg.
    destruct (positions r); [|discriminate].
    destruct (_ <=? _)%nat; [discriminate|].
    destruct (existsb _ _); discriminate.
  - intro H. exfalso. exact (open_position_not_cooldown _ _ _ _ _ _ H).
Qed.

(** X1: when a monitor tick at time [t0] closes an open demo position on
    its stop loss, the symbol is stamped with [t0]; from then on, for an
    account whose cooldown is a whole number of minutes (15 when it is
    unset or zero), [_analyze_and_trade] on that symbol returns at once,
    leaving the account untouched, as long as fewer minutes than the
    cooldown have passed since [t0], and no longer once they have
    passed. *)
Theorem stop_loss_starts_cooldown
        (data : UserData) (t0 : Q) (api : string -> result Ticker)
        (cooldowns : Cooldowns) (t : Trade) (price lv : Q) :
  is_demo_mode data = true ->
  In t (demo_positions data) -> status t = "open"%string ->
  check_trade data t0 t (api (symbol t)) = Closed price (StopLossHit lv) ->
  let after := snd (_monitor_positions data t0 api cooldowns) in
  last_stop_loss after (symbol t) = Some t0 /\
  forall (d : UserData) (r : Replies) (n : Z),
    sl_cooldown_minutes d = inject_Z n ->
    let window := if (n =? 0)%Z then 15 else inject_Z n in
    ((now r - t0) / 60 < window ->
     _analyze_and_trade after (symbol t) d r = (InCooldown, d)) /\
    (window <= (now r - t0) / 60 ->
     fst (_analyze_and_trade after (symbol t) d r) <> InCooldown).
Proof.
  intros Hdemo Hin Hopen Hc after.
  assert (Hstamp : last_stop_loss after (symbol t) = Some t0).
  { unfold after, _monitor_positions. rewrite Hdemo.
    apply (monitor_fold_stamps data t0 api _ _ t price lv); [|exact Hc].
    unfold get_open_demo_trades. apply filter_In. split; [exact Hin|].
    rewrite Hopen. reflexivity. }
  split; [exact Hstamp|].
  intros d r n Hn window.
  assert (Hw : in_cooldown after (symbol t) d (now r)
               = Qltb ((now r - t0) / 60) window).
  { unfold in_cooldown. rewrite Hstamp, Hn. unfold window.
    replace (Qeqb (inject_Z n) 0) with (n =? 0)%Z; [reflexivity|].
    unfold Qeqb, Qeq_bool, inject_Z. cbn. rewrite Z.mul_1_r. reflexivity. }
  split.
  - intro H. unfold _analyze_and_trade. rewrite Hw.
    apply Qltb_lt in H. rewrite H. reflexivity.
  - intros H Hexit. apply cooldown_exit in Hexit. rewrite Hw in Hexit.
    apply Qltb_lt in Hexit. lra.
Qed.

Lemma stop_loss_starts_cooldown_witness :
  last_stop_loss (snd (_monitor_positions (demo_account 10000 [zec_long]) 120 ticker_88 []))
                 zec = Some 120 /\
  _analyze_and_trade (snd (_monitor_positions (demo_account 10000 [zec_long]) 120 ticker_88 []))
                     zec (demo_account 10000 []) (open_replies 720)
  = (InCooldown, demo_account 10000 []) /\
  fst (_analyze_and_trade (snd (_monitor_positions (demo_account 10000 [zec_long]) 120
                                                   ticker_88 []))
                          zec (demo_account 10000 []) (open_replies 1080))
  <> InCooldown.
Proof.
  destruct (stop_loss_starts_cooldown (demo_account 10000 [zec_long]) 120 ticker_88 []
              zec_long 88 89 eq_refl (or_introl eq_refl) eq_refl eq_refl)
    as [Hstamp Hwin].
  split; [exact Hstamp|]. split.
  - apply (Hwin (demo_account 10000 []) (open_replies 720) 15%Z eq_refl).
    vm_compute. reflexivity.
  - apply (Hwin (demo_account 10000 []) (open_replies 1080) 15%Z eq_refl).
    vm_compute. discriminate.
Defined.

(** X2: a monitor tick changes the stop-loss stamp of a symbol only in
    demo mode and only when an open position on that symbol was closed
    on its stop loss in this tick: closes on the target or on holding
    time start no cooldown. *)
Theorem cooldown_only_after_stop_loss
        (data : UserData) (t0 : Q) (api : string -> result Ticker)
        (cooldowns : Cooldowns) (s : string) :
  last_stop_loss (snd (_monitor_positions data t0 api cooldowns)) s
  <> last_stop_loss cooldowns s ->
  is_demo_mode data = true /\
  exists t price lv,
    In t (get_open_demo_trades data) /\ symbol t = s /\
    check_trade data t0 t (api (symbol t)) = Closed price (StopLossHit lv).
Proof.
  unfold _monitor_positions. intro H.
  destruct (is_demo_mode data); [|exfalso; apply H; reflexivity].
  split; [reflexivity|].
  destruct (monitor_fold_stamp data t0 api (get_open_demo_trades data)
                               (data, cooldowns) s) as [Hs|[_ Hex]].
  - exfalso. apply H. exact Hs.
  - exact Hex.
Qed.

Lemma cooldown_only_after_stop_loss_witness :
  exists t price lv,
    In t (get_open_demo_trades (demo_account 10000 [zec_long])) /\ symbol t = zec /\
    check_trade (demo_account 10000 [zec_long]) 120 t (ticker_88 (symbol t))
    = Closed price (StopLossHit lv).
Proof.
  apply (cooldown_only_after_stop_loss (demo_account 10000 [zec_long]) 120 ticker_88 [] zec).
  vm_compute. discriminate.
Defined.

End CooldownProofs.

(** ** The demo ledger: opening, closing, settling *)

Module LedgerProofs.
Import Store Monitor Orchestrator Samples MoreSamples StoreProofs.

Lemma find_app {A : Type} (f : A -> bool) (l1 l2 : list A) :
  find f (l1 ++ l2) = match find f l1 with Some x => Some x | None => find f l2 end.
Proof.
  induction l1 as [|a l1 IH]; [reflexivity|]. cbn [app find].
  destruct (f a); [reflexivity|exact IH].
Qed.

Lemma count_open_zero_find (s : string) (l : list Trade) :
  count_open s l = 0%nat -> find (is_open_on s) l = None.
Proof.
  induction l as [|a l IH]; [reflexivity|].
  rewrite count_open_cons. cbn [find].
  destruct (is_open_on s a); [discriminate|exact IH].
Qed.

Lemma count_open_rev (s : string) (l : list Trade) :
  count_open s (rev l) = count_open s l.
Proof.
  unfold count_open. induction l as [|a l IH]; [reflexivity|].
  cbn [rev filter]. rewrite filter_app, length_app, IH. cbn [filter].
  destruct (is_open_on s a); cbn [length]; lia.
Qed.

Lemma count_open_zero_none (s : string) (l : list Trade) :
  count_open s l = 0%nat -> trade_to_close l s = None.
Proof.
  intro H. unfold trade_to_close. apply count_open_zero_find.
  rewrite count_open_rev. exact H.
Qed.

Lemma count_open_in (s : string) (l : list Trade) (t : Trade) :
  In t l -> is_open_on s t = true -> (1 <= count_open s l)%nat.
Proof.
  intros Hin Ho. unfold count_open.
  assert (H : In t (filter (is_open_on s) l)) by (apply filter_In; now split).
  destruct (filter (is_open_on s) l); [contradiction|cbn; lia].
Qed.

(** With at most one open position on the symbol, every search finds
    that one. *)
Lemma single_open_find (s : string) (l : list Trade) (t : Trade) :
  (count_open s l <= 1)%nat -> In t l -> is_open_on s t = true ->
  find (is_open_on s) l = Some t.
Proof.
  induction l as [|a l IH]; [contradiction|].
  rewrite count_open_cons. cbn [find]. intros Hc [->|Hin] Ho.
  - rewrite Ho. reflexivity.
  - destruct (is_open_on s a).
    + pose proof (count_open_in s l t Hin Ho). lia.
    + apply IH; assumption.
Qed.

Lemma single_open_to_close (s : string) (l : list Trade) (t : Trade) :
  (count_open s l <= 1)%nat -> In t l -> is_open_on s t = true ->
  trade_to_close l s = Some t.
Proof.
  intros Hc Hin Ho. unfold trade_to_close.
  apply single_open_find; [now rewrite count_open_rev|now apply in_rev in Hin|exact Ho].
Qed.

(** The update marks the first open position on the symbol. *)
Lemma update_demo_position_first (l : list Trade) (s : string) (t : Trade)
      (price pnl : Q) (r : CloseReason) :
  find (is_open_on s) l = Some t ->
  In (close_with t price pnl r) (update_demo_position l s price pnl r).
Proof.
  induction l as [|a l IH]; [discriminate|].
  cbn [find update_demo_position].
  destruct (is_open_on s a).
  - intro H. injection H as ->. now left.
  - intro H. right. exact (IH H).
Qed.

Lemma update_demo_position_length (l : list Trade) (s : string)
      (price pnl : Q) (r : CloseReason) :
  length (update_demo_position l s price pnl r) = length l.
Proof.
  induction l as [|a l IH]; [reflexivity|]. cbn [update_demo_position].
  destruct (is_open_on s a); cbn [length]; [reflexivity|now rewrite IH].
Qed.


(** The gain of a position closed at [price]: the signed price move
    times the amount. *)
Lemma close_demo_trade_found (d : UserData) (t : Trade) (price : Q) (r : CloseReason) :
  trade_to_close (demo_positions d) (symbol t) = Some t ->
  find (is_open_on (symbol t)) (demo_positions d) = Some t ->
  ~ entry t == 0 ->
  let gain := if String.eqb (direction t) "long"
              then (price - entry t) * amount t
              else (entry t - price) * amount t in
  demo_balance (close_demo_trade d (symbol t) price r) = demo_balance d + gain /\
  In (close_with t price gain r) (demo_positions (close_demo_trade d (symbol t) price r)).
Proof.
  intros Hf Hfirst He gain. unfold close_demo_trade. rewrite Hf.
  rewrite (MonitorProofs.Qeqb_false _ _ He).
  cbn [demo_balance demo_positions set_balance set_positions].
  split; [reflexivity|].
  apply update_demo_position_first. exact Hfirst.
Qed.

(** What one close does to the books of an account with at most one
    open position per symbol. *)
Lemma close_settles_books
        (d : UserData) (t : Trade) (price : Q) (r : CloseReason) :
  one_open_per_symbol (demo_positions d) ->
  In t (demo_positions d) -> status t = "open"%string ->
  ~ entry t == 0 ->
  let gain := if String.eqb (direction t) "long"
              then (price - entry t) * amount t
              else (entry t - price) * amount t in
  let d' := close_demo_trade d (symbol t) price r in
  demo_balance d' = demo_balance d + gain /\
  In (close_with t price gain r) (demo_positions d') /\
  length (demo_positions d') = length (demo_positions d) /\
  count_open (symbol t) (demo_positions d') = 0%nat.
Proof.
  intros Inv Hin Hopen He gain d'.
  assert (Ho : is_open_on (symbol t) t = true).
  { unfold is_open_on. rewrite Hopen, String.eqb_refl. reflexivity. }
  pose proof (single_open_to_close _ _ t (Inv (symbol t)) Hin Ho) as Hlast.
  pose proof (single_open_find _ _ t (Inv (symbol t)) Hin Ho) as Hfirst.
  destruct (close_demo_trade_found d t price r Hlast Hfirst He) as [Hb Hc].
  split; [exact Hb|]. split; [exact Hc|]. split.
  - unfold d', close_demo_trade. rewrite Hlast.
    cbn [demo_positions set_balance set_positions].
    apply update_demo_position_length.
  - unfold d'. rewrite close_demo_trade_count, String.eqb_refl.
    specialize (Inv (symbol t)). lia.
Qed.

(** X3: closing settles the books.  When the account holds at most one
    open position per symbol and [t] is the open position on its symbol,
    entered at a non-zero price, [close_demo_trade] at [price] records
    on that very position the status closed, the close price and the
    gain (price move in the trade's direction times the amount), adds
    exactly that gain to the demo balance, deletes nothing, and leaves
    no open position on the symbol. *)
Theorem close_demo_trade_settles
        (d : UserData) (t : Trade) (price : Q) (r : CloseReason) :
  one_open_per_symbol (demo_positions d) ->
  In t (demo_positions d) -> status t = "open"%string ->
  ~ entry t == 0 ->
  let gain := if String.eqb (direction t) "long"
              then (price - entry t) * amount t
              else (entry t - price) * amount t in
  let d' := close_demo_trade d (symbol t) price r in
  demo_balance d' = demo_balance d + gain /\
  In (close_with t price gain r) (demo_positions d') /\
  length (demo_positions d') = length (demo_positions d) /\
  count_open (symbol t) (demo_positions d') = 0%nat.
Proof. exact (close_settles_books d t price r). Qed.

Lemma close_demo_trade_settles_witness :
  demo_balance (close_demo_trade (demo_account 10000 [zec_long]) zec 93 (TakeProfitHit 93))
  = 10000 + (93 - 90) * 1 /\
  count_open zec (demo_positions
                    (close_demo_trade (demo_account 10000 [zec_long]) zec 93
                                      (TakeProfitHit 93))) = 0%nat.
Proof.
  assert (Inv : one_open_per_symbol (demo_positions (demo_account 10000 [zec_long]))).
  { intro s. unfold count_open. cbn [demo_positions demo_account filter].
    destruct (is_open_on s zec_long); cbn; lia. }
  destruct (close_demo_trade_settles (demo_account 10000 [zec_long]) zec_long 93
              (TakeProfitHit 93) Inv (or_introl eq_refl) eq_refl)
    as (Hb & _ & _ & Hc).
  - vm_compute. discriminate.
  - split; [exact Hb|exact Hc].
Defined.

(** X4: closing twice pays once.  With at most one open position per
    symbol, a second [close_demo_trade] on the same symbol, at whatever
    price and for whatever reason, changes neither the positions nor the
    balance. *)
Theorem close_demo_trade_twice
        (d : UserData) (s : string) (price price' : Q) (r r' : CloseReason) :
  one_open_per_symbol (demo_positions d) ->
  close_demo_trade (close_demo_trade d s price r) s price' r'
  = close_demo_trade d s price r.
Proof.
  intro Inv.
  assert (H0 : count_open s (demo_positions (close_demo_trade d s price r)) = 0%nat).
  { rewrite close_demo_trade_count, String.eqb_refl. specialize (Inv s). lia. }
  apply count_open_zero_none in H0.
  unfold close_demo_trade at 1. rewrite H0. reflexivity.
Qed.

Lemma close_demo_trade_twice_witness :
  close_demo_trade
    (close_demo_trade (demo_account 10000 [zec_long]) zec 93 (TakeProfitHit 93))
    zec 80 (StopLossHit 89)
  = close_demo_trade (demo_account 10000 [zec_long]) zec 93 (TakeProfitHit 93).
Proof.
  apply close_demo_trade_twice.
  intro s. unfold count_open. cbn [demo_positions demo_account filter].
  destruct (is_open_on s zec_long); cbn; lia.
Defined.



End LedgerProofs.

(** ** Closes on a level and the sign of the gain *)

Module LevelCloseProofs.
Import Store Monitor Orchestrator Samples MoreSamples StoreProofs LedgerProofs.

Lemma level_some (x : option Q) (v : Q) : level x = Some v -> x = Some v /\ ~ v == 0.
Proof.
  unfold level. destruct x as [w|]; [|discriminate].
  destruct (Qeqb w 0) eqn:E; [discriminate|].
  intro H. injection H as ->. split; [reflexivity|].
  intro H0. unfold Qeqb in E. apply Qeq_bool_iff in H0. congruence.
Qed.

(** What a level verdict of [price_hit] says about the price. *)
Lemma price_hit_spec (t : Trade) (p : Q) (r : CloseReason) :
  price_hit t p = Some r ->
  (exists sl, r = StopLossHit sl /\ stop_loss t = Some sl
              /\ if String.eqb (direction t) "long" then p <= sl else sl <= p)
  \/ (exists tp, r = TakeProfitHit tp /\ take_profit t = Some tp
                 /\ if String.eqb (direction t) "long" then tp <= p else p <= tp).
Proof.
  unfold price_hit.
  destruct (String.eqb (direction t) "long");
    destruct (level (stop_loss t)) as [sl|] eqn:Esl;
    destruct (level (take_profit t)) as [tp|] eqn:Etp;
    try apply level_some in Esl; try apply level_some in Etp;
    repeat match goal with
           | |- context [if Qleb ?a ?b then _ else _] =>
               let E := fresh "E" in
               destruct (Qleb a b) eqn:E; [apply Qleb_le in E|]
           end;
    intro H; try discriminate H; injection H as <-;
    first [ left; eexists; split; [reflexivity|]; split; [tauto|assumption]
          | right; eexists; split; [reflexivity|]; split; [tauto|assumption] ].
Qed.

(** A close on a level comes from [price_hit], at the ticker price. *)
Lemma check_trade_level (data : UserData) (t0 : Q) (t : Trade) (tk : result Ticker)
      (price : Q) (r : CloseReason) :
  check_trade data t0 t tk = Closed price r ->
  (exists lv, r = StopLossHit lv \/ r = TakeProfitHit lv) ->
  price_hit t price = Some r /\ ~ entry t == 0 /\ status t = "open"%string.
Proof.
  unfold check_trade.
  destruct (String.eqb (status t) "open") eqn:Es; [|discriminate].
  apply String.eqb_eq in Es.
  destruct (close_price t); [discriminate|]. cbn [andb].
  destruct (Qeqb (entry t) 0) eqn:Ee; [discriminate|]. cbn [orb].
  assert (He : ~ entry t == 0).
  { intro H0. unfold Qeqb in Ee. apply Qeq_bool_iff in H0. congruence. }
  destruct (_ && _); [discriminate|].
  destruct (holding_time data t0 t) as [held tc] eqn:Eh.
  destruct tk as [tk|e]; [|discriminate].
  destruct (Qeqb (last tk) 0); [discriminate|].
  assert (Htime : forall x, tc = Some x ->
                            (exists lv, x = StopLossHit lv \/ x = TakeProfitHit lv) -> False).
  { intros x Hx (lv & Hlv). subst tc. unfold holding_time in Eh.
    destruct (entry_time t) as [[e0|]|]; try discriminate.
    destruct (Qleb _ _); [injection Eh as _ <-; destruct Hlv; discriminate|].
    destruct (Qleb _ _); [injection Eh as _ <-; destruct Hlv; discriminate|].
    discriminate. }
  destruct tc as [x|].
  - destruct (Qleb _ _).
    + intro H. injection H as <- <-. intro Hl. exfalso. exact (Htime _ eq_refl Hl).
    + destruct (price_hit t (last tk)) as [h|] eqn:Ep.
      * intro H. injection H as <- <-. intros _. split; [exact Ep|]. now split.
      * intro H. injection H as <- <-. intro Hl. exfalso. exact (Htime _ eq_refl Hl).
  - destruct (price_hit t (last tk)) as [h|] eqn:Ep; [|discriminate].
    intro H. injection H as <- <-. intros _. split; [exact Ep|]. now split.
Qed.

(** X6: a position whose stop and target lie on the proper sides of the
    entry (stop below and target above for a long, the reverse
    otherwise) and whose amount is positive never loses on a target
    close and never gains on a stop close: when the monitor's check
    closes it on its take profit, the demo balance strictly grows; on
    its stop loss, it strictly shrinks. *)
Theorem level_close_moves_balance
        (data d : UserData) (t0 : Q) (t : Trade) (tk : result Ticker)
        (price sl tp : Q) (r : CloseReason) :
  one_open_per_symbol (demo_positions d) -> In t (demo_positions d) ->
  stop_loss t = Some sl -> take_profit t = Some tp ->
  (if String.eqb (direction t) "long"
   then sl < entry t /\ entry t < tp else tp < entry t /\ entry t < sl) ->
  0 < amount t ->
  check_trade data t0 t tk = Closed price r ->
  (is_stop_loss r = true ->
   demo_balance (close_demo_trade d (symbol t) price r) < demo_balance d) /\
  ((exists lv, r = TakeProfitHit lv) ->
   demo_balance d < demo_balance (close_demo_trade d (symbol t) price r)).
Proof.
  intros Inv Hin Hsl Htp Hord Hamt Hc.
  assert (Hgain : forall lv, r = StopLossHit lv \/ r = TakeProfitHit lv ->
            price_hit t price = Some r /\
            demo_balance (close_demo_trade d (symbol t) price r)
            = demo_balance d + (if String.eqb (direction t) "long"
                                then (price - entry t) * amount t
                                else (entry t - price) * amount t)).
  { intros lv Hlv.
    destruct (check_trade_level data t0 t tk price r Hc (ex_intro _ lv Hlv))
      as (Hh & He & Hopen).
    split; [exact Hh|].
    exact (proj1 (close_settles_books d t price r Inv Hin Hopen He)). }
  split.
  - intro Hs. destruct r as [lv|lv|h l|h l]; try discriminate Hs.
    destruct (Hgain lv (or_introl eq_refl)) as [Hh ->].
    apply price_hit_spec in Hh.
    destruct Hh as [(x & Hx & Hsx & Hp)|(x & Hx & _)]; [|discriminate Hx].
    rewrite Hsl in Hsx. injection Hsx as <-.
    destruct (String.eqb (direction t) "long"); nra.
  - intros (lv & ->).
    destruct (Hgain lv (or_intror eq_refl)) as [Hh ->].
    apply price_hit_spec in Hh.
    destruct Hh as [(x & Hx & _)|(x & Hx & Hsx & Hp)]; [discriminate Hx|].
    rewrite Htp in Hsx. injection Hsx as <-.
    destruct (String.eqb (direction t) "long"); nra.
Qed.

Lemma level_close_moves_balance_witness :
  demo_balance (close_demo_trade (demo_account 10000 [zec_long]) zec 88 (StopLossHit 89))
  < 10000.
Proof.
  assert (Inv : one_open_per_symbol (demo_positions (demo_account 10000 [zec_long]))).
  { intro s. unfold count_open. cbn [demo_positions demo_account filter].
    destruct (is_open_on s zec_long); cbn; lia. }
  destruct (level_close_moves_balance
              (demo_account 10000 [zec_long]) (demo_account 10000 [zec_long])
              120 zec_long (ticker_88 zec) 88 89 93 (StopLossHit 89)
              Inv (or_introl eq_refl) eq_refl eq_refl) as [Hloss _].
  - vm_compute. split; reflexivity.
  - vm_compute. reflexivity.
  - vm_compute. reflexivity.
  - apply Hloss. reflexivity.
Defined.

End LevelCloseProofs.

(** ** Range of the fused probability *)

Module ProbabilityProofs.
Import Fusion Engine Samples FusionProofs.

Lemma raw_probability_enough (s q : Q) (c : nat) :
  0 <= q -> (3 <= c)%nat -> 0 <= raw_probability s q c.
Proof.
  intros Hq Hc. unfold raw_probability, min_confirmations_required.
  assert (Hcc : 3 <= inject_Z (Z.of_nat c)).
  { change 3 with (inject_Z (Z.of_nat 3)). apply inject_nat_le. exact Hc. }
  set (cc := inject_Z (Z.of_nat c)) in *.
  change (inject_Z (Z.of_nat 3)) with 3.
  pose proof (Qabs_nonneg s).
  unfold pymin, pymax. by_cases.
Qed.

Lemma score_bounds (s q : Q) (c : nat) :
  0 <= q ->
  (0 <= snd (score s q c) /\ snd (score s q c) <= 92) /\
  (fst (score s q c) <> "neutral"%string -> 20 <= snd (score s q c)) /\
  ((c < 3)%nat -> snd (score s q c) <= 50).
Proof.
  intro Hq. rewrite score_snd.
  assert (Hf : fst (score s q c) = fst (band s (raw_probability s q c) c)).
  { unfold score. destruct (band _ _ _). reflexivity. }
  rewrite Hf. clear Hf.
  destruct (le_lt_dec 3 c) as [Hc|Hc].
  - rewrite adjust_enough by exact Hc.
    pose proof (raw_probability_enough s q c Hq Hc) as Hr.
    set (r := raw_probability s q c) in *. clearbody r.
    unfold band, min_confirmations_required.
    apply Nat.leb_le in Hc. rewrite Hc. apply Nat.leb_le in Hc.
    unfold pymax, pymin.
    destruct (Qltb 30 s);
      [cbn [fst snd]; split; [by_cases|split; [intros _; by_cases|intro; lia]]|].
    destruct (Qltb 15 s);
      [cbn [fst snd]; split; [by_cases|split; [intros _; by_cases|intro; lia]]|].
    destruct (Qltb s (- (30)));
      [cbn [fst snd]; split; [by_cases|split; [intros _; by_cases|intro; lia]]|].
    destruct (Qltb s (- (15)));
      [cbn [fst snd]; split; [by_cases|split; [intros _; by_cases|intro; lia]]|].
    destruct (Qltb 5 (Qabs s)).
    + cbn [fst snd]. split; [by_cases|split; [intros _; by_cases|intro; lia]].
    + cbn [fst snd]. split; [lra|]. split; [intro H; now contradiction H|intro; lia].
  - assert (Hb : 0 <= pymin (Qabs s * (15 # 10)) 70).
    { pose proof (Qabs_nonneg s).
      destruct (pymin_cases (Qabs s * (15 # 10)) 70) as [[_ ->]|[_ ->]]; lra. }
    destruct c as [|[|[|c]]]; [| | |lia];
      unfold adjust, band, raw_probability.
    + count_consts 0%nat.
      set (b := pymin (Qabs s * (15 # 10)) 70) in *. clearbody b.
      cbn [negb andb]. unfold pymax, pymin.
      destruct (Qltb 30 s);
        [cbn [fst snd]; split; [by_cases|split; [intros _; by_cases|intros _; by_cases]]|].
      destruct (Qltb 15 s);
        [cbn [fst snd]; split; [by_cases|split; [intros _; by_cases|intros _; by_cases]]|].
      destruct (Qltb s (- (30)));
        [cbn [fst snd]; split; [by_cases|split; [intros _; by_cases|intros _; by_cases]]|].
      destruct (Qltb s (- (15)));
        [cbn [fst snd]; split; [by_cases|split; [intros _; by_cases|intros _; by_cases]]|].
      destruct (Qltb 5 (Qabs s)).
      * cbn [fst snd]. split; [by_cases|split; [intros _; by_cases|intros _; by_cases]].
      * cbn [fst snd]. split; [by_cases|].
        split; [intro H; now contradiction H|intros _; by_cases].
    + count_consts 1%nat.
      set (b := pymin (Qabs s * (15 # 10)) 70) in *. clearbody b.
      cbn [negb andb]. unfold pymax, pymin.
      destruct (Qltb 30 s);
        [cbn [fst snd]; split; [by_cases|split; [intros _; by_cases|intros _; by_cases]]|].
      destruct (Qltb 15 s);
        [cbn [fst snd]; split; [by_cases|split; [intros _; by_cases|intros _; by_cases]]|].
      destruct (Qltb s (- (30)));
        [cbn [fst snd]; split; [by_cases|split; [intros _; by_cases|intros _; by_cases]]|].
      destruct (Qltb s (- (15)));
        [cbn [fst snd]; split; [by_cases|split; [intros _; by_cases|intros _; by_cases]]|].
      destruct (Qltb 5 (Qabs s)).
      * cbn [fst snd]. split; [by_cases|split; [intros _; by_cases|intros _; by_cases]].
      * cbn [fst snd]. split; [by_cases|].
        split; [intro H; now contradiction H|intros _; by_cases].
    + count_consts 2%nat.
      set (b := pymin (Qabs s * (15 # 10)) 70) in *. clearbody b.
      cbn [negb andb]. unfold pymax, pymin.
      destruct (Qltb 30 s);
        [cbn [fst snd]; split; [by_cases|split; [intros _; by_cases|intros _; by_cases]]|].
      destruct (Qltb 15 s);
        [cbn [fst snd]; split; [by_cases|split; [intros _; by_cases|intros _; by_cases]]|].
      destruct (Qltb s (- (30)));
        [cbn [fst snd]; split; [by_cases|split; [intros _; by_cases|intros _; by_cases]]|].
      destruct (Qltb s (- (15)));
        [cbn [fst snd]; split; [by_cases|split; [intros _; by_cases|intros _; by_cases]]|].
      destruct (Qltb 5 (Qabs s)).
      * cbn [fst snd]. split; [by_cases|split; [intros _; by_cases|intros _; by_cases]].
      * cbn [fst snd]. split; [by_cases|].
        split; [intro H; now contradiction H|intros _; by_cases].
Qed.

(** X7: whatever the inputs, the probability reported by
    [analyze_market] lies between 0 and 92; a signal other than neutral
    carries at least 20; and with fewer than three confirming sources it
    never exceeds 50. *)
Theorem fused_probability_bounds (i : FusionInput) (a : Analysis) :
  analyze_market i = Ok a ->
  (0 <= probability a /\ probability a <= 92) /\
  (final_signal a <> "neutral"%string -> 20 <= probability a) /\
  ((count (confirmations a) < 3)%nat -> probability a <= 50).
Proof.
  intro Ha.
  destruct (analyze_market_report i a Ha) as (cs & _ & Hn & _ & Hf & Hp).
  rewrite Hn, Hf, Hp.
  apply score_bounds. apply quality_bonus_nonneg.
Qed.

Lemma fused_probability_bounds_witness :
  exists a, analyze_market two_source_input = Ok a /\
            20 <= probability a /\ probability a <= 50.
Proof.
  destruct (analyze_market two_source_input) as [a|e] eqn:E;
    [|vm_compute in E; discriminate E].
  exists a. split; [reflexivity|].
  destruct (fused_probability_bounds two_source_input a E) as (_ & Hlow & Hhigh).
  assert (Hs : final_signal a = "strong_long"%string /\ count (confirmations a) = 2%nat).
  { vm_compute in E. injection E as <-. split; reflexivity. }
  destruct Hs as [Hs Hc]. split.
  - apply Hlow. rewrite Hs. discriminate.
  - apply Hhigh. rewrite Hc. lia.
Defined.

End ProbabilityProofs.

(** ** Cancellation rules, trend filter and decision thresholds *)

Module EngineProofs.
Import Fusion Engine Samples MoreSamples FusionProofs.

(** The cancellation rules either leave the analysis alone or cancel
    it. *)
Lemma cancellation_cases (a : Analysis) (ohlcv : list Candle) (ob : OrderBook) :
  _check_signal_cancellation a ohlcv ob = a
  \/ exists r, _check_signal_cancellation a ohlcv ob = set_signal a "neutral" 0 (Some r)
               /\ match r with AgainstTrend4h _ => False | _ => True end.
Proof.
  unfold _check_signal_cancellation.
  destruct (String.eqb (final_signal a) "neutral"); [now left|].
  repeat match goal with
         | |- context [match ?x with _ => _ end] => destruct x
         end;
    first [ now left | right; eexists; split; [reflexivity|exact I] ].
Qed.

(** Whether a signal goes against the four-hour trend. *)
Lemma trend_filter_cases (trend : string) (a : Analysis) :
  let against :=
    (is_long_signal (final_signal a) && String.eqb trend "bearish")
    || (is_short_signal (final_signal a) && String.eqb trend "bullish") in
  let p := pymax 0 (probability a - 15) in
  (against = false /\ trend_filter (Some trend) a = a)
  \/ (against = true /\ p < 50 /\
      trend_filter (Some trend) a
      = set_signal a "neutral" p (Some (AgainstTrend4h trend)))
  \/ (against = true /\ 50 <= p /\
      trend_filter (Some trend) a
      = set_signal a (final_signal a) p (cancellation_reason a)).
Proof.
  cbv zeta. unfold trend_filter.
  destruct (_ || _); [|left; now split].
  right. cmp (pymax 0 (probability a - 15)) 50; [left|right]; repeat split; assumption.
Qed.

(** X8: a signal cancelled by the liquidity-pool or the fair-value-gap
    rule is never traded.  Whenever the analysis returned by
    [analyze_and_trade] carries one of these two cancellation reasons,
    the decision is [skip], the signal is neutral and the probability is
    0, whatever the order flow, the trend or the quality of the
    signals. *)
Theorem cancelled_signal_never_trades
        (ohlcv_ltf : list Candle) (orderbook : OrderBook) (ticker_last : Q)
        (ltf : FusionInput) (analysis_htf : AdvancedAnalysis) (ohlcv_4h : list Candle)
        (a : Analysis) (d : Decision) (p : Q) (r : CancelReason) :
  analyze_and_trade ohlcv_ltf orderbook ticker_last ltf analysis_htf ohlcv_4h
  = Analysed a d p ->
  cancellation_reason a = Some r ->
  match r with AgainstTrend4h _ => False | _ => True end ->
  d = skip (SignalCancelled r) /\
  final_signal a = "neutral"%string /\ probability a = 0.
Proof.
  unfold analyze_and_trade.
  generalize (if nonempty ohlcv_4h && (20 <=? length ohlcv_4h)%nat
              then _check_trend_4h ohlcv_4h else None).
  intro trend_4h.
  destruct (analyze_market ltf) as [a0|e] eqn:Ea; [|discriminate].
  assert (H0 : cancellation_reason (set_htf_fvgs a0 (fvgs analysis_htf)) = None).
  { unfold analyze_market in Ea.
    destruct (confirmation_sources ltf); [|discriminate]. cbn [bind] in Ea.
    destruct (score _ _ _). injection Ea as <-. reflexivity. }
  set (a1 := set_htf_fvgs a0 (fvgs analysis_htf)) in *.
  destruct (cancellation_cases a1 ohlcv_ltf orderbook) as [Hc|(r0 & Hc & Hr0)];
    rewrite Hc.
  - rewrite H0.
    intro H. injection H as <- <- <-. intros Hr Hk. exfalso.
    destruct trend_4h as [trend|].
    + destruct (trend_filter_cases trend a1) as [[_ Ht]|[(_ & _ & Ht)|(_ & _ & Ht)]];
        rewrite Ht in Hr; cbn [cancellation_reason set_signal] in Hr.
      * congruence.
      * injection Hr as <-. contradiction.
      * congruence.
    + cbn [trend_filter] in Hr. congruence.
  - cbn [cancellation_reason set_signal].
    intro H. injection H as <- <- <-. cbn [cancellation_reason set_signal].
    intros Hr _. injection Hr as <-.
    split; [reflexivity|]. split; reflexivity.
Qed.

Lemma cancelled_signal_never_trades_witness :
  exists a p,
    analyze_and_trade calm_candles empty_book 100 swept_input quiet []
    = Analysed a (skip (SignalCancelled (PoolSwept (1002 # 10)))) p /\
    final_signal a = "neutral"%string /\ probability a = 0.
Proof.
  destruct (analyze_and_trade calm_candles empty_book 100 swept_input quiet [])
    as [e d|a d p] eqn:E; [vm_compute in E; discriminate E|].
  assert (Hr : cancellation_reason a = Some (PoolSwept (1002 # 10))).
  { vm_compute in E. injection E as <- _ _. reflexivity. }
  destruct (cancelled_signal_never_trades _ _ _ _ _ _ a d p _ E Hr I) as (-> & Hs & Hp).
  exists a, p. split; [reflexivity|]. split; assumption.
Defined.

(** X9: the four-hour trend filter never raises a probability and never
    turns a signal into another direction: the signal that comes out is
    the one that went in or neutral.  A long that comes out against a
    bearish trend, or a short against a bullish one, has lost exactly 15
    points and still carries at least 50. *)
Theorem trend_filter_effect (trend : string) (a : Analysis) :
  let a' := trend_filter (Some trend) a in
  (final_signal a' = final_signal a \/ final_signal a' = "neutral"%string) /\
  (0 <= probability a -> probability a' <= probability a) /\
  ((is_long_signal (final_signal a') = true /\ trend = "bearish"%string)
   \/ (is_short_signal (final_signal a') = true /\ trend = "bullish"%string) ->
   50 <= probability a' /\ probability a' == probability a - 15).
Proof.
  cbv zeta.
  destruct (trend_filter_cases trend a)
    as [[Hag Ht]|[(Hag & Hp & Ht)|(Hag & Hp & Ht)]]; rewrite Ht;
    cbn [final_signal probability set_signal].
  - split; [now left|]. split; [intros _; lra|].
    intro H. exfalso.
    destruct H as [[H1 ->]|[H1 ->]]; rewrite H1 in Hag; cbn in Hag;
      [discriminate Hag|].
    rewrite orb_true_r in Hag. discriminate Hag.
  - split; [now right|]. split.
    + intro H0. unfold pymax. cmp 0 (probability a - 15); lra.
    + intros [[H _]|[H _]]; discriminate H.
  - split; [now left|]. split.
    + intro H0. unfold pymax. cmp 0 (probability a - 15); lra.
    + intros _. split; [exact Hp|].
      revert Hp. unfold pymax. cmp 0 (probability a - 15); lra.
Qed.

Lemma trend_filter_effect_witness :
  exists a, analyze_market three_source_input = Ok a /\
            50 <= probability (trend_filter (Some "bearish"%string) a) /\
            probability (trend_filter (Some "bearish"%string) a) == probability a - 15.
Proof.
  destruct (analyze_market three_source_input) as [a|e] eqn:E;
    [|vm_compute in E; discriminate E].
  exists a. split; [reflexivity|].
  destruct (trend_filter_effect "bearish" a) as (_ & _ & H).
  apply H. left. split; [|reflexivity].
  vm_compute in E. injection E as <-. reflexivity.
Defined.

(** X10: no decision opens a position on a probability below 35.  The
    quality bonuses lower the thresholds of [_make_decision], and its
    conflict and volume penalties can lift a low probability to their
    floors of 30 and 25, but whenever the analysis carries a probability
    under 35 the action is [skip]. *)
Theorem decision_needs_probability (a : Analysis) :
  probability a < 35 -> action (_make_decision a) = "skip"%string.
Proof.
  intro Hp. unfold _make_decision. cbv zeta.
  match goal with |- context [Z.max 35 ?x] => set (ms := Z.max 35 x) end.
  match goal with |- context [Z.max 40 ?x] => set (mn := Z.max 40 x) end.
  assert (Hms : 35 <= inject_Z ms)
    by (change 35 with (inject_Z 35); rewrite <- Zle_Qle; unfold ms; lia).
  assert (Hmn : 40 <= inject_Z mn)
    by (change 40 with (inject_Z 40); rewrite <- Zle_Qle; unfold mn; lia).
  clearbody ms mn.
  destruct (_ && Qltb (probability a) (inject_Z mn)); [reflexivity|].
  destruct (is_long_signal (final_signal a));
    [destruct (_ || _)
    |destruct (is_short_signal (final_signal a)); [destruct (_ || _)|]];
    destruct (Qltb (volume_ratio (a_indicators a)) (7 # 10));
    repeat match goal with
           | |- context [Qleb ?x ?y] =>
               lazymatch y with
               | context [probability a] =>
                   let H := fresh "H" in
                   assert (H : Qleb x y = false)
                     by (apply Qleb_gt; unfold pymax; repeat innermost_cmp; lra);
                   rewrite H; clear H
               end
           end;
    rewrite ?andb_false_r; reflexivity.
Qed.

Lemma decision_needs_probability_witness :
  exists a, analyze_market weak_input = Ok a /\
            final_signal a = "long"%string /\
            action (_make_decision a) = "skip"%string.
Proof.
  destruct (analyze_market weak_input) as [a|e] eqn:E;
    [|vm_compute in E; discriminate E].
  exists a. split; [reflexivity|].
  assert (H : final_signal a = "long"%string /\ probability a < 35).
  { vm_compute in E. injection E as <-. split; reflexivity. }
  destruct H as [Hs Hp]. split; [exact Hs|].
  apply decision_needs_probability. exact Hp.
Defined.

End EngineProofs.

(** ** Structure signals in the fused score *)

Module StructureSignalProofs.
Import Fusion Engine Advanced StructureBreaks Samples.

Lemma in_singleton_or_nil {A : Type} (b : bool) (x y : A) :
  In y (if b then [x] else []) -> y = x.
Proof. destruct b; [intros [<-|[]]; reflexivity|intros []]. Qed.

Lemma fvg_signal_source (cp : Q) (fvg : FVG) (s : AdvSignal) :
  In s (fvg_signal cp fvg) -> source s = "fvg"%string.
Proof.
  unfold fvg_signal.
  destruct (String.eqb (fvg_type fvg) "bullish_fvg");
    [|destruct (String.eqb (fvg_type fvg) "bearish_fvg"); [|intros []]];
    intro H; apply in_singleton_or_nil in H; subst s; reflexivity.
Qed.

Lemma sweep_signal_source (sweep : Sweep) (s : AdvSignal) :
  In s (sweep_adv_signal sweep) -> source s = "liquidity_sweep"%string.
Proof.
  unfold sweep_adv_signal.
  destruct (String.eqb (sweep_signal sweep) "long");
    [intros [<-|[]]; reflexivity|].
  destruct (String.eqb (sweep_signal sweep) "short");
    [intros [<-|[]]; reflexivity|intros []].
Qed.

(** X11: the break-of-structure and change-of-character entries that
    [_generate_advanced_signals] derives from [detect_bos_choch] never
    move the fused score.  Their type is the structure's direction
    (bullish, bearish, up or down), never long or short, so
    [analyze_market] adds nothing for them to its signal strength and
    [_make_decision] does not count them among the long or short
    signals. *)
Theorem structure_signals_never_vote
        (ohlcv : list Candle) (rep : Report) (current_price : Q)
        (fvgs : list FVG) (sweeps : list Sweep) (flow : OrderFlow) (s : AdvSignal) :
  detect_bos_choch ohlcv = Some rep ->
  In s (_generate_advanced_signals current_price fvgs sweeps flow
          (mkStructure (r_bos rep) (r_choch rep))) ->
  source s = "structure"%string ->
  adv_vote s = no_vote /\
  count_type "long" [s] = 0%nat /\ count_type "short" [s] = 0%nat.
Proof.
  intros Hrep Hin Hsrc. unfold _generate_advanced_signals in Hin.
  apply in_app_or in Hin. destruct Hin as [Hin|Hin].
  { destruct (negb _); [destruct Hin as [<-|[]]; discriminate Hsrc|destruct Hin]. }
  apply in_app_or in Hin. destruct Hin as [Hin|Hin].
  { apply in_flat_map in Hin. destruct Hin as (f & _ & Hf).
    apply fvg_signal_source in Hf. congruence. }
  apply in_app_or in Hin. destruct Hin as [Hin|Hin].
  { apply in_flat_map in Hin. destruct Hin as (f & _ & Hf).
    apply sweep_signal_source in Hf. congruence. }
  unfold detect_bos_choch in Hrep.
  destruct (length ohlcv <? 20)%nat; [discriminate|].
  injection Hrep as <-. cbn [r_bos r_choch bos choch] in Hin.
  apply in_app_or in Hin. destruct Hin as [Hin|Hin].
  - destruct (Qltb _ _); [destruct Hin as [<-|[]]; repeat split|].
    destruct (Qltb _ _); [destruct Hin as [<-|[]]; repeat split|destruct Hin].
  - unfold choch_of in Hin.
    destruct (_ && _); [destruct Hin as [<-|[]]; repeat split|].
    destruct (_ && _); [destruct Hin as [<-|[]]; repeat split|destruct Hin].
Qed.

Lemma structure_signals_never_vote_witness :
  exists rep s,
    detect_bos_choch reversal_candles = Some rep /\
    In s (_generate_advanced_signals 98 [] [] (mkOrderFlow "neutral" 1 "neutral")
            (mkStructure (r_bos rep) (r_choch rep))) /\
    source s = "structure"%string /\ adv_vote s = no_vote.
Proof.
  destruct (detect_bos_choch reversal_candles) as [rep|] eqn:E;
    [|vm_compute in E; discriminate E].
  exists rep, (mkAdvSignal "structure" "down" 2).
  assert (Hin : In (mkAdvSignal "structure" "down" 2)
                   (_generate_advanced_signals 98 [] []
                      (mkOrderFlow "neutral" 1 "neutral")
                      (mkStructure (r_bos rep) (r_choch rep)))).
  { vm_compute in E. injection E as <-. vm_compute. right. left. reflexivity. }
  split; [reflexivity|]. split; [exact Hin|]. split; [reflexivity|].
  exact (proj1 (structure_signals_never_vote reversal_candles rep 98 [] []
                  (mkOrderFlow "neutral" 1 "neutral") _ E Hin eq_refl)).
Defined.

End StructureSignalProofs.

(** ** Liquidity pools: nearest levels and the volume profile *)

Module PoolProofs.
Import LiquidityPools Samples LiquidityPoolsProofs.

Lemma fold_pymax_spec (l : list Q) (a : Q) :
  In (fold_left pymax l a) (a :: l) /\
  forall x, In x (a :: l) -> x <= fold_left pymax l a.
Proof.
  revert a. induction l as [|y l IH]; intro a; cbn [fold_left].
  - split; [now left|]. intros x [<-|[]]. lra.
  - destruct (IH (pymax a y)) as [Hin Hub]. split.
    + destruct Hin as [Hin|Hin]; [|now right; right].
      rewrite <- Hin. destruct (pymax_either a y) as [->| ->]; [now left|right; now left].
    + intros x Hx. pose proof (pymax_lub a y) as [Ha Hy].
      pose proof (Hub (pymax a y) (or_introl eq_refl)) as Hm.
      destruct Hx as [<-|[<-|Hx]]; [lra|lra|].
      apply Hub. now right.
Qed.

Lemma fold_pymin_spec (l : list Q) (a : Q) :
  In (fold_left pymin l a) (a :: l) /\
  forall x, In x (a :: l) -> fold_left pymin l a <= x.
Proof.
  revert a. induction l as [|y l IH]; intro a; cbn [fold_left].
  - split; [now left|]. intros x [<-|[]]. lra.
  - destruct (IH (pymin a y)) as [Hin Hlb]. split.
    + destruct Hin as [Hin|Hin]; [|now right; right].
      rewrite <- Hin. destruct (pymin_either a y) as [->| ->]; [now left|right; now left].
    + intros x Hx. pose proof (pymin_glb a y) as [Ha Hy].
      pose proof (Hlb (pymin a y) (or_introl eq_refl)) as Hm.
      destruct Hx as [<-|[<-|Hx]]; [lra|lra|].
      apply Hlb. now right.
Qed.

Lemma insert_sorted_in (x y : Q) (l : list Q) :
  In y (insert_sorted x l) <-> y = x \/ In y l.
Proof.
  induction l as [|z l IH]; cbn [insert_sorted].
  - cbn. intuition.
  - destruct (Qltb x z); cbn [In]; [intuition|]. rewrite IH. intuition.
Qed.

Lemma sorted_in (y : Q) (l : list Q) : In y (sorted l) <-> In y l.
Proof.
  unfold sorted.
  assert (H : forall acc, In y (fold_left (fun acc x => insert_sorted x acc) l acc)
                          <-> In y acc \/ In y l).
  { induction l as [|x l IH]; intro acc; cbn [fold_left].
    - cbn. intuition.
    - rewrite IH, insert_sorted_in. cbn [In]. intuition. }
  rewrite H. cbn. intuition.
Qed.

(** X12: the two pools reported by [_analyze_pool_position] are the
    nearest ones.  [nearest_pool_below] is a level of the profile (the
    point of control, a high-volume or a low-volume node) strictly below
    the price with no other level between it and the price, and it is
    absent exactly when no level lies below the price; the same holds,
    mirrored, for [nearest_pool_above]. *)
Theorem nearest_pools_are_nearest (current_price poc : Q) (hvn lvn : list Q) :
  let levels := [poc] ++ hvn ++ lvn in
  let pos := _analyze_pool_position current_price poc hvn lvn in
  match pp_nearest_pool_below pos with
  | Some b => In b levels /\ b < current_price /\
              forall l, In l levels -> l < current_price -> l <= b
  | None => forall l, In l levels -> current_price <= l
  end /\
  match pp_nearest_pool_above pos with
  | Some u => In u levels /\ current_price < u /\
              forall l, In l levels -> current_price < l -> u <= l
  | None => forall l, In l levels -> l <= current_price
  end.
Proof.
  cbv zeta. unfold _analyze_pool_position.
  cbn [pp_nearest_pool_below pp_nearest_pool_above].
  set (levels := [poc] ++ hvn ++ lvn). split.
  - destruct (filter (fun l => Qltb l current_price) (sorted levels)) as [|b0 bs] eqn:Ef;
      cbn [opt_extreme].
    + intros l Hl. apply Qltb_ge.
      destruct (Qltb l current_price) eqn:E; [|reflexivity]. exfalso.
      assert (Hin : In l (filter (fun l => Qltb l current_price) (sorted levels))).
      { apply filter_In. split; [now apply sorted_in|exact E]. }
      rewrite Ef in Hin. exact Hin.
    + unfold column_max. cbn [hd tl].
      destruct (fold_pymax_spec bs b0) as [Hin Hub].
      rewrite <- Ef in Hin. apply filter_In in Hin. destruct Hin as [Hin Hlt].
      split; [now apply sorted_in|]. split; [now apply Qltb_lt|].
      intros l Hl Hltl. apply Hub. rewrite <- Ef. apply filter_In.
      split; [now apply sorted_in|now apply Qltb_lt].
  - destruct (filter (fun l => Qltb current_price l) (sorted levels)) as [|b0 bs] eqn:Ef;
      cbn [opt_extreme].
    + intros l Hl. apply Qltb_ge.
      destruct (Qltb current_price l) eqn:E; [|reflexivity]. exfalso.
      assert (Hin : In l (filter (fun l => Qltb current_price l) (sorted levels))).
      { apply filter_In. split; [now apply sorted_in|exact E]. }
      rewrite Ef in Hin. exact Hin.
    + unfold column_min. cbn [hd tl].
      destruct (fold_pymin_spec bs b0) as [Hin Hlb].
      rewrite <- Ef in Hin. apply filter_In in Hin. destruct Hin as [Hin Hlt].
      split; [now apply sorted_in|]. split; [now apply Qltb_lt|].
      intros l Hl Hltl. apply Hlb. rewrite <- Ef. apply filter_In.
      split; [now apply sorted_in|now apply Qltb_lt].
Qed.

(** *** The volume profile *)

Lemma fold_plus_shift (l : list Q) (a : Q) :
  fold_left Qplus l a == a + fold_left Qplus l 0.
Proof.
  revert a. induction l as [|x l IH]; intro a; cbn [fold_left]; [lra|].
  rewrite (IH (a + x)), (IH (0 + x)). lra.
Qed.

Lemma pysum_cons (x : Q) (l : list Q) : pysum (x :: l) == x + pysum l.
Proof. unfold pysum. cbn [fold_left]. rewrite fold_plus_shift. lra. Qed.

Lemma add_volume_sum (k v : Q) (p : Profile) :
  pysum (map snd (add_volume k v p)) == pysum (map snd p) + v.
Proof.
  induction p as [|[k0 w] p IH]; cbn [add_volume].
  - cbn [map snd]. rewrite pysum_cons. unfold pysum. cbn. lra.
  - destruct (Qeqb k0 k); cbn [map snd]; rewrite !pysum_cons; [lra|].
    rewrite IH. lra.
Qed.

Lemma add_volume_nonempty (k v : Q) (p : Profile) : add_volume k v p <> [].
Proof. destruct p as [|[k0 w] p]; cbn; [discriminate|]. destruct (Qeqb k0 k); discriminate. Qed.

Lemma build_profile_sum (low_min level_size : Q) (cs : list Candle) (p p' : Profile) :
  build_profile low_min level_size cs p = Ok p' ->
  pysum (map snd p') == pysum (map snd p) + pysum (map volume cs) /\
  (p <> [] \/ cs <> [] -> p' <> []).
Proof.
  revert p. induction cs as [|c cs IH]; intro p; cbn [build_profile].
  - intro H. injection H as <-. split; [unfold pysum at 3; cbn; lra|].
    intros [H|H]; [exact H|congruence].
  - destruct (bucket low_min level_size c) as [k|e]; [|discriminate]. cbn [bind].
    intro H. apply IH in H. destruct H as [Hs Hn]. split.
    + rewrite Hs, add_volume_sum. cbn [map]. rewrite pysum_cons. lra.
    + intros _. apply Hn. left. apply add_volume_nonempty.
Qed.

Lemma poc_of_spec (kv : Q * Q) (p : Profile) :
  let best := fold_left (fun best kv => if Qltb (snd best) (snd kv) then kv else best) p kv in
  In best (kv :: p) /\ forall x, In x (kv :: p) -> snd x <= snd best.
Proof.
  cbv zeta. revert kv. induction p as [|y p IH]; intro kv; cbn [fold_left].
  - split; [now left|]. intros x [<-|[]]. lra.
  - destruct (IH (if Qltb (snd kv) (snd y) then y else kv)) as [Hin Hub]. split.
    + destruct Hin as [Hin|Hin]; [|now right; right].
      rewrite <- Hin. destruct (Qltb (snd kv) (snd y)); [right; now left|now left].
    + intros x Hx.
      pose proof (Hub _ (or_introl eq_refl)) as Hm.
      destruct Hx as [<-|[<-|Hx]].
      * revert Hm. cmp (snd kv) (snd y); lra.
      * revert Hm. cmp (snd kv) (snd y); lra.
      * apply Hub. now right.
Qed.

(** X13: the volume profile built by [analyze_liquidity_pools] loses no
    volume and its point of control is its heaviest bucket.  Whenever a
    report is returned, the bucket volumes add up to the total volume
    of the candles, the reported point of control is one of the buckets
    with the reported volume, and no bucket holds more. *)
Theorem volume_profile_conserves_volume (ohlcv : list Candle) (rep : PoolReport) :
  analyze_liquidity_pools ohlcv = Ok (Some rep) ->
  pysum (map snd (volume_profile rep)) == pysum (map volume ohlcv) /\
  In (poc rep, poc_volume rep) (volume_profile rep) /\
  forall kv, In kv (volume_profile rep) -> snd kv <= poc_volume rep.
Proof.
  unfold analyze_liquidity_pools.
  destruct (length ohlcv <? 10)%nat eqn:El; [discriminate|].
  destruct (build_profile _ _ ohlcv []) as [p|e] eqn:Eb; [|discriminate].
  cbn [bind]. destruct (poc_of p) as [pl pv] eqn:Ep.
  intro H. injection H as <-. cbn [volume_profile poc poc_volume].
  apply build_profile_sum in Eb. destruct Eb as [Hs Hn].
  split; [rewrite Hs; change (pysum (map snd (@nil (Q * Q)))) with 0; lra|].
  assert (Hne : p <> []).
  { apply Hn. right. destruct ohlcv; [discriminate El|discriminate]. }
  destruct p as [|kv p]; [congruence|].
  unfold poc_of in Ep. cbn [hd tl] in Ep.
  pose proof (poc_of_spec kv p) as Hspec. cbv zeta in Hspec. rewrite Ep in Hspec.
  destruct Hspec as [Hin Hub]. split; [exact Hin|].
  intros x Hx. exact (Hub x Hx).
Qed.

Lemma volume_profile_conserves_volume_witness :
  exists rep, analyze_liquidity_pools zigzag_candles = Ok (Some rep) /\
              pysum (map snd (volume_profile rep)) == 20.
Proof.
  destruct (analyze_liquidity_pools zigzag_candles) as [[rep|]|e] eqn:E;
    try (vm_compute in E; discriminate E).
  exists rep. split; [reflexivity|].
  destruct (volume_profile_conserves_volume zigzag_candles rep E) as [Hs _].
  rewrite Hs. vm_compute. reflexivity.
Defined.

End PoolProofs.

(** ** Price gaps *)

Module GapProofs.
Import Fusion Advanced Gaps Samples MoreSamples.

Lemma imbalance_at_spec (p c : Candle) (z : ImbZone) :
  In z (imbalance_at p c) ->
  iz_zone_start z < iz_zone_end z /\ iz_timestamp z = timestamp c /\
  ((iz_direction z = "long"%string /\ iz_zone_start z = high p /\ iz_zone_end z = low c)
   \/ (iz_direction z = "short"%string /\ ~ high p < low c
       /\ iz_zone_start z = high c /\ iz_zone_end z = low p)).
Proof.
  unfold imbalance_at. cmp (high p) (low c).
  - intros [<-|[]]. cbn. split; [exact E|]. split; [reflexivity|]. left. repeat split.
  - cmp (high c) (low p); [|intros []].
    intros [<-|[]]. cbn. split; [exact E0|]. split; [reflexivity|]. right.
    repeat split. lra.
Qed.

Lemma fvg_at_spec (p c n : Candle) (z : FvgZone) :
  In z (fvg_at p c n) ->
  fz_zone_start z < fz_mid_point z /\ fz_mid_point z < fz_zone_end z /\
  fz_timestamp z = timestamp c /\
  ((fz_type z = "bullish_fvg"%string /\ fz_direction z = "long"%string
    /\ high p < low c /\ fz_zone_start z = high p /\ fz_zone_end z <= low c)
   \/ (fz_type z = "bearish_fvg"%string /\ fz_direction z = "short"%string
       /\ high c < low p /\ high c <= fz_zone_start z /\ fz_zone_end z = low p)).
Proof.
  unfold fvg_at.
  cmp (high p) (low c); cmp (high p) (low n); cbn [andb].
  1: { intros [<-|[]]. cbn.
       assert (H : high p < pymin (low c) (low n)) by (unfold pymin; cmp (low n) (low c); lra).
       pose proof (pymin_glb (low c) (low n)) as [Hc _].
       assert (Hm : (high p + pymin (low c) (low n)) / 2
                    == (high p + pymin (low c) (low n)) * (1 # 2)) by field.
       split; [lra|]. split; [lra|]. split; [reflexivity|]. left. repeat split; assumption. }
  all: cmp (high c) (low p); cmp (high n) (low p); cbn [andb];
    try match goal with |- In _ [] -> _ => intros [] end.
  all: intros [<-|[]]; cbn;
    assert (H : pymax (high c) (high n) < low p)
      by (unfold pymax; cmp (high c) (high n); lra);
    pose proof (pymax_lub (high c) (high n)) as [Hc _];
    assert (Hm : (pymax (high c) (high n) + low p) / 2
                 == (pymax (high c) (high n) + low p) * (1 # 2)) by field;
    (split; [lra|]); (split; [lra|]); (split; [reflexivity|]); right;
    repeat split; assumption.
Qed.

Lemma imbalance_loop_length (p : Candle) (rest : list Candle) :
  (length (imbalance_loop p rest) <= length rest)%nat.
Proof.
  revert p. induction rest as [|c rest IH]; intro p; cbn [imbalance_loop length]; [lia|].
  rewrite length_app. specialize (IH c).
  assert (length (imbalance_at p c) <= 1)%nat.
  { unfold imbalance_at. destruct (Qltb _ _); [cbn; lia|]. destruct (Qltb _ _); cbn; lia. }
  lia.
Qed.

Lemma fvg_loop_length (p c : Candle) (rest : list Candle) :
  (length (fvg_loop p c rest) <= length rest)%nat.
Proof.
  revert p c. induction rest as [|n rest IH]; intros p c; cbn [fvg_loop length]; [lia|].
  rewrite length_app. specialize (IH c n).
  assert (length (fvg_at p c n) <= 1)%nat.
  { unfold fvg_at. destruct (_ && _); [cbn; lia|]. destruct (_ && _); cbn; lia. }
  lia.
Qed.

Lemma imbalance_loop_spec (p : Candle) (rest : list Candle) (z : ImbZone) :
  In z (imbalance_loop p rest) -> iz_zone_start z < iz_zone_end z.
Proof.
  revert p. induction rest as [|c rest IH]; intro p; cbn [imbalance_loop]; [intros []|].
  intro H. apply in_app_or in H. destruct H as [H|H].
  - exact (proj1 (imbalance_at_spec p c z H)).
  - exact (IH c H).
Qed.

Lemma fvg_loop_spec (p c : Candle) (rest : list Candle) (z : FvgZone) :
  In z (fvg_loop p c rest) ->
  fz_zone_start z < fz_mid_point z /\ fz_mid_point z < fz_zone_end z /\
  (fz_type z = "bullish_fvg"%string \/ fz_type z = "bearish_fvg"%string).
Proof.
  revert p c. induction rest as [|n rest IH]; intros p c; cbn [fvg_loop]; [intros []|].
  intro H. apply in_app_or in H. destruct H as [H|H]; [|exact (IH c n H)].
  destruct (fvg_at_spec p c n z H) as (H1 & H2 & _ & [(Ht & _)|(Ht & _)]);
    (split; [exact H1|]); (split; [exact H2|]); [left|right]; exact Ht.
Qed.

Lemma find_fvg_loop (ohlcv : list Candle) (z : FvgZone) :
  In z (find_fvg ohlcv) ->
  exists p c rest, ohlcv = p :: c :: rest /\ In z (fvg_loop p c rest).
Proof.
  unfold find_fvg. destruct (length ohlcv <? 3)%nat; [intros []|].
  destruct ohlcv as [|p [|c rest]]; [intros []|intros []|].
  intro H. exists p, c, rest. now split.
Qed.

(** X14: the zones found by the gap detectors are proper price
    intervals.  Every imbalance has its start strictly below its end;
    every fair-value gap is bullish or bearish and has its mid point
    strictly between its start and its end; and a series of [n] candles
    yields at most [n - 1] imbalances and [n - 2] fair-value gaps (none
    at all for fewer than three candles). *)
Theorem gaps_are_proper_zones (ohlcv : list Candle) :
  (forall z, In z (find_imbalance ohlcv) -> iz_zone_start z < iz_zone_end z) /\
  (forall z, In z (find_fvg ohlcv) ->
             fz_zone_start z < fz_mid_point z /\ fz_mid_point z < fz_zone_end z /\
             (fz_type z = "bullish_fvg"%string \/ fz_type z = "bearish_fvg"%string)) /\
  (length (find_imbalance ohlcv) <= length ohlcv - 1)%nat /\
  (length (find_fvg ohlcv) <= length ohlcv - 2)%nat.
Proof.
  split; [|split; [|split]].
  - intros z. unfold find_imbalance. destruct (length ohlcv <? 3)%nat; [intros []|].
    destruct ohlcv as [|p rest]; [intros []|]. apply imbalance_loop_spec.
  - intros z H. destruct (find_fvg_loop ohlcv z H) as (p & c & rest & _ & Hin).
    exact (fvg_loop_spec p c rest z Hin).
  - unfold find_imbalance. destruct (length ohlcv <? 3)%nat; [cbn; lia|].
    destruct ohlcv as [|p rest]; [cbn; lia|].
    pose proof (imbalance_loop_length p rest). cbn [length]. lia.
  - unfold find_fvg. destruct (length ohlcv <? 3)%nat; [cbn; lia|].
    destruct ohlcv as [|p [|c rest]]; [cbn; lia|cbn; lia|].
    pose proof (fvg_loop_length p c rest). cbn [length]. lia.
Qed.

Lemma fvg_loop_imbalance (p c : Candle) (rest : list Candle) (z : FvgZone) :
  low p <= high p -> low c <= high c ->
  (forall x, In x rest -> low x <= high x) ->
  In z (fvg_loop p c rest) ->
  exists m, In m (imbalance_loop p (c :: rest)) /\
            iz_timestamp m = fz_timestamp z /\ iz_direction m = fz_direction z /\
            iz_zone_start m <= fz_zone_start z /\ fz_zone_end z <= iz_zone_end m.
Proof.
  revert p c. induction rest as [|n rest IH]; intros p c Hp Hc Hrest;
    cbn [fvg_loop]; [intros []|].
  intro H. apply in_app_or in H. destruct H as [H|H].
  - destruct (fvg_at_spec p c n z H) as (_ & _ & Hts & Hk).
    cbn [imbalance_loop].
    destruct Hk as [(_ & Hd & Hgap & Hs & He)|(_ & Hd & Hgap & Hs & He)].
    + exists (mkImbZone "bullish_imb" (high p) (low c) (timestamp c)
                        (if Qltb (high p * (2 # 1000)) (low c - high p)
                         then "strong" else "weak") "long").
      split.
      * apply in_or_app. left. unfold imbalance_at.
        apply Qltb_lt in Hgap. rewrite Hgap. now left.
      * cbn. rewrite Hts, Hd, Hs. repeat split; lra.
    + exists (mkImbZone "bearish_imb" (high c) (low p) (timestamp c)
                        (if Qltb (low p * (2 # 1000)) (low p - high c)
                         then "strong" else "weak") "short").
      split.
      * apply in_or_app. left. unfold imbalance_at.
        assert (Hno : Qltb (high p) (low c) = false) by (apply Qltb_ge; lra).
        rewrite Hno. apply Qltb_lt in Hgap. rewrite Hgap. now left.
      * cbn. rewrite Hts, Hd, He. repeat split; lra.
  - destruct (IH c n Hc (Hrest n (or_introl eq_refl))
                 (fun x Hx => Hrest x (or_intror Hx)) H) as (m & Hin & Hm).
    exists m. split; [|exact Hm].
    cbn [imbalance_loop]. apply in_or_app. right. exact Hin.
Qed.

(** X15: on candles whose low does not exceed their high, every
    fair-value gap lies inside an imbalance found on the same candles:
    [find_imbalance] reports a zone with the same timestamp and
    direction that contains the gap's zone. *)
Theorem fvg_inside_imbalance (ohlcv : list Candle) (z : FvgZone) :
  (forall c, In c ohlcv -> low c <= high c) ->
  In z (find_fvg ohlcv) ->
  exists m, In m (find_imbalance ohlcv) /\
            iz_timestamp m = fz_timestamp z /\ iz_direction m = fz_direction z /\
            iz_zone_start m <= fz_zone_start z /\ fz_zone_end z <= iz_zone_end m.
Proof.
  intros Hwf H. pose proof H as H'.
  destruct (find_fvg_loop ohlcv z H) as (p & c & rest & -> & Hin).
  unfold find_fvg in H'. unfold find_imbalance.
  destruct (length (p :: c :: rest) <? 3)%nat; [destruct H'|].
  apply fvg_loop_imbalance; try exact Hin.
  - apply Hwf. now left.
  - apply Hwf. right. now left.
  - intros x Hx. apply Hwf. right. now right.
Qed.

Lemma fvg_inside_imbalance_witness :
  exists z m, In z (find_fvg gap_down_candles) /\ In m (find_imbalance gap_down_candles) /\
              iz_zone_start m <= fz_zone_start z /\ fz_zone_end z <= iz_zone_end m.
Proof.
  set (z := mkFvgZone "bearish_fvg" 95 99 2 ((95 + 99) / 2) "short" "pullback_test").
  assert (Hin : In z (find_fvg gap_down_candles)) by (vm_compute; left; reflexivity).
  assert (Hwf : forall c, In c gap_down_candles -> low c <= high c).
  { intros c [<-|[<-|[<-|[]]]]; vm_compute; discriminate. }
  destruct (fvg_inside_imbalance gap_down_candles z Hwf Hin)
    as (m & Hm & _ & _ & Hs & He).
  exists z, m. split; [exact Hin|]. split; [exact Hm|]. split; assumption.
Defined.

(** X16: the level-confirmation test of [analyze_market] reads a
    bearish gap the wrong way round.  For a gap found by [find_fvg] on
    positive prices and a price inside it, a bullish gap both emits the
    long entry signal and counts as level confirmation, while a bearish
    gap emits the short entry signal but never counts as level
    confirmation. *)
Theorem bearish_gap_never_confirms (ohlcv : list Candle) (z : FvgZone) (cp : Q) :
  In z (find_fvg ohlcv) ->
  0 < fz_zone_start z ->
  fz_zone_start z <= cp -> cp < fz_zone_end z ->
  (fz_type z = "bullish_fvg"%string ->
   fvg_signal cp (as_fvg z) = [mkAdvSignal "fvg" "long" 2] /\
   level_confirmed_by (Some cp) (as_fvg z) = true) /\
  (fz_type z = "bearish_fvg"%string ->
   fvg_signal cp (as_fvg z) = [mkAdvSignal "fvg" "short" 2] /\
   level_confirmed_by (Some cp) (as_fvg z) = false).
Proof.
  intros Hin Hpos Hlo Hhi.
  assert (H1 : Qleb cp (fz_zone_end z * (1005 # 1000)) = true) by (apply Qleb_le; lra).
  assert (H2 : Qleb (fz_zone_start z * (995 # 1000)) cp = true) by (apply Qleb_le; lra).
  assert (Hcp : Qeqb cp 0 = false).
  { apply MonitorProofs.Qeqb_false. intro H0. lra. }
  unfold fvg_signal, level_confirmed_by, price_truthy.
  cbn [fvg_type zone_start zone_end as_fvg]. rewrite H1, H2, Hcp. cbn [andb negb].
  split; intros ->; cbn [String.eqb Ascii.eqb Bool.eqb andb].
  - split; [reflexivity|].
    apply andb_true_iff. split; apply Qleb_le; lra.
  - split; [reflexivity|].
    apply andb_false_iff. left. apply Qleb_gt. exact Hhi.
Qed.

Lemma bearish_gap_never_confirms_witness :
  fvg_signal 97 (mkFVG "bearish_fvg" 95 99 ((95 + 99) / 2)) = [mkAdvSignal "fvg" "short" 2] /\
  level_confirmed_by (Some 97) (mkFVG "bearish_fvg" 95 99 ((95 + 99) / 2)) = false.
Proof.
  set (z := mkFvgZone "bearish_fvg" 95 99 2 ((95 + 99) / 2) "short" "pullback_test").
  assert (Hin : In z (find_fvg gap_down_candles)) by (vm_compute; left; reflexivity).
  destruct (bearish_gap_never_confirms gap_down_candles z 97 Hin) as [_ Hbear].
  - reflexivity.
  - vm_compute. discriminate.
  - reflexivity.
  - exact (Hbear eq_refl).
Defined.

End GapProofs.

(** ** Candle patterns *)

Module CandleProofs.
Import Candles Samples MoreSamples.

Lemma hammer_is_hanging_man (candle : Candle) :
  _is_hammer candle = _is_hanging_man candle
                      && Qltb (open candle * (99 # 100)) (close candle).
Proof. reflexivity. Qed.

Lemma pin_bar_sides (candle : Candle) (side : string) :
  _is_pin_bar candle = Some side -> side = "bearish"%string \/ side = "bullish"%string.
Proof.
  unfold _is_pin_bar. destruct (_ && _); [intro H; injection H as <-; now left|].
  destruct (_ && _); [intro H; injection H as <-; now right|discriminate].
Qed.

(** A rising candle cannot be swallowed by a falling one in the sense of
    [_is_engulfing]: the test asks the current candle to open below the
    previous close and to close above the previous open. *)
Lemma no_bearish_engulfing (prev curr : Candle) :
  _is_engulfing prev curr = true ->
  Qltb (close curr) (open curr) && Qltb (open prev) (close prev) = false.
Proof.
  unfold _is_engulfing, body. intro H.
  apply andb_true_iff in H. destruct H as [H H3].
  apply andb_true_iff in H. destruct H as [H1 H2].
  apply Qltb_lt in H1, H2, H3.
  cmp (close curr) (open curr); [|reflexivity].
  cmp (open prev) (close prev); [|reflexivity]. exfalso.
  assert (Hc : Qabs (close curr - open curr) == - (close curr - open curr))
    by (apply Qabs_neg; lra).
  assert (Hp : Qabs (close prev - open prev) == close prev - open prev)
    by (apply Qabs_pos; lra).
  rewrite Hc, Hp in H1. lra.
Qed.

(** What the pattern tests can append, given the test of the hanging
    man and of the engulfing. *)
Lemma detect_bullish (prev_candle last_candle : Candle) :
  let found := detect prev_candle last_candle in
  (In Hammer (map fst found) -> In HangingMan (map fst found)) /\
  ~ In BearishEngulfing (map fst found) /\
  ((count_signal "bearish" (map snd found) < count_signal "bullish" (map snd found))%nat ->
   In BullishEngulfing (map fst found) \/ In (PinBar "bullish") (map fst found)).
Proof.
  cbv zeta. unfold detect. rewrite hammer_is_hanging_man.
  pose proof (no_bearish_engulfing prev_candle last_candle) as Hne.
  pose proof (pin_bar_sides last_candle) as Hpin.
  destruct (_is_hanging_man last_candle);
    destruct (Qltb (open last_candle * (99 # 100)) (close last_candle));
    destruct (_is_engulfing prev_candle last_candle);
    try (rewrite (Hne eq_refl));
    try destruct (Qltb (open last_candle) (close last_candle)
                  && Qltb (close prev_candle) (open prev_candle));
    destruct (_is_doji last_candle);
    destruct (_is_shooting_star last_candle);
    destruct (_is_pin_bar last_candle) as [side|];
    try (destruct (Hpin side eq_refl) as [-> | ->]);
    cbn; (split; [intuition (first [discriminate | auto 12])|]);
    (split; [intuition discriminate|]);
    intro Hc; first [lia | auto 12].
Qed.

Lemma analyze_candles_found (ohlcv : list Candle) (rep : CandleReport) :
  analyze_candles ohlcv = Some rep ->
  exists prev_candle last_candle,
    let found := detect prev_candle last_candle in
    patterns rep = map fst found /\
    (Candles.overall_signal rep = "bullish"%string ->
     (count_signal "bearish" (map snd found)
      < count_signal "bullish" (map snd found))%nat).
Proof.
  unfold analyze_candles. destruct (length ohlcv <? 3)%nat; [discriminate|].
  cbv zeta.
  set (found := detect _ _).
  destruct (count_signal "bearish" (map snd found)
            <? count_signal "bullish" (map snd found))%nat eqn:E1.
  - intro H. injection H as <-. do 2 eexists. split; [reflexivity|].
    intros _. apply Nat.ltb_lt. exact E1.
  - destruct (count_signal "bullish" (map snd found)
              <? count_signal "bearish" (map snd found))%nat;
      intro H; injection H as <-; do 2 eexists; (split; [reflexivity|]);
      cbn; intro Hd; discriminate Hd.
Qed.

(** X17: a hammer never makes the candle analysis bullish.  Every
    hammer is also reported as a hanging man, whose bearish signal
    offsets it, so when [analyze_candles] reports a bullish overall
    signal the last candle shows a bullish engulfing or a bullish pin
    bar. *)
Theorem bullish_candle_needs_engulfing_or_pin_bar
        (ohlcv : list Candle) (rep : CandleReport) :
  analyze_candles ohlcv = Some rep ->
  (In Hammer (patterns rep) -> In HangingMan (patterns rep)) /\
  (Candles.overall_signal rep = "bullish"%string ->
   In BullishEngulfing (patterns rep) \/ In (PinBar "bullish") (patterns rep)).
Proof.
  intro H. destruct (analyze_candles_found ohlcv rep H) as (p & l & Hp & Hc).
  cbv zeta in Hp, Hc. rewrite Hp.
  destruct (detect_bullish p l) as (Hh & _ & Hb). cbv zeta in Hh, Hb.
  split; [exact Hh|]. intro Ho. exact (Hb (Hc Ho)).
Qed.

Lemma bullish_candle_needs_engulfing_or_pin_bar_witness :
  exists rep, analyze_candles engulfing_candles = Some rep /\
              (In BullishEngulfing (patterns rep) \/ In (PinBar "bullish") (patterns rep)).
Proof.
  destruct (analyze_candles engulfing_candles) as [rep|] eqn:E;
    [|vm_compute in E; discriminate E].
  exists rep. split; [reflexivity|].
  apply (bullish_candle_needs_engulfing_or_pin_bar engulfing_candles rep E).
  vm_compute in E. injection E as <-. reflexivity.
Defined.

(** X18: [analyze_candles] never reports a bearish engulfing.  The
    engulfing test asks the last candle to open below the previous
    close and to close above the previous open, which a falling candle
    larger than the rising one before it cannot do. *)
Theorem bearish_engulfing_never_reported (ohlcv : list Candle) (rep : CandleReport) :
  analyze_candles ohlcv = Some rep -> ~ In BearishEngulfing (patterns rep).
Proof.
  intro H. destruct (analyze_candles_found ohlcv rep H) as (p & l & Hp & _).
  cbv zeta in Hp. rewrite Hp.
  exact (proj1 (proj2 (detect_bullish p l))).
Qed.

Lemma bearish_engulfing_never_reported_witness :
  exists rep, analyze_candles engulfing_candles = Some rep /\
              ~ In BearishEngulfing (patterns rep).
Proof.
  destruct (analyze_candles engulfing_candles) as [rep|] eqn:E;
    [|vm_compute in E; discriminate E].
  exists rep. split; [reflexivity|].
  exact (bearish_engulfing_never_reported engulfing_candles rep E).
Defined.

End CandleProofs.

(** ** Indicator classifiers and the fused score *)

Module ClassifierProofs.
Import Fusion Engine Classifiers Samples MoreSamples FusionProofs.

Lemma nonempty_true {A : Type} (l : list A) : l <> [] -> nonempty l = true.
Proof. destruct l; [congruence|reflexivity]. Qed.

(** X19: the vote of the moving averages follows the side of the price
    relative to the fast average only.  With both series present and
    their last values different, [analyze_market] adds 10 for a price
    above the last 9-period value and subtracts 10 for a price below
    it, whether the fast average is above or below the slow one; it
    adds nothing when the two averages coincide or the price sits on
    the fast one. *)
Theorem ema_vote_follows_price
        (ema_9 ema_21 ema_50 ema_200 : list Q) (current_price : Q) :
  ema_9 <> [] -> ema_21 <> [] ->
  let trend := _get_ema_trend ema_9 ema_21 ema_50 ema_200 current_price in
  (~ last ema_9 0 == last ema_21 0 ->
   (last ema_9 0 < current_price -> ema_vote trend = (["ema_bullish"%string], 10)) /\
   (current_price < last ema_9 0 -> ema_vote trend = (["ema_bearish"%string], - (10)))) /\
  (last ema_9 0 == last ema_21 0 \/ current_price == last ema_9 0 ->
   ema_vote trend = no_vote).
Proof.
  intros H9 H21. cbv zeta. unfold _get_ema_trend.
  rewrite (nonempty_true _ H9), (nonempty_true _ H21). cbn [negb orb].
  set (e9 := last ema_9 0). set (e21 := last ema_21 0).
  split.
  - intro Hne. split; intro Hp.
    + cmp e9 current_price; [|lra]. cmp e21 e9; cbn [andb]; [reflexivity|].
      cmp e9 e21; [reflexivity|]. exfalso. apply Hne. lra.
    + cmp e9 current_price; [lra|]. cbn [andb].
      cmp current_price e9; [|lra]. cmp e9 e21; cbn [andb]; [reflexivity|].
      cmp e21 e9; [reflexivity|]. exfalso. apply Hne. lra.
  - intros [Heq|Heq].
    + cmp e21 e9; [lra|]. cmp e9 e21; [lra|].
      rewrite !andb_false_r. reflexivity.
    + cmp e9 current_price; [lra|]. cmp current_price e9; [lra|]. reflexivity.
Qed.

Lemma ema_vote_follows_price_witness :
  ema_vote (_get_ema_trend [100; 101] [103; 102] [] [] (1015 # 10))
  = (["ema_bullish"%string], 10).
Proof.
  destruct (ema_vote_follows_price [100; 101] [103; 102] [] [] (1015 # 10))
    as [H _]; try discriminate.
  apply H; vm_compute; [discriminate|reflexivity].
Defined.

(** X20: an analysis either fails or has a confirmation.  When the
    indicator dictionary holds [None] for the MACD, [analyze_market]
    raises and the engine answers every such analysis with [skip]; when
    it holds a MACD entry built from a histogram value, whose signal
    type is always bullish or bearish, the analysis succeeds, the MACD
    casts its 15 points and the report counts at least one confirming
    source, named indicator. *)
Theorem analysis_fails_or_confirms (i : FusionInput) :
  (macd (indicators i) = None ->
   analyze_market i = Raise AttributeError /\
   forall ohlcv_ltf orderbook ticker_last analysis_htf ohlcv_4h,
     analyze_and_trade ohlcv_ltf orderbook ticker_last i analysis_htf ohlcv_4h
     = Failed AttributeError (skip (AnalysisFailed AttributeError))) /\
  (forall histogram,
      macd (indicators i) = Some (macd_signal_type histogram) ->
      exists a, analyze_market i = Ok a /\
                (1 <= count (confirmations a))%nat /\
                In "indicator"%string (sources (confirmations a)) /\
                exists label,
                  vote_pair (macd (indicators i)) "bullish" "macd_bullish"
                            "bearish" "macd_bearish" 15
                  = ([label], if Qltb 0 histogram then 15 else - (15))).
Proof.
  split.
  - intro Hm.
    assert (Ha : analyze_market i = Raise AttributeError).
    { unfold analyze_market, confirmation_sources. rewrite Hm. reflexivity. }
    split; [exact Ha|]. intros. unfold analyze_and_trade. rewrite Ha. reflexivity.
  - intros h Hm.
    destruct (analyze_market i) as [a|e] eqn:Ea.
    + exists a. split; [reflexivity|].
      destruct (analyze_market_report i a Ea) as (cs & Hcs & Hn & Hsrc & _).
      unfold confirmation_sources in Hcs. rewrite Hm in Hcs.
      injection Hcs as <-. rewrite Hn, Hsrc, Hm.
      assert (Hc : macd_confirms (macd_signal_type h) = true)
        by (unfold macd_signal_type; destruct (Qltb 0 h); reflexivity).
      rewrite Hc. cbn [tag]. split; [|split].
      * rewrite !length_app. cbn [length]. lia.
      * apply in_or_app. right. now left.
      * unfold macd_signal_type. destruct (Qltb 0 h); eexists; reflexivity.
    + exfalso. unfold analyze_market, confirmation_sources in Ea. rewrite Hm in Ea.
      cbn [bind] in Ea. destruct (score _ _ _). discriminate Ea.
Qed.

Lemma analysis_fails_or_confirms_witness :
  exists a, analyze_market two_source_input = Ok a /\
            (1 <= count (confirmations a))%nat.
Proof.
  destruct (analysis_fails_or_confirms two_source_input) as [_ H].
  destruct (H 1 eq_refl) as (a & Ha & Hc & _).
  exists a. split; assumption.
Defined.

Lemma Qlt_div_iff (n s c : Q) : 0 < s -> (c < n / s <-> c * s < n).
Proof.
  intro Hs. split; intro H.
  - apply Qmult_lt_r with (z := / s); [now apply Qinv_lt_0_compat|].
    setoid_replace (c * s * / s) with c by (field; lra). exact H.
  - apply Qmult_lt_r with (z := s); [exact Hs|].
    setoid_replace (n / s * s) with n by (field; lra). exact H.
Qed.

Lemma Qdiv_lt_iff' (n s c : Q) : 0 < s -> (n / s < c <-> n < c * s).
Proof.
  intro Hs. split; intro H.
  - apply Qmult_lt_r with (z := / s); [now apply Qinv_lt_0_compat|].
    setoid_replace (c * s * / s) with c by (field; lra). exact H.
  - apply Qmult_lt_r with (z := s); [exact Hs|].
    setoid_replace (n / s * s) with n by (field; lra). exact H.
Qed.

(** X21: the order-book summary of [_analyze_orderbook].  On a book
    with both sides present, volumes that add up to zero over the first
    fifty levels make the call raise a division error.  With a
    non-negative bid volume and a positive ask volume the summary is
    returned, its imbalance lies in [-100, 100), and its signal agrees
    with the imbalance it reports: bullish exactly when the imbalance
    exceeds 100/11 (about 9.1), bearish exactly when it is below
    -1700/183 (about -9.3). *)
Theorem orderbook_summary_consistent (orderbook : OrderBook) :
  let tb := pysum (map snd (firstn 50 (bids orderbook))) in
  let ta := pysum (map snd (firstn 50 (asks orderbook))) in
  bids orderbook <> [] -> asks orderbook <> [] ->
  (tb + ta == 0 -> _analyze_orderbook orderbook = Raise ZeroDivisionError) /\
  (0 <= tb -> 0 < ta ->
   exists rep,
     _analyze_orderbook orderbook = Ok (Some rep) /\
     - (100) <= imbalance rep /\ imbalance rep < 100 /\
     (book_signal rep = "bullish"%string <-> (100 # 11) < imbalance rep) /\
     (book_signal rep = "bearish"%string <-> imbalance rep < - (1700 # 183))).
Proof.
  cbv zeta. intros Hb Ha. unfold _analyze_orderbook.
  rewrite (nonempty_true _ Hb), (nonempty_true _ Ha). cbn [negb orb].
  set (tb := pysum (map snd (firstn 50 (bids orderbook)))).
  set (ta := pysum (map snd (firstn 50 (asks orderbook)))).
  split.
  - intro H0. rewrite (LiquidityPoolsProofs.Qeqb_true _ _ H0). reflexivity.
  - intros Hb0 Ha0.
    assert (Hs : 0 < tb + ta) by lra.
    rewrite MonitorProofs.Qeqb_false by lra.
    eexists. split; [reflexivity|]. cbn [imbalance book_signal].
    assert (Hpos : Qltb 0 ta = true) by (now apply Qltb_lt). rewrite Hpos.
    set (x := (tb - ta) / (tb + ta)).
    set (r := tb / ta).
    pose proof (Qlt_div_iff (tb - ta) (tb + ta)) as Hx1.
    pose proof (Qdiv_lt_iff' (tb - ta) (tb + ta)) as Hx2.
    pose proof (Qlt_div_iff tb ta) as Hr1.
    pose proof (Qdiv_lt_iff' tb ta) as Hr2.
    fold x in Hx1, Hx2. fold r in Hr1, Hr2.
    assert (Hlo : - (1) <= x).
    { destruct (Qlt_le_dec x (- (1))) as [H|H]; [|exact H].
      apply (Hx2 _ Hs) in H. lra. }
    assert (Hhi : x < 1) by (apply (Hx2 _ Hs); lra).
    split; [lra|]. split; [lra|].
    cmp (12 # 10) r.
    + apply (Hr1 _ Ha0) in E.
      assert (H : (1 # 11) < x) by (apply (Hx1 _ Hs); lra).
      split; split; try discriminate; try reflexivity; intros; lra.
    + assert (H : x <= (1 # 11)).
      { destruct (Qlt_le_dec (1 # 11) x) as [H|H]; [|exact H].
        apply (Hx1 _ Hs) in H.
        assert (Hr : (12 # 10) < r) by (apply (Hr1 _ Ha0); lra). lra. }
      cmp r (83 # 100).
      * apply (Hr2 _ Ha0) in E0.
        assert (H' : x < - (17 # 183)) by (apply (Hx2 _ Hs); lra).
        split; split; try discriminate; try reflexivity; intros; lra.
      * assert (H' : - (17 # 183) <= x).
        { destruct (Qlt_le_dec x (- (17 # 183))) as [H'|H']; [|exact H'].
          apply (Hx2 _ Hs) in H'.
          assert (Hr : r < (83 # 100)) by (apply (Hr2 _ Ha0); lra). lra. }
        split; split; try discriminate; intros; lra.
Qed.

Lemma orderbook_summary_consistent_witness :
  exists rep,
    _analyze_orderbook (mkOrderBook [(100, 3)] [(101, 2)]) = Ok (Some rep) /\
    book_signal rep = "bullish"%string /\ (100 # 11) < imbalance rep.
Proof.
  destruct (orderbook_summary_consistent (mkOrderBook [(100, 3)] [(101, 2)]))
    as [_ H]; try discriminate.
  destruct H as (rep & Hrep & _ & _ & Hbull & _);
    [vm_compute; discriminate | reflexivity |].
  exists rep. split; [exact Hrep|].
  assert (Hs : book_signal rep = "bullish"%string).
  { vm_compute in Hrep. injection Hrep as <-. reflexivity. }
  split; [exact Hs|]. apply Hbull. exact Hs.
Defined.

(** X22: the fallback recommendation of [_generate_recommendation].
    For a positive price and a signal other than neutral a plan is
    returned; it is a long plan exactly when the signal's name contains
    long; its stop and target lie on the proper sides of its entry; and
    its reward is 31/14 of its risk, about 2.2, below the ratio of 3
    that the volatility calibration aims at. *)
Theorem fallback_recommendation_levels (signal : string) (price : Q) :
  0 < price -> signal <> "neutral"%string ->
  exists plan,
    _generate_recommendation signal (Some price) = Some plan /\
    (if contains "long" signal
     then plan_direction plan = "LONG"%string /\
          plan_stop_loss plan < plan_entry plan /\ plan_entry plan < plan_take_profit plan
     else plan_direction plan = "SHORT"%string /\
          plan_take_profit plan < plan_entry plan /\ plan_entry plan < plan_stop_loss plan) /\
    RiskCalibrator.reward (plan_entry plan) (plan_take_profit plan)
    == (31 # 14) * RiskCalibrator.risk (plan_entry plan) (plan_stop_loss plan) /\
    (31 # 14) < RiskCalibrator.target_rr.
Proof.
  intros Hp Hn. unfold _generate_recommendation.
  apply String.eqb_neq in Hn. rewrite Hn.
  unfold RiskCalibrator.reward, RiskCalibrator.risk.
  destruct (contains "long" signal); eexists; (split; [reflexivity|]);
    cbn [plan_direction plan_entry plan_stop_loss plan_take_profit].
  - split; [split; [reflexivity|split; lra]|]. split; [|reflexivity].
    rewrite (Qabs_pos (price * (103 # 100) - price * (999 # 1000))) by lra.
    rewrite (Qabs_pos (price * (999 # 1000) - price * (985 # 1000))) by lra.
    lra.
  - split; [split; [reflexivity|split; lra]|]. split; [|reflexivity].
    rewrite (Qabs_neg (price * (97 # 100) - price * (1001 # 1000))) by lra.
    rewrite (Qabs_neg (price * (1001 # 1000) - price * (1015 # 1000))) by lra.
    lra.
Qed.

Lemma fallback_recommendation_levels_witness :
  exists plan,
    _generate_recommendation "strong_long" (Some 100) = Some plan /\
    plan_stop_loss plan < plan_entry plan /\ plan_entry plan < plan_take_profit plan.
Proof.
  destruct (fallback_recommendation_levels "strong_long" 100)
    as (plan & Hplan & Hord & _); [reflexivity|discriminate|].
  exists plan. split; [exact Hplan|].
  change (contains "long" "strong_long") with true in Hord.
  destruct Hord as (_ & H1 & H2). split; assumption.
Defined.

End ClassifierProofs.

(** ** Calibration failures when opening a position *)

Module CalibrationProofs.
Import Store Monitor Orchestrator Classifiers Samples MoreSamples.

Lemma short_history_no_levels (entry : Q) (direction : string) (leverage : Z)
      (timeframe : string) (candles_limit : Z) (candles : list Candle) :
  (length candles < 50)%nat ->
  exists reason,
    RiskCalibrator.calculate_scalping_sl_tp entry direction leverage timeframe
                                            candles_limit candles
    = RiskCalibrator.no_levels reason.
Proof.
  intro H. unfold RiskCalibrator.calculate_scalping_sl_tp.
  destruct (Qleb entry 0); [eexists; reflexivity|].
  apply Nat.ltb_lt in H. cbv zeta. rewrite H. eexists. reflexivity.
Qed.

Lemma calibrate_short_history (data : UserData) (r : Replies) (e : Q)
      (direction : string) (sl tp : option Q) (candles : list Candle) :
  ohlcv r = Ok candles -> (length candles < 50)%nat ->
  0 <= atr_min_percent data ->
  calibrate data r (Some e) direction sl tp = inl LowVolatility.
Proof.
  intros Ho Hlen Hmin. unfold calibrate. rewrite Ho.
  destruct (short_history_no_levels e direction (user_leverage data) "5m" 1440
                                    candles Hlen) as [reason ->].
  cbn [RiskCalibrator.meta RiskCalibrator.no_levels].
  assert (H : Qltb 0 (if Qeqb (atr_min_percent data) 0
                      then 25 # 100 else atr_min_percent data) = true).
  { apply Qltb_lt. destruct (Qeqb (atr_min_percent data) 0) eqn:E; [reflexivity|].
    destruct (Qlt_le_dec 0 (atr_min_percent data)) as [H|H]; [exact H|].
    assert (H0 : atr_min_percent data == 0) by lra.
    apply LiquidityPoolsProofs.Qeqb_true in H0. congruence. }
  rewrite H. reflexivity.
Qed.

(** X23: a short candle history blocks the open.  When the candle
    request of the calibration answers with fewer than 50 candles, the
    calibration reports no volatility figure, the orchestrator reads it
    as a volatility of zero, and, for any non-negative minimum in the
    account settings and an entry price present in the recommendation,
    [_analyze_and_trade] opens nothing and leaves the account data
    alone, whatever the decision. *)
Theorem short_history_blocks_open
        (cooldowns : Cooldowns) (sym : string) (data : UserData) (r : Replies)
        (candles : list Candle) :
  ohlcv r = Ok candles -> (length candles < 50)%nat ->
  0 <= atr_min_percent data ->
  (forall rc, recommendation r = Some rc -> rec_entry rc <> None) ->
  snd (_analyze_and_trade cooldowns sym data r) = data /\
  forall t, fst (_analyze_and_trade cooldowns sym data r) <> Opened t.
Proof.
  intros Ho Hlen Hmin Hrec.
  assert (Hopen : forall analysis action result_price,
             snd (open_position sym data r analysis action result_price) = data /\
             forall t, fst (open_position sym data r analysis action result_price)
                       <> Opened t).
  { intros analysis action result_price. unfold open_position.
    destruct (if is_demo_mode data then Ok (demo_balance data) else balance r)
      as [bal|e]; [|split; [reflexivity|intros t H; discriminate H]].
    destruct (recommendation r) as [rc|] eqn:Er.
    - destruct (rec_entry rc) as [e|] eqn:Ee; [|exfalso; exact (Hrec rc eq_refl Ee)].
      rewrite (calibrate_short_history data r e _ _ _ candles Ho Hlen Hmin).
      split; [reflexivity|intros t H; discriminate H].
    - rewrite (calibrate_short_history data r _ _ _ _ candles Ho Hlen Hmin).
      split; [reflexivity|intros t H; discriminate H]. }
  unfold _analyze_and_trade.
  destruct (in_cooldown cooldowns sym data (now r));
    [split; [reflexivity|intros t H; discriminate H]|].
  destruct (outcome r) as [e dcs|analysis decision result_price];
    [split; [reflexivity|intros t H; discriminate H]|].
  destruct (String.prefix "open_" (Engine.action decision));
    [|split; [reflexivity|intros t H; discriminate H]].
  destruct (if is_demo_mode data then None else position_guard data sym (positions r))
    as [e|] eqn:Eg; [|apply Hopen].
  split; [reflexivity|]. intros t H. cbn [fst] in H. subst e.
  destruct (is_demo_mode data); [discriminate|].
  unfold position_guard in Eg.
  destruct (positions r); [|discriminate].
  destruct (_ <=? _)%nat; [discriminate|].
  destruct (existsb _ _); discriminate.
Qed.

Lemma short_history_blocks_open_witness :
  snd (_analyze_and_trade [] zec (demo_account 10000 [])
         (mkReplies 60 strong_long_outcome None (Ok []) (Ok 10000)
                    (Ok (mkTicker 100 0 0)) (Ok flat_candles)
                    (Ok (mkOrderReply (Some 100) None))))
  = demo_account 10000 [].
Proof.
  apply (short_history_blocks_open [] zec (demo_account 10000 []) _ flat_candles).
  - reflexivity.
  - vm_compute. lia.
  - vm_compute. discriminate.
  - intros rc H. discriminate H.
Defined.

(** X24: when the candle request of the calibration fails, the open
    goes ahead on the levels of the recommendation.  In demo mode, with
    a recommendation whose entry is positive and at most 100,000 (so
    that 100 USDT buy at least 0.001 units), the trade is opened and
    stored with exactly the stop and the target of the recommendation,
    uncalibrated; its amount is 100 USDT at the recommended entry. *)
Theorem fallback_levels_when_candles_fail
        (sym : string) (data : UserData) (r : Replies) (analysis : Fusion.Analysis)
        (action : string) (result_price : Q) (plan : EntryPlan) (e : exn) :
  is_demo_mode data = true ->
  recommendation r = Some (as_recommendation plan) ->
  ohlcv r = Raise e ->
  0 < plan_entry plan -> plan_entry plan <= 100000 ->
  exists t,
    open_position sym data r analysis action result_price
    = (Opened t, add_demo_trade data t) /\
    stop_loss t = Some (plan_stop_loss plan) /\
    take_profit t = Some (plan_take_profit plan) /\
    amount t == 100 / plan_entry plan /\ symbol t = sym.
Proof.
  intros Hdemo Hrec Ho Hpos Hmax. unfold open_position.
  rewrite Hdemo, Hrec. cbn [as_recommendation rec_entry rec_stop_loss rec_take_profit].
  unfold calibrate. rewrite Ho.
  rewrite (MonitorProofs.Qeqb_false (plan_entry plan) 0) by lra.
  assert (H1 : Qltb 0 (plan_entry plan) = true) by (now apply Qltb_lt).
  rewrite H1. cbn [negb].
  assert (H2 : Qltb (100 / plan_entry plan) (1 # 1000) = false).
  { apply Qltb_ge. apply Qle_shift_div_l; [exact Hpos|]. lra. }
  rewrite H2. unfold execute_trade.
  destruct (Qeqb (price_from_ticker (ticker r)) 0) eqn:Ep.
  - rewrite (MonitorProofs.Qeqb_false (plan_entry plan) 0) by lra.
    eexists. split; [reflexivity|]. cbn. repeat split; reflexivity.
  - rewrite Ep. eexists. split; [reflexivity|]. cbn. repeat split; reflexivity.
Qed.

Lemma fallback_levels_when_candles_fail_witness :
  exists t,
    open_position zec (demo_account 10000 [])
      (mkReplies 60 strong_long_outcome
         (Some (as_recommendation (mkEntryPlan "LONG" (999 # 10) (985 # 10) 103)))
         (Ok []) (Ok 10000) (Ok (mkTicker 100 0 0)) (Raise ValueError)
         (Ok (mkOrderReply (Some 100) None)))
      (Fusion.mkAnalysis None (Fusion.mkIndicators "neutral" None None None None "neutral" 1)
         quiet [] "strong_long" 87 (Fusion.mkConfirmations 3 [] 3) [] None)
      "open_long" 100
    = (Opened t, add_demo_trade (demo_account 10000 []) t) /\
    stop_loss t = Some (985 # 10) /\ take_profit t = Some 103.
Proof.
  destruct (fallback_levels_when_candles_fail zec (demo_account 10000 [])
              (mkReplies 60 strong_long_outcome
                 (Some (as_recommendation (mkEntryPlan "LONG" (999 # 10) (985 # 10) 103)))
                 (Ok []) (Ok 10000) (Ok (mkTicker 100 0 0)) (Raise ValueError)
                 (Ok (mkOrderReply (Some 100) None)))
              (Fusion.mkAnalysis None
                 (Fusion.mkIndicators "neutral" None None None None "neutral" 1)
                 quiet [] "strong_long" 87 (Fusion.mkConfirmations 3 [] 3) [] None)
              "open_long" 100 (mkEntryPlan "LONG" (999 # 10) (985 # 10) 103) ValueError
              eq_refl eq_refl eq_refl) as (t & Ht & Hsl & Htp & _).
  - reflexivity.
  - vm_compute. discriminate.
  - exists t. split; [exact Ht|]. split; assumption.
Defined.

End CalibrationProofs.

(** ** The market scanner *)

Module ScannerProofs.
Import Fusion Engine Scanner Samples MoreSamples.

Lemma in_firstn {A : Type} (n : nat) (l : list A) (x : A) :
  In x (firstn n l) -> In x l.
Proof.
  revert n. induction l as [|y l IH]; intro n.
  - rewrite firstn_nil. intros [].
  - destruct n as [|n]; [intros []|]. cbn [firstn].
    intros [<-|H]; [now left|right; exact (IH n H)].
Qed.

Lemma key_lt_spec (a b : ScanResult) :
  key_lt a b = true <->
  sr_probability a < sr_probability b
  \/ (sr_probability a == sr_probability b
      /\ (sr_confirmations a < sr_confirmations b)%nat).
Proof.
  unfold key_lt. rewrite orb_true_iff, andb_true_iff, Qltb_lt, Nat.ltb_lt.
  unfold Qeqb. rewrite Qeq_bool_iff. reflexivity.
Qed.

Lemma key_ge_spec (a b : ScanResult) : key_lt a b = false -> ranks_before a b.
Proof.
  intro H. unfold ranks_before.
  destruct (Qlt_le_dec (sr_probability b) (sr_probability a)) as [Hlt|Hle];
    [now left|].
  destruct (Qlt_le_dec (sr_probability a) (sr_probability b)) as [Hlt|Hge].
  - assert (Ht : key_lt a b = true) by (apply key_lt_spec; now left). congruence.
  - right. split; [lra|].
    destruct (le_lt_dec (sr_confirmations b) (sr_confirmations a)) as [Hc|Hc];
      [exact Hc|].
    assert (Ht : key_lt a b = true) by (apply key_lt_spec; right; split; [lra|exact Hc]).
    congruence.
Qed.

Lemma ranks_before_trans (a b c : ScanResult) :
  ranks_before a b -> ranks_before b c -> ranks_before a c.
Proof.
  unfold ranks_before. intros [H1|[H1 H1']] [H2|[H2 H2']].
  - left. lra.
  - left. lra.
  - left. lra.
  - right. split; [lra|lia].
Qed.

Lemma key_lt_ranks_before (a b : ScanResult) : key_lt a b = true -> ranks_before b a.
Proof.
  intro H. apply key_lt_spec in H. unfold ranks_before.
  destruct H as [H|[H H']]; [now left|right]. split; [lra|lia].
Qed.

Lemma insert_desc_in (x z : ScanResult) (l : list ScanResult) :
  In z (insert_desc x l) <-> z = x \/ In z l.
Proof.
  induction l as [|y l IH]; cbn [insert_desc].
  - cbn. intuition.
  - destruct (key_lt y x); cbn [In]; [intuition|]. rewrite IH. intuition.
Qed.

Lemma insert_desc_length (x : ScanResult) (l : list ScanResult) :
  length (insert_desc x l) = S (length l).
Proof.
  induction l as [|y l IH]; cbn [insert_desc]; [reflexivity|].
  destruct (key_lt y x); cbn [length]; [reflexivity|now rewrite IH].
Qed.

Lemma insert_desc_sorted (x : ScanResult) (l : list ScanResult) :
  StronglySorted ranks_before l -> StronglySorted ranks_before (insert_desc x l).
Proof.
  induction l as [|y l IH]; cbn [insert_desc]; intro Hs.
  - constructor; [constructor|constructor].
  - apply StronglySorted_inv in Hs. destruct Hs as [Hs Hy].
    destruct (key_lt y x) eqn:E.
    + constructor; [constructor; assumption|].
      apply key_lt_ranks_before in E.
      constructor; [exact E|].
      apply Forall_forall. intros z Hz.
      apply (ranks_before_trans x y z E).
      exact (proj1 (Forall_forall _ _) Hy z Hz).
    + constructor; [exact (IH Hs)|].
      apply Forall_forall. intros z Hz. apply insert_desc_in in Hz.
      destruct Hz as [->|Hz]; [exact (key_ge_spec y x E)|].
      exact (proj1 (Forall_forall _ _) Hy z Hz).
Qed.

Lemma sort_desc_spec (l : list ScanResult) :
  StronglySorted ranks_before (sort_desc l) /\
  (forall z, In z (sort_desc l) <-> In z l) /\
  length (sort_desc l) = length l.
Proof.
  unfold sort_desc.
  assert (H : forall acc,
             StronglySorted ranks_before acc ->
             StronglySorted ranks_before
               (fold_left (fun acc x => insert_desc x acc) l acc) /\
             (forall z, In z (fold_left (fun acc x => insert_desc x acc) l acc)
                        <-> In z acc \/ In z l) /\
             length (fold_left (fun acc x => insert_desc x acc) l acc)
             = (length acc + length l)%nat).
  { induction l as [|x l IH]; intros acc Hs; cbn [fold_left].
    - split; [exact Hs|]. split; [cbn; intuition|cbn; lia].
    - destruct (IH (insert_desc x acc) (insert_desc_sorted x acc Hs)) as (H1 & H2 & H3).
      split; [exact H1|]. split.
      + intro z. rewrite H2, insert_desc_in. cbn [In]. intuition.
      + rewrite H3, insert_desc_length. cbn [length]. lia. }
  destruct (H [] (SSorted_nil _)) as (H1 & H2 & H3).
  split; [exact H1|]. split; [|exact H3].
  intro z. rewrite H2. cbn. intuition.
Qed.

Lemma firstn_sorted (n : nat) (l : list ScanResult) :
  StronglySorted ranks_before l -> StronglySorted ranks_before (firstn n l).
Proof.
  revert n. induction l as [|y l IH]; intros n Hs.
  - rewrite firstn_nil. constructor.
  - destruct n as [|n]; [constructor|]. cbn [firstn].
    apply StronglySorted_inv in Hs. destruct Hs as [Hs Hy].
    constructor; [exact (IH n Hs)|].
    apply Forall_forall. intros z Hz.
    apply (proj1 (Forall_forall _ _) Hy). exact (in_firstn _ _ _ Hz).
Qed.

Lemma scan_one_spec (run : string * Outcome) (x : ScanResult) :
  In x (scan_one run) ->
  sr_symbol x = fst run /\ sr_final_signal x <> "neutral"%string /\
  0 < sr_probability x /\
  exists a d p, snd run = Analysed a d p /\
                sr_final_signal x = final_signal a /\
                sr_probability x = probability a /\
                sr_confirmations x = count (confirmations a).
Proof.
  unfold scan_one. destruct (snd run) as [e d|a d p]; [intros []|].
  destruct (String.eqb (final_signal a) "neutral") eqn:En; [intros []|].
  cbn [negb andb]. destruct (Qltb 0 (probability a)) eqn:Ep; [|intros []].
  intros [<-|[]]. cbn. split; [reflexivity|].
  split; [now apply String.eqb_neq|]. split; [now apply Qltb_lt|].
  exists a, d, p. repeat split.
Qed.

Lemma scan_one_length (run : string * Outcome) : (length (scan_one run) <= 1)%nat.
Proof.
  unfold scan_one. destruct (snd run); [cbn; lia|].
  destruct (_ && _); cbn; lia.
Qed.

Lemma flat_map_scan_length (runs : list (string * Outcome)) :
  (length (flat_map scan_one runs) <= length runs)%nat.
Proof.
  induction runs as [|run runs IH]; cbn [flat_map length]; [lia|].
  rewrite length_app. pose proof (scan_one_length run). lia.
Qed.

(** X25: what [scan_market] returns.  Every result stands for a pair
    whose analysis succeeded with a signal other than neutral and a
    positive probability, and repeats that analysis's figures; the
    results are listed by decreasing probability, ties by decreasing
    confirmation count, so the first one is a best candidate; there are
    at most [max(1, top_n)] of them and at most one per scanned pair;
    and as long as one pair qualifies the list is not empty, even for a
    [top_n] of zero or less. *)
Theorem scan_market_ranks (runs : list (string * Outcome)) (top_n : Z) :
  let out := scan_market runs top_n in
  (forall x, In x out ->
     sr_final_signal x <> "neutral"%string /\ 0 < sr_probability x /\
     exists a d p, In (sr_symbol x, Analysed a d p) runs /\
                   sr_final_signal x = final_signal a /\
                   sr_probability x = probability a) /\
  StronglySorted ranks_before out /\
  (forall best c, hd_error out = Some best -> In c (flat_map scan_one runs) ->
                  sr_probability c <= sr_probability best) /\
  (length out <= Z.to_nat (Z.max 1 top_n))%nat /\
  (length out <= length runs)%nat /\
  (flat_map scan_one runs <> [] -> out <> []).
Proof.
  cbv zeta. unfold scan_market.
  set (cands := flat_map scan_one runs).
  destruct (sort_desc_spec cands) as (Hs & Hin & Hlen).
  set (n := Z.to_nat (Z.max 1 top_n)).
  assert (Hn : (1 <= n)%nat) by (unfold n; lia).
  split; [|split; [|split; [|split; [|split]]]].
  - intros x Hx. apply in_firstn in Hx. apply Hin in Hx.
    unfold cands in Hx. apply in_flat_map in Hx. destruct Hx as (run & Hrun & Hx).
    destruct (scan_one_spec run x Hx) as (Hsym & Hne & Hp & a & d & p & Hr & Hf & Hpr & _).
    split; [exact Hne|]. split; [exact Hp|].
    exists a, d, p. split; [|split; assumption].
    rewrite Hsym, <- Hr. destruct run. exact Hrun.
  - apply firstn_sorted. exact Hs.
  - intros best c Hb Hc. apply Hin in Hc.
    destruct (sort_desc cands) as [|y l] eqn:E; [destruct Hc|].
    destruct n as [|n']; [lia|]. cbn [firstn hd_error] in Hb. injection Hb as <-.
    destruct Hc as [<-|Hc]; [lra|].
    apply StronglySorted_inv in Hs. destruct Hs as [_ Hy].
    pose proof (proj1 (Forall_forall _ _) Hy c Hc) as Hr. unfold ranks_before in Hr.
    destruct Hr as [Hr|[Hr _]]; lra.
  - apply firstn_le_length.
  - rewrite length_firstn, Hlen. pose proof (flat_map_scan_length runs).
    unfold cands. lia.
  - intros Hne Hout.
    assert (Hl : length (firstn n (sort_desc cands)) = 0%nat) by (rewrite Hout; reflexivity).
    rewrite length_firstn, Hlen in Hl.
    destruct cands; [congruence|]. cbn [length] in Hl. lia.
Qed.

End ScannerProofs.

(** ** Pair selection *)

Module PairProofs.
Import Pairs.

Lemma str_in_iff (x : string) (l : list string) : str_in x l = true <-> In x l.
Proof.
  unfold str_in. rewrite existsb_exists. split.
  - intros (y & Hin & Hy). apply String.eqb_eq in Hy. now subst y.
  - intro H. exists x. split; [exact H|apply String.eqb_refl].
Qed.

Lemma str_in_false (x : string) (l : list string) : str_in x l = false -> ~ In x l.
Proof. intros H Hin. apply str_in_iff in Hin. congruence. Qed.

Lemma NoDup_snoc (l : list string) (x : string) :
  NoDup l -> ~ In x l -> NoDup (l ++ [x]).
Proof.
  intros Hl Hx. apply NoDup_app; [exact Hl|repeat constructor; intros []|].
  intros a Ha [<-|[]]. exact (Hx Ha).
Qed.

Lemma NoDup_firstn (n : nat) (l : list string) : NoDup l -> NoDup (firstn n l).
Proof.
  revert n. induction l as [|y l IH]; intros n Hl.
  - rewrite firstn_nil. constructor.
  - destruct n as [|n]; [constructor|]. cbn [firstn].
    inversion Hl as [|? ? Hy Hl']. subst.
    constructor; [|exact (IH n Hl')].
    intro H. apply Hy. exact (ScannerProofs.in_firstn _ _ _ H).
Qed.

Lemma top_up_spec (desired : nat) (valid top : list string) :
  (NoDup valid -> NoDup (top_up desired valid top)) /\
  (forall p, In p (top_up desired valid top) -> In p valid \/ In p top) /\
  (forall p, In p valid -> In p (top_up desired valid top)).
Proof.
  revert valid. induction top as [|sym rest IH]; intro valid; cbn [top_up].
  - split; [tauto|]. split; [tauto|tauto].
  - destruct (str_in sym valid) eqn:Es.
    + destruct (IH valid) as (H1 & H2 & H3). split; [exact H1|]. split; [|exact H3].
      intros p Hp. destruct (H2 p Hp); [now left|right; now right].
    + apply str_in_false in Es.
      destruct (desired <=? length (valid ++ [sym]))%nat.
      * split; [intro Hv; now apply NoDup_snoc|]. split.
        -- intros p Hp. apply in_app_or in Hp.
           destruct Hp as [Hp|[<-|[]]]; [now left|right; now left].
        -- intros p Hp. apply in_or_app. now left.
      * destruct (IH (valid ++ [sym])) as (H1 & H2 & H3). split; [|split].
        -- intro Hv. apply H1. now apply NoDup_snoc.
        -- intros p Hp. destruct (H2 p Hp) as [Hq|Hq]; [|right; now right].
           apply in_app_or in Hq. destruct Hq as [Hq|[<-|[]]]; [now left|right; now left].
        -- intros p Hp. apply H3. apply in_or_app. now left.
Qed.

(** X26: what [_refresh_scalping_pairs] stores.  Called as the scan
    loop calls it, it stores at most two pairs; starting from a stored
    list without repetitions it stores none twice; and every stored pair
    either was in the list it started from, is not on the block list and
    passed the ticker and candle check with a 24h volume of zero or of
    at least one million, or was taken from the volume ranking, which
    is not checked against the block list. *)
Theorem refresh_stores_checked_or_ranked_pairs
        (stored : list string) (probe : string -> result Q)
        (top : result (list string)) :
  let current := if negb (Fusion.nonempty stored) || (length stored <? 2)%nat
                 then DEFAULT_PAIRS else stored in
  let out := _refresh_scalping_pairs stored None probe top in
  (length out <= 2)%nat /\
  (NoDup stored -> NoDup out) /\
  (forall p, In p out ->
     (In p current /\ str_in p SCALPING_BLOCKED_PAIRS = false /\
      exists vol, probe p = Ok vol /\ (vol <= 0 \/ 1000000 <= vol))
     \/ exists ranking, top = Ok ranking /\ In p ranking).
Proof.
  cbv zeta. unfold _refresh_scalping_pairs.
  change (length DEFAULT_PAIRS) with 2%nat.
  set (current := if negb (Fusion.nonempty stored) || (length stored <? 2)%nat
                  then DEFAULT_PAIRS else stored).
  set (ranking := match top with Ok l => l | Raise _ => [] end).
  set (valid := filter (keeps probe) current).
  assert (Hkeep : forall p, In p valid ->
            In p current /\ str_in p SCALPING_BLOCKED_PAIRS = false /\
            exists vol, probe p = Ok vol /\ (vol <= 0 \/ 1000000 <= vol)).
  { intros p Hp. apply filter_In in Hp. destruct Hp as [Hin Hk].
    split; [exact Hin|]. unfold keeps in Hk.
    destruct (str_in p SCALPING_BLOCKED_PAIRS); [discriminate|].
    split; [reflexivity|].
    destruct (probe p) as [vol|e]; [|discriminate].
    exists vol. split; [reflexivity|].
    apply negb_true_iff, andb_false_iff in Hk.
    destruct Hk as [Hk|Hk]; apply Qltb_ge in Hk; [now left|now right]. }
  assert (Hrank : forall p, In p ranking -> exists l, top = Ok l /\ In p l).
  { unfold ranking. destruct top as [l|e]; [|intros p []].
    intros p Hp. exists l. now split. }
  destruct (top_up_spec 2 valid ranking) as (Hnd & Hin & _).
  split; [apply firstn_le_length|]. split.
  - intro Hs.
    assert (Hc : NoDup current).
    { unfold current. destruct (_ || _); [|exact Hs].
      repeat constructor; cbn; intuition discriminate. }
    assert (Hv : NoDup valid) by (apply NoDup_filter; exact Hc).
    apply NoDup_firstn. destruct (length valid <? 2)%nat; [exact (Hnd Hv)|exact Hv].
  - intros p Hp. apply ScannerProofs.in_firstn in Hp.
    destruct (length valid <? 2)%nat.
    + destruct (Hin p Hp) as [Hv|Hr]; [left; exact (Hkeep p Hv)|right; exact (Hrank p Hr)].
    + left. exact (Hkeep p Hp).
Qed.

(** X27: no blocked pair is ever scanned.  Whatever the stored list
    holds, for instance after a refresh has topped it up from the
    volume ranking, the pairs scanned in a cycle are outside the block
    list and come from the stored list or from the two default pairs.
    A stored list with fewer than two pairs is replaced by the
    defaults, which are then scanned in full; a longer one is kept and
    scanned without its blocked pairs. *)
Theorem scan_list_never_blocked (user_pairs : list string) :
  let scanned := fst (cycle_pairs user_pairs) in
  let stored := snd (cycle_pairs user_pairs) in
  (forall p, In p scanned ->
     str_in p SCALPING_BLOCKED_PAIRS = false /\ In p stored /\
     (In p user_pairs \/ In p DEFAULT_PAIRS)) /\
  ((length user_pairs < 2)%nat -> scanned = DEFAULT_PAIRS /\ stored = DEFAULT_PAIRS) /\
  ((2 <= length user_pairs)%nat ->
   stored = user_pairs /\
   forall p, In p user_pairs -> str_in p SCALPING_BLOCKED_PAIRS = false -> In p scanned).
Proof.
  cbv zeta. unfold cycle_pairs. change (length DEFAULT_PAIRS) with 2%nat.
  destruct (Fusion.nonempty user_pairs && (2 <=? length user_pairs)%nat) eqn:E;
    cbn [fst snd].
  - apply andb_true_iff in E. destruct E as [_ E]. apply Nat.leb_le in E.
    split; [|split].
    + intros p Hp. apply filter_In in Hp. destruct Hp as [Hin Hb].
      apply negb_true_iff in Hb. split; [exact Hb|]. split; [exact Hin|now left].
    + intro H. lia.
    + intros _. split; [reflexivity|]. intros p Hin Hb.
      apply filter_In. split; [exact Hin|]. now rewrite Hb.
  - assert (Hlen : (length user_pairs < 2)%nat).
    { apply andb_false_iff in E. destruct E as [E|E].
      - destruct user_pairs; [cbn; lia|discriminate].
      - apply Nat.leb_gt in E. exact E. }
    split; [|split].
    + intros p Hp. apply filter_In in Hp. destruct Hp as [Hin Hb].
      apply negb_true_iff in Hb. split; [exact Hb|]. split; [exact Hin|now right].
    + intros _. split; reflexivity.
    + intro H. lia.
Qed.

End PairProofs.

(** ** Trade statistics *)

Module StatisticsProofs.
Import Store Statistics Samples MoreSamples PoolProofs.

(** The loss booked by a list of trades: minus the sum of the negative
    results. *)
Lemma losing_sum_cons (t : Trade) (ts : list Trade) :
  pysum (map pnl (losing_trades (t :: ts)))
  == (if Qltb (pnl t) 0 then pnl t else 0) + pysum (map pnl (losing_trades ts)).
Proof.
  unfold losing_trades. cbn [filter].
  destruct (Qltb (pnl t) 0); [cbn [map]; apply pysum_cons|lra].
Qed.

Lemma losing_sum_nonpos (ts : list Trade) : pysum (map pnl (losing_trades ts)) <= 0.
Proof.
  induction ts as [|t ts IH]; [unfold pysum; cbn; lra|].
  rewrite losing_sum_cons. cmp (pnl t) 0; lra.
Qed.

Lemma drawdown_fold (ts : list Trade) (c p m : Q) :
  c <= p -> 0 <= m ->
  let st := fold_left drawdown_step ts (c, p, m) in
  m <= snd st /\
  forall bound, m <= bound ->
                (p - c) - pysum (map pnl (losing_trades ts)) <= bound ->
                snd st <= bound.
Proof.
  cbv zeta. revert c p m. induction ts as [|t ts IH]; intros c p m Hcp Hm.
  - cbn [fold_left snd]. split; [lra|]. intros bound Hb _. exact Hb.
  - cbn [fold_left]. unfold drawdown_step at 2.
    set (c1 := c + pnl t).
    set (p1 := if Qltb p c1 then c1 else p).
    set (m1 := if Qltb m (p1 - c1) then p1 - c1 else m).
    assert (Hc1 : c1 <= p1) by (unfold p1; cmp p c1; lra).
    assert (Hm1 : m <= m1) by (unfold m1; cmp m (p1 - c1); lra).
    assert (Hd1 : p1 - c1 <= (p - c) - (if Qltb (pnl t) 0 then pnl t else 0)).
    { unfold p1, c1. cmp p (c + pnl t); cmp (pnl t) 0; lra. }
    destruct (IH c1 p1 m1 Hc1 ltac:(lra)) as [Hlow Hup].
    split; [lra|].
    intros bound Hb Hl. rewrite losing_sum_cons in Hl.
    pose proof (losing_sum_nonpos ts) as Hneg.
    apply Hup.
    + unfold m1. cmp m (p1 - c1); lra.
    + lra.
Qed.

(** X28: the maximum drawdown of a trade list is never negative and
    never exceeds the gross loss that [get_statistics] reports for the
    same trades; in particular it is zero when no trade lost. *)
Theorem max_drawdown_within_gross_loss (trades : list Trade) :
  0 <= _calculate_max_drawdown trades /\
  _calculate_max_drawdown trades <= total_loss trades /\
  (losing_trades trades = [] -> _calculate_max_drawdown trades == 0).
Proof.
  assert (Hloss : total_loss trades == - pysum (map pnl (losing_trades trades))).
  { unfold total_loss. apply Qabs_neg. apply losing_sum_nonpos. }
  assert (H : 0 <= _calculate_max_drawdown trades /\
              _calculate_max_drawdown trades <= total_loss trades).
  { unfold _calculate_max_drawdown.
    destruct trades as [|t ts]; [rewrite Hloss; unfold pysum; cbn; lra|].
    destruct (drawdown_fold (t :: ts) 0 0 0) as [Hlow Hup]; try lra.
    split; [exact Hlow|]. apply Hup; [|lra].
    pose proof (losing_sum_nonpos (t :: ts)). lra. }
  destruct H as [H0 H1]. split; [exact H0|]. split; [exact H1|].
  intro Hnone. rewrite Hloss, Hnone in H1.
  change (pysum (map pnl [])) with 0 in H1. lra.
Qed.

End StatisticsProofs.

(** ** Order flow *)

Module OrderFlowProofs.
Import Engine OrderFlowAnalysis Samples MoreSamples ClassifierProofs.

Lemma round_half_even_le (y : Q) (k : Z) :
  y <= inject_Z k -> (round_half_even y <= k)%Z.
Proof.
  intro H. unfold round_half_even.
  pose proof (Qfloor_le y) as Hf.
  assert (Hfk : (Qfloor y <= k)%Z) by (rewrite Zle_Qle; lra).
  cmp (y - inject_Z (Qfloor y)) (1 # 2); [exact Hfk|].
  assert (Hlt : (Qfloor y < k)%Z) by (rewrite Zlt_Qlt; lra).
  destruct (Qltb _ _); [lia|]. destruct (Z.even _); lia.
Qed.

Lemma round_half_even_ge (y : Q) (k : Z) :
  inject_Z k <= y -> (k <= round_half_even y)%Z.
Proof.
  intro H. unfold round_half_even.
  pose proof (Qlt_floor y) as Hf.
  assert (Hkf : (k <= Qfloor y)%Z).
  { assert (Hlt : (k < Qfloor y + 1)%Z) by (rewrite Zlt_Qlt; lra). lia. }
  destruct (Qltb _ _); [exact Hkf|].
  destruct (Qltb _ _); [lia|]. destruct (Z.even _); lia.
Qed.

(** Rounding to two decimals keeps a value inside bounds that are
    themselves hundredths. *)
Lemma pyround2_bounds (x : Q) (lo hi : Z) :
  inject_Z lo <= x * 100 -> x * 100 <= inject_Z hi ->
  inject_Z lo * (1 # 100) <= pyround x 2 /\ pyround x 2 <= inject_Z hi * (1 # 100).
Proof.
  intros Hlo Hhi. unfold pyround.
  change (pow10 2) with 100.
  pose proof (round_half_even_ge (x * 100) lo Hlo) as H1.
  pose proof (round_half_even_le (x * 100) hi Hhi) as H2.
  rewrite Zle_Qle in H1, H2.
  set (v := inject_Z (round_half_even (x * 100))) in *.
  assert (Hd : v / 100 == v * (1 # 100)) by field.
  rewrite Hd. split; lra.
Qed.

(** Direction and raw strength without an order book (ratio 1). *)
Lemma flow_direction_no_book (bull bear : Q) :
  let out := flow_direction bull bear 1 in
  (fst out = "bullish"%string /\ bear * (12 # 10) < bull
   /\ (12 # 10) <= snd out /\ snd out <= 5)
  \/ (fst out = "bearish"%string /\ bull * (12 # 10) < bear /\ bull <= bear * (12 # 10)
      /\ (12 # 10) <= snd out /\ snd out <= 5)
  \/ (fst out = "neutral"%string /\ snd out = 1).
Proof.
  cbv zeta. unfold flow_direction.
  replace (Qltb (12 # 10) 1) with false by reflexivity.
  replace (Qltb 1 (83 # 100)) with false by reflexivity.
  rewrite !orb_false_r.
  cmp (bear * (12 # 10)) bull.
  - left. cbn [fst snd]. split; [reflexivity|]. split; [exact E|].
    cmp 0 bear; [|lra].
    assert (Hr : (12 # 10) < bull / bear) by (apply Qlt_div_iff; lra).
    unfold pymin. cmp 5 (bull / bear); lra.
  - cmp (bull * (12 # 10)) bear.
    + right. left. cbn [fst snd]. split; [reflexivity|]. split; [exact E0|].
      split; [exact E|].
      cmp 0 bull; [|lra].
      assert (Hr : (12 # 10) < bear / bull) by (apply Qlt_div_iff; lra).
      unfold pymin. cmp 5 (bear / bull); lra.
    + right. right. split; reflexivity.
Qed.

(** X29: the order-flow report.  Its signal is long only for a bullish
    direction with the last close above the close three candles back,
    short only for a bearish direction with the last close not above
    it, and a neutral direction always reports signal neutral and
    strength 1.  A bid/ask volume ratio above 1.2 makes the direction
    bullish whatever the candle volumes say.  Without an order book a
    directional flow means one side's candle volume exceeds 1.2 times
    the other's, and the reported strength lies between 1.2 and 5. *)
Theorem order_flow_report
        (ohlcv : list Candle) (orderbook : option OrderBook) (rep : FlowReport) :
  analyze_order_flow ohlcv orderbook = Some rep ->
  (fr_signal rep = "long"%string ->
   fr_direction rep = "bullish"%string /\ fr_recent_trend rep = "up"%string) /\
  (fr_signal rep = "short"%string ->
   fr_direction rep = "bearish"%string /\ fr_recent_trend rep = "down"%string) /\
  (fr_direction rep = "neutral"%string ->
   fr_signal rep = "neutral"%string /\ fr_strength rep == 1) /\
  ((12 # 10) < snd (book_delta orderbook) -> fr_direction rep = "bullish"%string) /\
  (orderbook = None -> fr_direction rep <> "neutral"%string ->
   (12 # 10) <= fr_strength rep /\ fr_strength rep <= 5 /\
   (fr_direction rep = "bullish"%string ->
    fr_bearish_volume rep * (12 # 10) < fr_bullish_volume rep) /\
   (fr_direction rep = "bearish"%string ->
    fr_bullish_volume rep * (12 # 10) < fr_bearish_volume rep)).
Proof.
  unfold analyze_order_flow.
  destruct (length ohlcv <? 10)%nat; [discriminate|]. cbv zeta.
  set (bull := pysum (map volume (filter (fun c => Qltb (open c) (close c)) ohlcv))).
  set (bear := pysum (map volume (filter (fun c => Qltb (close c) (open c)) ohlcv))).
  set (up := Qltb (hd 0 (map close (lastn 3 ohlcv))) (last (map close (lastn 3 ohlcv)) 0)).
  destruct (book_delta orderbook) as [[delta dp] ratio] eqn:Eb.
  destruct (flow_direction bull bear ratio) as [dir str] eqn:Ed.
  intro H. injection H as <-.
  cbn [fr_signal fr_direction fr_recent_trend fr_strength fr_bullish_volume
       fr_bearish_volume snd].
  assert (Hdir : dir = "bullish"%string \/ dir = "bearish"%string
                 \/ (dir = "neutral"%string /\ str = 1)).
  { unfold flow_direction in Ed.
    destruct (_ || _); [injection Ed as <- _; now left|].
    destruct (_ || _); injection Ed as <- <-; [right; now left|right; right; now split]. }
  split; [|split; [|split; [|split]]].
  - destruct Hdir as [->|[->|[-> _]]]; destruct up; cbn; intro H;
      try discriminate H; split; reflexivity.
  - destruct Hdir as [->|[->|[-> _]]]; destruct up; cbn; intro H;
      try discriminate H; split; reflexivity.
  - intros ->. destruct Hdir as [H|[H|[_ ->]]]; try discriminate H.
    rewrite !andb_false_r. destruct up; cbn [String.eqb Ascii.eqb Bool.eqb andb];
      split; try reflexivity; vm_compute; reflexivity.
  - intro Hr. unfold flow_direction in Ed. apply Qltb_lt in Hr. rewrite Hr in Ed.
    rewrite orb_true_r in Ed. injection Ed as <- _. reflexivity.
  - intros -> Hne. cbn [book_delta] in Eb. injection Eb as <- <- <-.
    replace (Qltb 0 0) with false by reflexivity. cbn [andb].
    pose proof (flow_direction_no_book bull bear) as Hnb. cbv zeta in Hnb.
    rewrite Ed in Hnb. cbn [fst snd] in Hnb.
    destruct Hnb as [(-> & Hv & Hlo & Hhi)|[(-> & Hv & Hv' & Hlo & Hhi)|(-> & _)]];
      [| |congruence].
    + destruct (pyround2_bounds str 120 500) as [B1 B2];
        [unfold inject_Z; lra|unfold inject_Z; lra|].
      unfold inject_Z in B1, B2.
      split; [lra|]. split; [lra|]. split; [intros _; exact Hv|intro H; discriminate H].
    + destruct (pyround2_bounds str 120 500) as [B1 B2];
        [unfold inject_Z; lra|unfold inject_Z; lra|].
      unfold inject_Z in B1, B2.
      split; [lra|]. split; [lra|]. split; [intro H; discriminate H|intros _; exact Hv].
Qed.

Lemma order_flow_report_witness :
  exists rep, analyze_order_flow buying_candles None = Some rep /\
              fr_signal rep = "long"%string /\
              (12 # 10) <= fr_strength rep /\ fr_strength rep <= 5.
Proof.
  destruct (analyze_order_flow buying_candles None) as [rep|] eqn:E;
    [|vm_compute in E; discriminate E].
  exists rep. split; [reflexivity|].
  destruct (order_flow_report buying_candles None rep E) as (Hlong & _ & _ & _ & Hnb).
  assert (Hs : fr_signal rep = "long"%string).
  { vm_compute in E. injection E as <-. reflexivity. }
  split; [exact Hs|].
  destruct (Hlong Hs) as [Hd _].
  destruct (Hnb eq_refl) as (H1 & H2 & _); [rewrite Hd; discriminate|].
  split; assumption.
Defined.

End OrderFlowProofs.

(** ** The signals of the comprehensive analysis *)

Module PipelineProofs.
Import Engine LiquidityPools OrderFlowAnalysis Pipeline Samples MoreSamples.

Lemma build_profile_exn (low_min level_size : Q) (cs : list Candle) (p : Profile)
      (e : exn) :
  build_profile low_min level_size cs p = Raise e ->
  e = ValueError \/ e = OverflowError.
Proof.
  revert p. induction cs as [|c cs IH]; intro p; cbn [build_profile]; [discriminate|].
  unfold bucket. destruct (np_div (low c - low_min) level_size) as [q| | |];
    cbn [py_int bind].
  - apply IH.
  - intro H. injection H as <-. now left.
  - intro H. injection H as <-. now right.
  - intro H. injection H as <-. now right.
Qed.

Lemma liquidity_pools_exn (ohlcv : list Candle) (e : exn) :
  analyze_liquidity_pools ohlcv = Raise e -> e = ValueError \/ e = OverflowError.
Proof.
  unfold analyze_liquidity_pools. destruct (length ohlcv <? 10)%nat; [discriminate|].
  destruct (build_profile _ _ ohlcv []) as [p|e'] eqn:Eb.
  - cbn [bind]. destruct (poc_of p). discriminate.
  - cbn [bind]. intro H. injection H as <-. exact (build_profile_exn _ _ _ _ _ Eb).
Qed.

(** X30: [comprehensive_analysis] needs ten candles.  On fewer, every
    detector returns its empty result, the signal generator subscripts
    the empty order-flow dictionary, and the call raises a key error;
    on ten candles or more it never raises this error. *)
Theorem comprehensive_signals_need_ten_candles
        (ohlcv : list Candle) (orderbook : option OrderBook) :
  comprehensive_signals ohlcv orderbook = Raise KeyError <-> (length ohlcv < 10)%nat.
Proof.
  unfold comprehensive_signals. split.
  - intro H. destruct (le_lt_dec 10 (length ohlcv)) as [Hge|Hlt]; [|exact Hlt].
    exfalso.
    destruct (analyze_liquidity_pools ohlcv) as [r|e] eqn:Ep.
    + cbn [bind] in H. unfold analyze_order_flow in H.
      assert (Hl : (length ohlcv <? 10)%nat = false) by (apply Nat.ltb_ge; exact Hge).
      rewrite Hl in H. cbv zeta in H.
      destruct (book_delta orderbook) as [[delta dp] ratio].
      destruct (flow_direction _ _ ratio). discriminate H.
    + cbn [bind] in H. injection H as ->.
      destruct (liquidity_pools_exn ohlcv KeyError Ep); discriminate.
  - intro Hlt. apply Nat.ltb_lt in Hlt.
    unfold analyze_liquidity_pools, analyze_order_flow. rewrite Hlt. reflexivity.
Qed.

Lemma comprehensive_signals_need_ten_candles_witness :
  comprehensive_signals gap_down_candles None = Raise KeyError.
Proof.
  apply comprehensive_signals_need_ten_candles. vm_compute. lia.
Defined.

End PipelineProofs.
